(** * Quiz-app: the question abstraction, the quiz state machine and its
      persistence, embedded from [Question], [MultipleChoiceQuestion],
      [TrueFalseQuestion] and [Quiz].

    Conventions of the embedding.
    - A JavaScript number that the code only counts with (a score, a list
      length, a millisecond timestamp) is an integer ([nat] or [Z]); where
      the code divides or multiplies by a fraction the operands are
      converted to IEEE-754 binary64 ([float], the kernel's primitive
      floats), which is what a JavaScript number is. The attempts of a
      quiz, which [loadFromStorage] copies from any stored number, are a
      [float].
    - Ids are integers; the one sum the code takes of an id is rounded to
      the nearest binary64 number. Texts, options and answers are strings.
    - A thrown exception is the [Throw] outcome of a computation; mutation
      done before the throw stays in the state, as in JavaScript.
    - [localStorage] is a finite map from keys to stored items, with a
      quota that decides whether [setItem] throws; [new Date()] reads the
      next value of a clock.
    - The questions of a quiz are values, one per array entry: the model is
      that of an array of pairwise distinct [Question] objects. A statement
      that depends on it assumes pairwise different ids, which no two
      entries holding one object have. *)

From Stdlib Require Import ZArith Floats Lia.
From stdpp Require Import base strings list gmap.

Local Open Scope Z_scope.

(** ** JavaScript numbers *)

Module Number.

(** An integer as a JavaScript number (exact below 2^53). *)
Definition of_Z (z : Z) : float :=
  if z <? 0 then PrimFloat.opp (PrimFloat.of_uint63 (Uint63.of_Z (- z)))
  else PrimFloat.of_uint63 (Uint63.of_Z z).

Definition of_nat (n : nat) : float := of_Z (Z.of_nat n).

(** The numerator of a finite float [(-1)^s * m * 2^e]. *)
Definition signed (s : bool) (m : positive) : Z :=
  if s then Z.neg m else Z.pos m.

(** An integral result as a float; a zero result keeps the sign of the
    argument, as the [Math] functions do. *)
Definition integral (s : bool) (r : Z) : float :=
  if r =? 0 then (if s then PrimFloat.neg_zero else PrimFloat.zero)
  else of_Z r.

(** A float used as an array index: [Some i] when it is a non-negative
    integer. *)
Definition to_index (x : float) : option nat :=
  match Prim2SF x with
  | S754_zero _ => Some 0%nat
  | S754_finite false m e =>
      if 0 <=? e then Some (Z.to_nat (Z.pos m * 2 ^ e))
      else if Z.pos m mod 2 ^ (- e) =? 0
           then Some (Z.to_nat (Z.pos m / 2 ^ (- e)))
           else None
  | _ => None
  end.

(** ToBoolean on a number: [0], [-0] and [NaN] are falsy. *)
Definition truthy (x : float) : bool :=
  match Prim2SF x with
  | S754_zero _ | S754_nan => false
  | _ => true
  end.

(** [JSON.parse(JSON.stringify(x))] on a number: NaN and the infinities
    are written as [null], [-0] as [0], and every other number reads back
    as itself. *)
Definition to_JSON (x : float) : option float :=
  match Prim2SF x with
  | S754_nan | S754_infinity _ => None
  | S754_zero _ => Some PrimFloat.zero
  | S754_finite _ _ _ => Some x
  end.

(** The binary64 number nearest to the integer [z], a tie going to the even
    significand: [z] itself up to [2^53] in magnitude, and above that a
    multiple of the spacing [2^e] of the numbers around [z]. It is what an
    addition of two numbers that hold integers returns when [z] is their
    exact sum (within the range of binary64). *)
Definition nearest (z : Z) : Z :=
  let a := Z.abs z in
  if a <=? 2 ^ 53 then z
  else
    let e := Z.log2 a - 52 in
    let q := a / 2 ^ e in
    let r := a mod 2 ^ e in
    let q' := if 2 * r <? 2 ^ e then q
              else if 2 ^ e <? 2 * r then q + 1
              else if Z.even q then q else q + 1 in
    Z.sgn z * (q' * 2 ^ e).

End Number.

Module Math.

(** [Math.round]: the nearest integer, a tie going towards +infinity;
    NaN, the infinities, the zeros and integral values are returned as
    they are. *)
Definition round (x : float) : float :=
  match Prim2SF x with
  | S754_finite s m e =>
      if 0 <=? e then x
      else Number.integral s
             ((2 * Number.signed s m + 2 ^ (- e)) / (2 * 2 ^ (- e)))
  | _ => x
  end.

(** [Math.ceil]. *)
Definition ceil (x : float) : float :=
  match Prim2SF x with
  | S754_finite s m e =>
      if 0 <=? e then x
      else Number.integral s (- ((- Number.signed s m) / 2 ^ (- e)))
  | _ => x
  end.

(** [Math.floor]. *)
Definition floor (x : float) : float :=
  match Prim2SF x with
  | S754_finite s m e =>
      if 0 <=? e then x
      else Number.integral s (Number.signed s m / 2 ^ (- e))
  | _ => x
  end.

End Math.

Arguments Number.of_Z : simpl never.
Arguments Number.nearest : simpl never.
Arguments Number.of_nat : simpl never.
Arguments Number.integral : simpl never.
Arguments Math.round : simpl never.
Arguments Math.ceil : simpl never.
Arguments Math.floor : simpl never.

(** ** Exceptions *)

(** The errors the core throws, one constructor per [throw new Error(...)]
    of the source. *)
Inductive Error : Type :=
  | InvalidQuestionParameters   (* 'Invalid question parameters provided' *)
  | CorrectAnswerNotAnOption    (* 'Correct answer must be one of the provided options' *)
  | AnswerNotAnOption           (* 'Selected answer must be one of the available options' *)
  | OptionCountOutOfRange       (* 'Multiple choice questions must have between 2 and 6 options' *)
  | CorrectAnswerNotTrueFalse   (* 'Correct answer for True/False question must be "True" or "False"' *)
  | QuestionNotFound (id : Z)   (* `Question with ID ${questionId} not found` *)
  | NotAllAnswered              (* 'Cannot submit quiz: not all questions have been answered' *)
  | AlreadySubmitted            (* 'Quiz has already been submitted' *)
  | SyntaxError                 (* thrown by JSON.parse *)
  | RangeError                  (* thrown by toISOString on an Invalid Date *)
  | QuotaExceededError.         (* thrown by localStorage.setItem *)

Inductive outcome (A : Type) : Type :=
  | Return (a : A)
  | Throw (e : Error).
Arguments Return {A} a.
Arguments Throw {A} e.

Definition returned {A} (o : outcome A) : bool :=
  match o with Return _ => true | Throw _ => false end.

(** [Array.prototype.includes] on an array of strings. *)
Fixpoint includes (l : list string) (x : string) : bool :=
  match l with
  | [] => false
  | y :: l' => String.eqb y x || includes l' x
  end.

(** ToBoolean on a string: only the empty string is falsy. *)
Definition nonempty (s : string) : bool := negb (String.eqb s "").

(** ** Dates *)

Module Date.

(** A [Date] object: a time value in milliseconds since the epoch, or the
    Invalid Date that [new Date(v)] builds from a value [v] that denotes no
    time. Both are objects, hence truthy. *)
Inductive t : Type :=
  | Time (ms : Z)
  | Invalid.

(** [date.toISOString()]: the text of a valid date, kept as the date that
    [new Date(text)] reads back from it; a [RangeError] on an Invalid
    Date. *)
Definition toISOString (date : t) : outcome t :=
  match date with
  | Time ms => Return (Time ms)
  | Invalid => Throw RangeError
  end.

(** [endTime - date], for the time value [endTime] of a valid date: the
    difference of the two time values as a number, NaN when [date] is
    invalid. *)
Definition since (date : t) (endTime : Z) : float :=
  match date with
  | Time ms => Number.of_Z (endTime - ms)
  | Invalid => PrimFloat.nan
  end.

End Date.

(** ** Question *)

Module Question.

(** The fields of a [Question] object. [_options] is an array by its
    type, so the [Array.isArray] test of the source always passes. *)
Record t : Type := mk {
  _id : Z;
  _text : string;
  _options : list string;
  _correctAnswer : string;
  _type : string;
  _selectedAnswer : option string
}.

(** [!this._id] holds of the id 0, [!this._text] of the empty text. *)
Definition _validateInput (this : t) : outcome unit :=
  if (_id this =? 0) || negb (nonempty (_text this))
     || negb (nonempty (_correctAnswer this))
  then Throw InvalidQuestionParameters
  else if negb (includes (_options this) (_correctAnswer this))
  then Throw CorrectAnswerNotAnOption
  else Return tt.

(** [new Question(id, text, options, correctAnswer, type)]. *)
Definition new (id : Z) (text : string) (options : list string)
    (correctAnswer : string) (type : string) : outcome t :=
  let this := mk id text options correctAnswer type None in
  match _validateInput this with
  | Throw e => Throw e
  | Return _ => Return this
  end.

Definition isCorrect (this : t) : bool :=
  match _selectedAnswer this with
  | Some a => String.eqb a (_correctAnswer this)
  | None => false
  end.

Definition setAnswer (answer : string) (this : t) : outcome t :=
  if includes (_options this) answer
  then Return (mk (_id this) (_text this) (_options this)
                  (_correctAnswer this) (_type this) (Some answer))
  else Throw AnswerNotAnOption.

Definition resetAnswer (this : t) : t :=
  mk (_id this) (_text this) (_options this) (_correctAnswer this)
     (_type this) None.

(** [selectedAnswer !== null]. *)
Definition isAnswered (this : t) : bool :=
  match _selectedAnswer this with Some _ => true | None => false end.

Module JSON.
(** The object that [toJSON] serialises and that [fromJSON], and
    [Quiz.fromExportedData], read: as for the persisted quiz state, the
    JSON text is kept as the record it parses to. [type] is [None] when the
    property is absent. *)
Record t : Type := mk {
  id : Z;
  text : string;
  options : list string;
  correctAnswer : string;
  type : option string;
  selectedAnswer : option string
}.
End JSON.

Definition toJSON (this : t) : JSON.t :=
  JSON.mk (_id this) (_text this) (_options this) (_correctAnswer this)
          (Some (_type this)) (_selectedAnswer this).

(** [Question.fromJSON]; an absent [type] takes the default of the
    constructor's parameter. *)
Definition fromJSON (data : JSON.t) : outcome t :=
  match new (JSON.id data) (JSON.text data) (JSON.options data)
            (JSON.correctAnswer data)
            (match JSON.type data with
             | Some type => type
             | None => "multiple-choice"
             end) with
  | Throw e => Throw e
  | Return question =>
      match JSON.selectedAnswer data with
      | Some answer =>
          if nonempty answer then setAnswer answer question
          else Return question
      | None => Return question
      end
  end.

End Question.

Module MultipleChoiceQuestion.

Definition _validateMultipleChoiceOptions (this : Question.t) : outcome unit :=
  if (length (Question._options this) <? 2)%nat
     || (6 <? length (Question._options this))%nat
  then Throw OptionCountOutOfRange
  else Return tt.

(** [new MultipleChoiceQuestion(id, text, options, correctAnswer)]. *)
Definition new (id : Z) (text : string) (options : list string)
    (correctAnswer : string) : outcome Question.t :=
  match Question.new id text options correctAnswer "multiple-choice" with
  | Throw e => Throw e
  | Return this =>
      match _validateMultipleChoiceOptions this with
      | Throw e => Throw e
      | Return _ => Return this
      end
  end.

End MultipleChoiceQuestion.

Module TrueFalseQuestion.

(** [new TrueFalseQuestion(id, text, correctAnswer)]. *)
Definition new (id : Z) (text : string) (correctAnswer : string)
    : outcome Question.t :=
  if negb (includes ["True"; "False"] correctAnswer)
  then Throw CorrectAnswerNotTrueFalse
  else Question.new id text ["True"; "False"] correctAnswer "true-false".

Definition getCorrectAnswerAsBoolean (this : Question.t) : bool :=
  String.eqb (Question._correctAnswer this) "True".

Definition getSelectedAnswerAsBoolean (this : Question.t) : option bool :=
  match Question._selectedAnswer this with
  | None => None
  | Some answer => Some (String.eqb answer "True")
  end.

Definition setAnswerFromBoolean (booleanAnswer : bool) (this : Question.t)
    : outcome Question.t :=
  let stringAnswer := if booleanAnswer then "True" else "False" in
  Question.setAnswer stringAnswer this.

(** [TrueFalseQuestion.fromBoolean]. *)
Definition fromBoolean (id : Z) (statement : string) (isTrue : bool)
    : outcome Question.t :=
  let correctAnswer := if isTrue then "True" else "False" in
  new id statement correctAnswer.

Section Negation.

(** [String.prototype.toLowerCase], taken as it is. *)
Variable toLowerCase : string -> string.

Definition _negateStatement (statement : string) : string :=
  if String.prefix "the " (toLowerCase statement)
     || String.prefix "a " (toLowerCase statement)
  then statement ++ " is not true"
  else "It is not true that " ++ toLowerCase statement.

Definition createOppositeQuestion (this : Question.t) : outcome Question.t :=
  let oppositeAnswer :=
    if String.eqb (Question._correctAnswer this) "True"
    then "False" else "True" in
  let negatedText := _negateStatement (Question._text this) in
  new (Number.nearest (Question._id this + 1000)) negatedText oppositeAnswer.

End Negation.

End TrueFalseQuestion.

(** ** The persisted record and [localStorage] *)

Module SavedAnswer.
(** One entry [{id, selectedAnswer}] of the persisted [answers] array. *)
Record t : Type := mk {
  id : Z;
  selectedAnswer : option string
}.
End SavedAnswer.

Module QuizState.
(** The object that [_saveToStorage] serialises and [loadFromStorage]
    parses back. A field that a stored text may lack, or hold with another
    type, is an option: [answers] is [None] when it is not an array,
    [attempts] when it is not a number. [startTime] is [None] when the
    stored value is falsy (null, absent, empty), and otherwise the date
    that [new Date(state.startTime)] builds from it: the Invalid Date when
    the value denotes no time. [isCompleted] is the truthiness of the
    stored value. *)
Record t : Type := mk {
  answers : option (list SavedAnswer.t);
  startTime : option Date.t;
  isCompleted : bool;
  attempts : option float;
  version : string
}.
End QuizState.

(** What a key of [localStorage] holds: the JSON text of a quiz state, kept
    as the record it parses to ([JSON.parse] after [JSON.stringify] is the
    identity on the records that [_saveToStorage] writes), a text that
    [JSON.parse] rejects, or the empty text, which is falsy. *)
Inductive Item : Type :=
  | Saved (state : QuizState.t)
  | Unparsable
  | Empty.

Definition JSON_parse (item : Item) : outcome QuizState.t :=
  match item with
  | Saved state => Return state
  | Unparsable => Throw SyntaxError
  | Empty => Throw SyntaxError
  end.

(** ** Quiz: configuration and state *)

Module Options.
(** The [options] argument of [new Quiz(questions, options)]; an absent
    property is [None]. *)
Record t : Type := mk {
  passThreshold : option float;
  maxAttempts : option float;
  timeLimit : option float;
  shuffleQuestions : option bool;
  showCorrectAnswers : option bool;
  saveProgress : option bool;
  storageKey : option string
}.
End Options.

Module Config.
(** [this._config]. *)
Record t : Type := mk {
  passThreshold : float;
  maxAttempts : float;
  timeLimit : option float;
  shuffleQuestions : bool;
  showCorrectAnswers : bool;
  saveProgress : bool;
  storageKey : string
}.
End Config.

Module QuestionResult.
(** One entry of [_getQuestionResults]. *)
Record t : Type := mk {
  id : Z;
  text : string;
  selectedAnswer : option string;
  correctAnswer : string;
  isCorrect : bool;
  type : string
}.
End QuestionResult.

Module Result.
(** The object returned by [submitQuiz]. *)
Record t : Type := mk {
  score : nat;
  total : nat;
  percentage : float;
  passed : bool;
  passingScore : float;
  duration : float;
  attempts : float;
  completedAt : Z;
  questions : option (list QuestionResult.t)
}.
End Result.

Module TypeStats.
(** The per-type counters of [_getQuestionTypeStats]. *)
Record t : Type := mk {
  total : nat;
  answered : nat;
  correct : nat
}.
End TypeStats.

Module Statistics.
(** The object returned by [getStatistics]. *)
Record t : Type := mk {
  totalQuestions : nat;
  answeredQuestions : nat;
  correctAnswers : nat;
  progress : float;
  isCompleted : bool;
  passed : option bool;
  duration : float;
  averageTimePerQuestion : float;
  questionTypes : gmap string TypeStats.t;
  attempts : float
}.
End Statistics.

(** ** Computations that mutate a state and may throw *)

(** A method body run on a state [S]: it ends with a returned value or a
    thrown error, and in both cases with the state as mutated so far. *)
Definition Exec (S A : Type) : Type := S -> outcome A * S.

#[global] Instance Exec_ret {S} : MRet (Exec S) :=
  λ A (a : A) (s : S), (Return a, s).

#[global] Instance Exec_bind {S} : MBind (Exec S) :=
  λ A B (f : A -> Exec S B) (c : Exec S A) (s : S),
    match c s with
    | (Return a, s') => f a s'
    | (Throw e, s') => (Throw e, s')
    end.

Definition throw {S A} (e : Error) : Exec S A := λ s, (Throw e, s).

(** [try { body } catch (error) { handler }]. *)
Definition try_catch {S A} (body : Exec S A) (handler : Error -> Exec S A)
    : Exec S A :=
  λ s, match body s with
       | (Return a, s') => (Return a, s')
       | (Throw e, s') => handler e s'
       end.

Definition modify {S} (f : S -> S) : Exec S unit := λ s, (Return tt, f s).

(** The value or error of a pure sub-computation, raised into [Exec]. *)
Definition lift {S A} (o : outcome A) : Exec S A := λ s, (o, s).

(** [array.forEach(f)]. *)
Fixpoint forEach {S A} (f : A -> Exec S unit) (l : list A) : Exec S unit :=
  match l with
  | [] => mret tt
  | x :: l' => f x ;; forEach f l'
  end.

(** A computation outside [Exec] that returns or throws an error of its
    own kind. *)
Inductive thrown (E A : Type) : Type :=
  | Returned (a : A)
  | Thrown (e : E).
Arguments Returned {E A} a.
Arguments Thrown {E A} e.

(** The errors of [Quiz.addQuestion] and [Quiz.removeQuestion]. *)
Inductive StructureError : Type :=
  | CannotAddToCompleted        (* 'Cannot add questions to a completed quiz' *)
  | CannotRemoveFromCompleted.  (* 'Cannot remove questions from a completed quiz' *)

(** [array.map(f)] with a callback that may throw: the first throw ends
    the loop. *)
Fixpoint mapM {A B} (f : A -> outcome B) (l : list A) : outcome (list B) :=
  match l with
  | [] => Return []
  | x :: l' =>
      match f x with
      | Throw e => Throw e
      | Return y =>
          match mapM f l' with
          | Throw e => Throw e
          | Return ys => Return (y :: ys)
          end
      end
  end.

Module Exported.
(** The object that [Quiz.exportData] serialises, as the record its JSON
    text parses to. [config] has the shape of the constructor's options,
    which is how [fromExportedData] uses it; [statistics] and [exportedAt]
    are not read back and are kept as computed. *)
Record t : Type := mk {
  questions : list Question.JSON.t;
  config : Options.t;
  statistics : Statistics.t;
  exportedAt : Z
}.
End Exported.

(** ** Quiz *)

Module Quiz.

(** The fields of a [Quiz] object. The entries of [_questions] are
    distinct [Question] objects, each identified by its position.
    [_startTime] is null or a [Date], which [loadFromStorage] may have
    built from a stored value; [_endTime] is null or the time value of a
    [new Date()]; [_attempts] is a number. *)
Record t : Type := mk {
  _questions : list Question.t;
  _isCompleted : bool;
  _score : nat;
  _startTime : option Date.t;
  _endTime : option Z;
  _attempts : float;
  _config : Config.t
}.

(** The quiz object with what its methods reach outside it: the browser's
    [localStorage] and the clock behind [new Date()], of which [ticks]
    readings have been taken so far. [quota items key value] tells whether
    a store that holds [items] accepts [value] under [key]: when it does
    not, [setItem] throws. [getItem] and [removeItem] do not throw. *)
Record World : Type := mkWorld {
  this : t;
  localStorage : gmap string Item;
  quota : gmap string Item -> string -> Item -> bool;
  clock : nat -> Z;
  ticks : nat
}.

(** Assignments to the fields of [this]. *)
Definition assign_questions (v : list Question.t) (q : t) : t :=
  mk v (_isCompleted q) (_score q) (_startTime q) (_endTime q) (_attempts q) (_config q).
Definition assign_isCompleted (v : bool) (q : t) : t :=
  mk (_questions q) v (_score q) (_startTime q) (_endTime q) (_attempts q) (_config q).
Definition assign_score (v : nat) (q : t) : t :=
  mk (_questions q) (_isCompleted q) v (_startTime q) (_endTime q) (_attempts q) (_config q).
Definition assign_startTime (v : option Date.t) (q : t) : t :=
  mk (_questions q) (_isCompleted q) (_score q) v (_endTime q) (_attempts q) (_config q).
Definition assign_endTime (v : option Z) (q : t) : t :=
  mk (_questions q) (_isCompleted q) (_score q) (_startTime q) v (_attempts q) (_config q).
Definition assign_attempts (v : float) (q : t) : t :=
  mk (_questions q) (_isCompleted q) (_score q) (_startTime q) (_endTime q) v (_config q).

Definition update (f : t -> t) : Exec World unit :=
  modify (λ w, mkWorld (f (this w)) (localStorage w) (quota w) (clock w)
                       (ticks w)).

Definition getThis : Exec World t := λ w, (Return (this w), w).

(** [new Date()], as milliseconds since the epoch. *)
Definition newDate : Exec World Z :=
  λ w, (Return (clock w (ticks w)),
        mkWorld (this w) (localStorage w) (quota w) (clock w) (S (ticks w))).

Definition getItem (key : string) : Exec World (option Item) :=
  λ w, (Return (localStorage w !! key), w).
Definition setItem (key : string) (value : Item) : Exec World unit :=
  λ w, if quota w (localStorage w) key value
       then (Return tt,
             mkWorld (this w) (<[key := value]> (localStorage w)) (quota w)
                     (clock w) (ticks w))
       else (Throw QuotaExceededError, w).
Definition removeItem (key : string) : Exec World unit :=
  modify (λ w, mkWorld (this w) (delete key (localStorage w)) (quota w)
                       (clock w) (ticks w)).

(** [[a[i], a[j]] = [a[j], a[i]]]; indices outside the array do not occur
    in the shuffle ([Math.random()] is below 1) and leave it as it is. *)
Definition swap (i j : nat) (qs : list Question.t) : list Question.t :=
  match qs !! i, qs !! j with
  | Some qi, Some qj => <[j := qi]> (<[i := qj]> qs)
  | _, _ => qs
  end.

(** The loop of [_shuffleQuestions] from index [i] down to 1; [random k] is
    the value of the [k]-th call of [Math.random()]. *)
Fixpoint shuffle_from (random : nat -> float) (k i : nat)
    (qs : list Question.t) : list Question.t :=
  match i with
  | O => qs
  | S i' =>
      let j := Number.to_index
                 (Math.floor (PrimFloat.mul (random k) (Number.of_nat (i + 1)))) in
      shuffle_from random (S k) i'
        (match j with Some j => swap i j qs | None => qs end)
  end.

Definition _shuffleQuestions (random : nat -> float) (qs : list Question.t)
    : list Question.t :=
  shuffle_from random 0 (length qs - 1) qs.

(** [new Quiz(questions, options)]; [0x1.6666666666666p-1] is the number
    that the literal [0.7] denotes. *)
Definition new (questions : list Question.t) (options : Options.t)
    (random : nat -> float) : t :=
  let config :=
    Config.mk
      (match Options.passThreshold options with
       | Some x => if Number.truthy x then x else 0x1.6666666666666p-1%float
       | None => 0x1.6666666666666p-1%float
       end)
      (match Options.maxAttempts options with
       | Some x => if Number.truthy x then x else PrimFloat.infinity
       | None => PrimFloat.infinity
       end)
      (match Options.timeLimit options with
       | Some x => if Number.truthy x then Some x else None
       | None => None
       end)
      (match Options.shuffleQuestions options with
       | Some b => b || false
       | None => false
       end)
      (match Options.showCorrectAnswers options with
       | Some b => b || true
       | None => true
       end)
      (match Options.saveProgress options with
       | Some false => false
       | _ => true
       end)
      (match Options.storageKey options with
       | Some k => if nonempty k then k else "quizState"
       | None => "quizState"
       end) in
  mk (if Config.shuffleQuestions config
      then _shuffleQuestions random questions else questions)
     false 0 None None 0 config.

(** [this._questions.find(q => q.id === id) || null]: the found object is
    the array entry itself, returned with its position. *)
Definition getQuestion (id : Z) (q : t) : option (nat * Question.t) :=
  list_find (λ question, Question._id question = id) (_questions q).

(** The [duration] getter, in seconds. *)
Definition duration : Exec World float :=
  q ← getThis;
  match _startTime q with
  | None => mret PrimFloat.zero
  | Some startTime =>
      endTime ← match _endTime q with
                | Some endTime => mret endTime
                | None => newDate
                end;
      mret (Math.floor (PrimFloat.div (Date.since startTime endTime)
                                      (Number.of_Z 1000)))
  end.

(** [_clearStorage]: [localStorage.removeItem(this._config.storageKey)]. *)
Definition _clearStorage : Exec World unit :=
  q ← getThis;
  try_catch (removeItem (Config.storageKey (_config q))) (λ _, mret tt).

(** The [quizState] object of [_saveToStorage] as its JSON text is read
    back, [startTime] being what the literal's [startTime] entry reads back
    as. The attempts are written as JSON writes a number. *)
Definition quizStateAt (startTime : option Date.t) (q : t) : QuizState.t :=
  QuizState.mk
    (Some (map (λ question,
                  SavedAnswer.mk (Question._id question)
                                 (Question._selectedAnswer question))
               (_questions q)))
    startTime
    (_isCompleted q)
    (Number.to_JSON (_attempts q))
    "1.0".

(** The record of a quiz whose start time is null or a valid date. *)
Definition quizState (q : t) : QuizState.t := quizStateAt (_startTime q) q.

(** [_saveToStorage]: the evaluation of the object literal throws when
    [toISOString] does, [setItem] when the quota says so, and the [catch]
    swallows both. *)
Definition _saveToStorage : Exec World unit :=
  q ← getThis;
  if negb (Config.saveProgress (_config q)) || _isCompleted q then mret tt
  else
    try_catch
      (startTime ← match _startTime q with
                   | Some date => iso ← lift (Date.toISOString date);
                                  mret (Some iso)
                   | None => mret None
                   end;
       setItem (Config.storageKey (_config q)) (Saved (quizStateAt startTime q)))
      (λ _, mret tt).

(** [setAnswer(questionId, answer)]. *)
Definition setAnswer (questionId : Z) (answer : string) : Exec World bool :=
  try_catch
    (q ← getThis;
     match getQuestion questionId q with
     | None => throw (QuestionNotFound questionId)
     | Some (i, question) =>
         question' ← lift (Question.setAnswer answer question);
         update (λ q, assign_questions (<[i := question']> (_questions q)) q);;
         q ← getThis;
         (if _startTime q is None
          then now ← newDate; update (assign_startTime (Some (Date.Time now)))
          else mret tt);;
         q ← getThis;
         (if Config.saveProgress (_config q) && negb (_isCompleted q)
          then _saveToStorage else mret tt);;
         mret true
     end)
    (λ _, mret false).

(** [resetAllAnswers]. *)
Definition resetAllAnswers : Exec World unit :=
  update (λ q, assign_questions (map Question.resetAnswer (_questions q)) q);;
  update (assign_isCompleted false);;
  update (assign_score 0);;
  update (assign_startTime None);;
  update (assign_endTime None);;
  _clearStorage.

(** [calculateScore]: the counting loop, then the assignment to [_score]. *)
Definition calculateScore : Exec World nat :=
  q ← getThis;
  let correctAnswers :=
    foldl (λ n question, if Question.isCorrect question then S n else n)
          0%nat (_questions q) in
  update (assign_score correctAnswers);;
  mret correctAnswers.

(** [isPassed]. *)
Definition isPassed (q : t) : bool :=
  let percentage :=
    PrimFloat.div (Number.of_nat (_score q))
                  (Number.of_nat (length (_questions q))) in
  PrimFloat.leb (Config.passThreshold (_config q)) percentage.

Definition areAllQuestionsAnswered (q : t) : bool :=
  forallb Question.isAnswered (_questions q).

Definition getAnsweredCount (q : t) : nat :=
  length (List.filter Question.isAnswered (_questions q)).

Definition getProgressPercentage (q : t) : float :=
  Math.round
    (PrimFloat.mul
       (PrimFloat.div (Number.of_nat (getAnsweredCount q))
                      (Number.of_nat (length (_questions q))))
       (Number.of_Z 100)).

Definition _getQuestionResults (q : t) : list QuestionResult.t :=
  map (λ question,
         QuestionResult.mk (Question._id question) (Question._text question)
           (Question._selectedAnswer question) (Question._correctAnswer question)
           (Question.isCorrect question) (Question._type question))
      (_questions q).

(** [_generateResults]. *)
Definition _generateResults : Exec World Result.t :=
  q ← getThis;
  let percentage :=
    Math.round
      (PrimFloat.mul
         (PrimFloat.div (Number.of_nat (_score q))
                        (Number.of_nat (length (_questions q))))
         (Number.of_Z 100)) in
  let passed := isPassed q in
  let passingScore :=
    Math.ceil (PrimFloat.mul (Number.of_nat (length (_questions q)))
                             (Config.passThreshold (_config q))) in
  d ← duration;
  completedAt ← newDate;
  mret (Result.mk (_score q) (length (_questions q)) percentage passed
          passingScore d (_attempts q) completedAt
          (if Config.showCorrectAnswers (_config q)
           then Some (_getQuestionResults q) else None)).

(** [submitQuiz]. *)
Definition submitQuiz : Exec World Result.t :=
  q ← getThis;
  if negb (areAllQuestionsAnswered q) then throw NotAllAnswered
  else if _isCompleted q then throw AlreadySubmitted
  else
    calculateScore;;
    update (assign_isCompleted true);;
    now ← newDate;
    update (assign_endTime (Some now));;
    update (λ q, assign_attempts (PrimFloat.add (_attempts q) 1) q);;
    _clearStorage;;
    _generateResults.

(** The callback of the [forEach] in [loadFromStorage]: restore one saved
    answer. *)
Definition restoreAnswer (savedAnswer : SavedAnswer.t) : Exec World unit :=
  q ← getThis;
  match getQuestion (SavedAnswer.id savedAnswer) q,
        SavedAnswer.selectedAnswer savedAnswer with
  | Some (i, question), Some answer =>
      if nonempty answer
      then question' ← lift (Question.setAnswer answer question);
           update (λ q, assign_questions (<[i := question']> (_questions q)) q)
      else mret tt
  | _, _ => mret tt
  end.

(** [loadFromStorage]. *)
Definition loadFromStorage : Exec World bool :=
  q ← getThis;
  if negb (Config.saveProgress (_config q)) then mret false
  else
    try_catch
      (savedState ← getItem (Config.storageKey (_config q));
       match savedState with
       | None => mret false
       | Some Empty => mret false
       | Some item =>
           state ← lift (JSON_parse item);
           if QuizState.isCompleted state
           then _clearStorage;; mret false
           else
             (match QuizState.answers state with
              | Some answers => forEach restoreAnswer answers
              | None => mret tt
              end);;
             (match QuizState.startTime state with
              | Some startTime => update (assign_startTime (Some startTime))
              | None => mret tt
              end);;
             (match QuizState.attempts state with
              | Some attempts => update (assign_attempts attempts)
              | None => mret tt
              end);;
             mret true
       end)
      (λ _, _clearStorage;; mret false).

(** One round of the loop of [_getQuestionTypeStats]. *)
Definition countType (stats : gmap string TypeStats.t) (question : Question.t)
    : gmap string TypeStats.t :=
  let type := Question._type question in
  let stats :=
    match stats !! type with
    | None => <[type := TypeStats.mk 0 0 0]> stats
    | Some _ => stats
    end in
  let stats :=
    alter (λ s, TypeStats.mk (S (TypeStats.total s)) (TypeStats.answered s)
                             (TypeStats.correct s)) type stats in
  if Question.isAnswered question then
    let stats :=
      alter (λ s, TypeStats.mk (TypeStats.total s) (S (TypeStats.answered s))
                               (TypeStats.correct s)) type stats in
    if Question.isCorrect question then
      alter (λ s, TypeStats.mk (TypeStats.total s) (TypeStats.answered s)
                               (S (TypeStats.correct s))) type stats
    else stats
  else stats.

Definition _getQuestionTypeStats (q : t) : gmap string TypeStats.t :=
  foldl countType ∅ (_questions q).

(** [getStatistics]; the [duration] getter is read twice. *)
Definition getStatistics : Exec World Statistics.t :=
  q ← getThis;
  let answeredCount := getAnsweredCount q in
  let correctCount := if _isCompleted q then _score q else 0%nat in
  d ← duration;
  averageTimePerQuestion ←
    (if (0 <? answeredCount)%nat
     then d' ← duration; mret (PrimFloat.div d' (Number.of_nat answeredCount))
     else mret PrimFloat.zero);
  mret (Statistics.mk (length (_questions q)) answeredCount correctCount
          (getProgressPercentage q) (_isCompleted q)
          (if _isCompleted q then Some (isPassed q) else None)
          d averageTimePerQuestion (_getQuestionTypeStats q) (_attempts q)).

(** [getQuestionByIndex(index)], for an integer index. *)
Definition getQuestionByIndex (index : Z) (q : t) : option Question.t :=
  if (0 <=? index) && (index <? Z.of_nat (length (_questions q)))
  then _questions q !! Z.to_nat index
  else None.

(** [addQuestion(question)]; the argument is a [Question] by its type. *)
Definition addQuestion (question : Question.t) (w : World)
    : thrown StructureError bool * World :=
  if _isCompleted (this w) then (Thrown CannotAddToCompleted, w)
  else (Returned true,
        mkWorld (assign_questions (_questions (this w) ++ [question]) (this w))
                (localStorage w) (quota w) (clock w) (ticks w)).

(** [removeQuestion(questionId)]: [findIndex], then [splice(index, 1)]. *)
Definition removeQuestion (questionId : Z) (w : World)
    : thrown StructureError bool * World :=
  if _isCompleted (this w) then (Thrown CannotRemoveFromCompleted, w)
  else
    match list_find (λ question, Question._id question = questionId)
                    (_questions (this w)) with
    | Some (index, _) =>
        (Returned true,
         mkWorld (assign_questions (delete index (_questions (this w))) (this w))
                 (localStorage w) (quota w) (clock w) (ticks w))
    | None => (Returned false, w)
    end.

(** [isTimeUp]: the clock is read only when a limit is set and the quiz
    has started. *)
Definition isTimeUp : Exec World bool :=
  q ← getThis;
  match Config.timeLimit (_config q), _startTime q with
  | Some timeLimit, Some startTime =>
      if Number.truthy timeLimit then
        now ← newDate;
        let elapsedMinutes :=
          PrimFloat.div (Date.since startTime now)
                        (PrimFloat.mul (Number.of_Z 1000) (Number.of_Z 60)) in
        mret (PrimFloat.leb timeLimit elapsedMinutes)
      else mret false
  | _, _ => mret false
  end.

(** The JSON form of [this._config]. *)
Definition exportConfig (config : Config.t) : Options.t :=
  Options.mk (Number.to_JSON (Config.passThreshold config))
             (Number.to_JSON (Config.maxAttempts config))
             (match Config.timeLimit config with
              | Some x => Number.to_JSON x
              | None => None
              end)
             (Some (Config.shuffleQuestions config))
             (Some (Config.showCorrectAnswers config))
             (Some (Config.saveProgress config))
             (Some (Config.storageKey config)).

(** [exportData]. *)
Definition exportData : Exec World Exported.t :=
  q ← getThis;
  statistics ← getStatistics;
  exportedAt ← newDate;
  mret (Exported.mk (map Question.toJSON (_questions q))
                    (exportConfig (_config q)) statistics exportedAt).

(** The callback of the [map] in [fromExportedData]. *)
Definition importQuestion (qData : Question.JSON.t) : outcome Question.t :=
  match (if match Question.JSON.type qData with
            | Some type => String.eqb type "true-false"
            | None => false
            end
         then TrueFalseQuestion.new (Question.JSON.id qData)
                (Question.JSON.text qData) (Question.JSON.correctAnswer qData)
         else MultipleChoiceQuestion.new (Question.JSON.id qData)
                (Question.JSON.text qData) (Question.JSON.options qData)
                (Question.JSON.correctAnswer qData)) with
  | Throw e => Throw e
  | Return question =>
      match Question.JSON.selectedAnswer qData with
      | Some answer =>
          if nonempty answer then Question.setAnswer answer question
          else Return question
      | None => Return question
      end
  end.

(** [Quiz.fromExportedData], on the parsed data. *)
Definition fromExportedData (data : Exported.t) (random : nat -> float)
    : outcome t :=
  match mapM importQuestion (Exported.questions data) with
  | Throw e => Throw e
  | Return questions => Return (new questions (Exported.config data) random)
  end.

End Quiz.

(** ** The question catalog *)

Module QuizQuestions.

Module Data.
(** An entry of the catalog. A required property that is absent is the
    falsy value of its type (the id 0, the empty string); [options] and
    [category] are [None] when absent. *)
Record t : Type := mk {
  id : Z;
  type : string;
  text : string;
  options : option (list string);
  correctAnswer : string;
  category : option string
}.
End Data.

(** The errors of the catalog's methods. *)
Inductive CatalogError : Type :=
  | Core (e : Error)                      (* thrown by a constructor or by JSON.parse *)
  | UnknownQuestionType (type : string)   (* `Unknown question type: ${questionData.type}` *)
  | MissingRequiredField (field : string) (* `Missing required field: ${field}` *)
  | MissingOptions                        (* 'Multiple choice questions must have options' *)
  | DuplicateId (id : Z)                  (* `Question with ID ${questionData.id} already exists` *)
  | MissingQuestionsArray                 (* 'Invalid JSON format: missing questions array' *)
  | ImportFailed (cause : CatalogError).  (* `Failed to import questions: ${error.message}` *)

(** The catalog as the file defines it. *)
Definition questions : list Data.t := [
  Data.mk 1 "multiple-choice"
    "What is the capital of France?"
    (Some ["London"; "Berlin"; "Paris"; "Madrid"])
    "Paris" (Some "Geography");
  Data.mk 2 "true-false"
    "JavaScript is a compiled language."
    None
    "False" (Some "JavaScript");
  Data.mk 3 "multiple-choice"
    "Which method is used to add an element to the end of an array?"
    (Some ["push()"; "pop()"; "shift()"; "unshift()"])
    "push()" (Some "JavaScript");
  Data.mk 4 "true-false"
    "CSS stands for Cascading Style Sheets."
    None
    "True" (Some "CSS");
  Data.mk 5 "multiple-choice"
    "What does HTML stand for?"
    (Some ["Hypertext Markup Language"; "High Tech Modern Language"; "Home Tool Markup Language"; "Hyperlink and Text Markup Language"])
    "Hypertext Markup Language" (Some "HTML");
  Data.mk 6 "true-false"
    "React is a JavaScript library for building user interfaces."
    None
    "True" (Some "JavaScript");
  Data.mk 7 "multiple-choice"
    "Which of the following is NOT a JavaScript data type?"
    (Some ["String"; "Boolean"; "Float"; "Number"])
    "Float" (Some "JavaScript");
  Data.mk 8 "multiple-choice"
    "What is the correct way to create a function in JavaScript?"
    (Some ["function myFunction() {}"; "create myFunction() {}"; "def myFunction() {}"; "func myFunction() {}"])
    "function myFunction() {}" (Some "JavaScript");
  Data.mk 9 "true-false"
    "The '===' operator in JavaScript checks for both value and type equality."
    None
    "True" (Some "JavaScript");
  Data.mk 10 "multiple-choice"
    "Which HTTP status code indicates a successful response?"
    (Some ["404"; "500"; "200"; "301"])
    "200" (Some "HTTP");
  Data.mk 11 "true-false"
    "JSON stands for JavaScript Object Notation."
    None
    "True" (Some "JavaScript");
  Data.mk 12 "multiple-choice"
    "Which method is used to convert a JSON string to a JavaScript object?"
    (Some ["JSON.stringify()"; "JSON.parse()"; "JSON.convert()"; "JSON.object()"])
    "JSON.parse()" (Some "JavaScript")
].

(** The callback of the [map] in [createQuestionInstances]. *)
Definition createQuestionInstance (questionData : Data.t)
    : thrown CatalogError Question.t :=
  if String.eqb (Data.type questionData) "true-false" then
    match TrueFalseQuestion.new (Data.id questionData) (Data.text questionData)
            (Data.correctAnswer questionData) with
    | Return question => Returned question
    | Throw e => Thrown (Core e)
    end
  else if String.eqb (Data.type questionData) "multiple-choice" then
    match Data.options questionData with
    | Some options =>
        match MultipleChoiceQuestion.new (Data.id questionData)
                (Data.text questionData) options
                (Data.correctAnswer questionData) with
        | Return question => Returned question
        | Throw e => Thrown (Core e)
        end
    | None => Thrown (Core InvalidQuestionParameters)
    end
  else Thrown (UnknownQuestionType (Data.type questionData)).

Fixpoint createQuestionInstances (catalog : list Data.t)
    : thrown CatalogError (list Question.t) :=
  match catalog with
  | [] => Returned []
  | questionData :: catalog' =>
      match createQuestionInstance questionData with
      | Thrown e => Thrown e
      | Returned question =>
          match createQuestionInstances catalog' with
          | Thrown e => Thrown e
          | Returned questions => Returned (question :: questions)
          end
      end
  end.

(** [addQuestion(questionData)] on the catalog. *)
Definition addQuestion (questionData : Data.t) (catalog : list Data.t)
    : thrown CatalogError unit * list Data.t :=
  if Data.id questionData =? 0 then (Thrown (MissingRequiredField "id"), catalog)
  else if negb (nonempty (Data.type questionData))
  then (Thrown (MissingRequiredField "type"), catalog)
  else if negb (nonempty (Data.text questionData))
  then (Thrown (MissingRequiredField "text"), catalog)
  else if negb (nonempty (Data.correctAnswer questionData))
  then (Thrown (MissingRequiredField "correctAnswer"), catalog)
  else if String.eqb (Data.type questionData) "multiple-choice"
          && match Data.options questionData with
             | None => true
             | Some _ => false
             end
  then (Thrown MissingOptions, catalog)
  else
    match List.find (λ q, Data.id q =? Data.id questionData) catalog with
    | Some _ => (Thrown (DuplicateId (Data.id questionData)), catalog)
    | None =>
        (Returned tt,
         catalog ++
         [Data.mk (Data.id questionData) (Data.type questionData)
                  (Data.text questionData) (Data.options questionData)
                  (Data.correctAnswer questionData)
                  (match Data.category questionData with
                   | Some c => Some c
                   | None => Some "Custom"
                   end)])
    end.

(** [removeQuestion(id)] on the catalog. *)
Definition removeQuestion (id : Z) (catalog : list Data.t)
    : bool * list Data.t :=
  match list_find (λ q, Data.id q = id) catalog with
  | Some (index, _) => (true, delete index catalog)
  | None => (false, catalog)
  end.

(** The text given to [importFromJSON], as what [JSON.parse] makes of it:
    a thrown [SyntaxError], or an object whose [questions] property is an
    array or not. *)
Inductive ImportText : Type :=
  | BadJSON
  | Parsed (questions : option (list Data.t)).

(** The [forEach] of [importFromJSON]: the first throw ends it, with the
    questions added so far left in the catalog. *)
Fixpoint addAll (l : list Data.t) (catalog : list Data.t)
    : thrown CatalogError unit * list Data.t :=
  match l with
  | [] => (Returned tt, catalog)
  | q :: l' =>
      match addQuestion q catalog with
      | (Thrown e, catalog') => (Thrown e, catalog')
      | (Returned _, catalog') => addAll l' catalog'
      end
  end.

(** [importFromJSON(jsonString, append)]. *)
Definition importFromJSON (jsonString : ImportText) (append : bool)
    (catalog : list Data.t) : thrown CatalogError unit * list Data.t :=
  match jsonString with
  | BadJSON => (Thrown (ImportFailed (Core SyntaxError)), catalog)
  | Parsed None => (Thrown (ImportFailed MissingQuestionsArray), catalog)
  | Parsed (Some l) =>
      match addAll l (if append then catalog else []) with
      | (Thrown e, catalog') => (Thrown (ImportFailed e), catalog')
      | (Returned _, catalog') => (Returned tt, catalog')
      end
  end.

End QuizQuestions.

Module QuizApp.

(** [_createFallbackQuestions]: the array of constructor calls, evaluated
    in order. *)
Definition _createFallbackQuestions : outcome (list Question.t) :=
  mapM (λ constructed : outcome Question.t, constructed) [
  MultipleChoiceQuestion.new 1
    "What is the capital of France?"
    ["London"; "Berlin"; "Paris"; "Madrid"]
    "Paris";
  TrueFalseQuestion.new 2
    "JavaScript is a compiled language." "False";
  MultipleChoiceQuestion.new 3
    "Which method is used to add an element to the end of an array?"
    ["push()"; "pop()"; "shift()"; "unshift()"]
    "push()";
  TrueFalseQuestion.new 4
    "CSS stands for Cascading Style Sheets." "True";
  MultipleChoiceQuestion.new 5
    "What does HTML stand for?"
    ["Hypertext Markup Language"; "High Tech Modern Language"; "Home Tool Markup Language"; "Hyperlink and Text Markup Language"]
    "Hypertext Markup Language";
  TrueFalseQuestion.new 6
    "React is a JavaScript library for building user interfaces." "True";
  MultipleChoiceQuestion.new 7
    "Which of the following is NOT a JavaScript data type?"
    ["String"; "Boolean"; "Float"; "Number"]
    "Float";
  MultipleChoiceQuestion.new 8
    "What is the correct way to create a function in JavaScript?"
    ["function myFunction() {}"; "create myFunction() {}"; "def myFunction() {}"; "func myFunction() {}"]
    "function myFunction() {}";
  TrueFalseQuestion.new 9
    "The '===' operator in JavaScript checks for both value and type equality." "True";
  MultipleChoiceQuestion.new 10
    "Which HTTP status code indicates a successful response?"
    ["404"; "500"; "200"; "301"]
    "200";
  TrueFalseQuestion.new 11
    "JSON stands for JavaScript Object Notation." "True";
  MultipleChoiceQuestion.new 12
    "Which method is used to convert a JSON string to a JavaScript object?"
    ["JSON.stringify()"; "JSON.parse()"; "JSON.convert()"; "JSON.object()"]
    "JSON.parse()"
].

End QuizApp.

(** ** The claims' own words, for comparison with the code *)


(** The percentage expression of [_generateResults]:
    [Math.round((score / total) * 100)], in binary64 arithmetic. *)
Definition float_percentage (s n : nat) : float :=
  Math.round
    (PrimFloat.mul (PrimFloat.div (Number.of_nat s) (Number.of_nat n))
                   (Number.of_Z 100)).


(** A list of options holds at least two distinct values. *)
Definition two_distinct (options : list string) : Prop :=
  ∃ x y, x ∈ options ∧ y ∈ options ∧ x ≠ y.

(** ** Invariants of the data model *)

(** A selected answer is one of the question's options. *)
Definition answer_valid (question : Question.t) : Prop :=
  ∀ a, Question._selectedAnswer question = Some a →
       a ∈ Question._options question.

(** The ids of a quiz's questions are pairwise different. *)
Definition unique_ids (qs : list Question.t) : Prop :=
  NoDup (map Question._id qs).

(** Both, for the questions of a quiz. *)
Definition quiz_inv (q : Quiz.t) : Prop :=
  unique_ids (Quiz._questions q) ∧ Forall answer_valid (Quiz._questions q).

(** The quiz object that a successful [submitQuiz] leaves, when the
    submission time read from the clock is [now]. *)
Definition submitted (w : Quiz.World) (now : Z) : Quiz.t :=
  Quiz.mk (Quiz._questions (Quiz.this w)) true
    (length (List.filter Question.isCorrect (Quiz._questions (Quiz.this w))))
    (Quiz._startTime (Quiz.this w)) (Some now)
    (PrimFloat.add (Quiz._attempts (Quiz.this w)) 1) (Quiz._config (Quiz.this w)).

(** The quiz object that a successful [setAnswer] leaves, when entry [i]
    becomes [question'] and the clock shows [now]. *)
Definition answered_quiz (q : Quiz.t) (i : nat) (question' : Question.t)
    (now : Z) : Quiz.t :=
  Quiz.mk (<[i := question']> (Quiz._questions q)) (Quiz._isCompleted q)
    (Quiz._score q)
    (match Quiz._startTime q with
     | Some t => Some t
     | None => Some (Date.Time now)
     end)
    (Quiz._endTime q) (Quiz._attempts q) (Quiz._config q).

(** ** What loading leaves, question by question *)

(** The effect of one saved answer on a question: the callback of
    [loadFromStorage] seen from the question it may change. *)
Definition restore_one (savedAnswer : SavedAnswer.t) (question : Question.t)
    : Question.t :=
  match SavedAnswer.selectedAnswer savedAnswer with
  | Some answer =>
      if bool_decide (Question._id question = SavedAnswer.id savedAnswer)
         && nonempty answer
      then Question.mk (Question._id question) (Question._text question)
             (Question._options question) (Question._correctAnswer question)
             (Question._type question) (Some answer)
      else question
  | None => question
  end.

(** The effect of the saved answers, in their order. *)
Definition restored (answers : list SavedAnswer.t) (question : Question.t)
    : Question.t :=
  foldl (λ x savedAnswer, restore_one savedAnswer x) question answers.

(** Every saved answer that [loadFromStorage] would set is an option of the
    question it is set on. *)
Definition restorable (answers : list SavedAnswer.t) (qs : list Question.t)
    : Prop :=
  ∀ savedAnswer question answer,
    savedAnswer ∈ answers → question ∈ qs →
    Question._id question = SavedAnswer.id savedAnswer →
    SavedAnswer.selectedAnswer savedAnswer = Some answer →
    nonempty answer = true →
    answer ∈ Question._options question.

(** The world with the quiz's questions replaced. *)
Definition with_questions (qs : list Question.t) (w : Quiz.World) : Quiz.World :=
  Quiz.mkWorld (Quiz.assign_questions qs (Quiz.this w)) (Quiz.localStorage w)
               (Quiz.quota w) (Quiz.clock w) (Quiz.ticks w).

(** The quiz object that a successful [loadFromStorage] of [state] leaves,
    its questions being [qs]. *)
Definition loaded_quiz (state : QuizState.t) (qs : list Question.t)
    (q : Quiz.t) : Quiz.t :=
  Quiz.mk qs (Quiz._isCompleted q) (Quiz._score q)
    (match QuizState.startTime state with
     | Some t => Some t
     | None => Quiz._startTime q
     end)
    (Quiz._endTime q)
    (match QuizState.attempts state with
     | Some a => a
     | None => Quiz._attempts q
     end)
    (Quiz._config q).

(** ** Counting with numbers *)

(** Adding 1 to each of the [fuel] whole numbers from [from] on gives the
    next whole number, exactly. *)
Fixpoint increments_exact (fuel : nat) (from : Z) : bool :=
  match fuel with
  | O => true
  | S fuel' =>
      PrimFloat.Leibniz.eqb (PrimFloat.add (Number.of_Z from) 1)
                            (Number.of_Z (from + 1))
      && increments_exact fuel' (from + 1)
  end.

(** The whole numbers of attempts for which the code's [attempts++] is
    shown to count: 0 to 99999. *)
Definition countable (n : Z) : Prop := 0 <= n < 100000.

(** [k] times [attempts++]. *)
Definition incremented (k : nat) (attempts : float) : float :=
  Nat.iter k (λ a, PrimFloat.add a 1) attempts.

(** The start time of the quiz is an Invalid Date. *)
Definition start_invalid (q : Quiz.t) : bool :=
  match Quiz._startTime q with
  | Some Date.Invalid => true
  | _ => false
  end.

(** [_saveToStorage] on the quiz [q] writes its record: saving is enabled,
    the quiz is not completed, its start time can be written and the quota
    accepts the record. *)
Definition writes (q : Quiz.t) (w : Quiz.World) : bool :=
  Config.saveProgress (Quiz._config q) && negb (Quiz._isCompleted q)
  && negb (start_invalid q)
  && Quiz.quota w (Quiz.localStorage w) (Config.storageKey (Quiz._config q))
                (Saved (Quiz.quizState q)).

(** The store that [_saveToStorage] on the quiz [q] leaves. *)
Definition saved_store (q : Quiz.t) (w : Quiz.World) : gmap string Item :=
  if writes q w
  then <[Config.storageKey (Quiz._config q) := Saved (Quiz.quizState q)]>
         (Quiz.localStorage w)
  else Quiz.localStorage w.

(** ** Sample data *)

Module Sample.

(** A two-option question with correct answer ["a"]. *)
Definition question (id : Z) (selected : option string) : Question.t :=
  Question.mk id "Pick one" ["a"; "b"] "a" "multiple-choice" selected.

(** [n] questions numbered from [first], all answered with [answer]. *)
Definition answered (first n : nat) (answer : string) : list Question.t :=
  map (λ k, question (Z.of_nat k) (Some answer)) (seq first n).

Definition config (saveProgress : bool) : Config.t :=
  Config.mk 0x1.6666666666666p-1%float PrimFloat.infinity None false true
            saveProgress "quizState".

(** The readings of a clock: the first, the second, and all later ones. *)
Definition clock (n : nat) : Z :=
  match n with
  | 0%nat => 1700000000000
  | 1%nat => 1700000001500
  | _ => 1700000003000
  end.

(** A store with room for every write. *)
Definition quota (items : gmap string Item) (key : string) (value : Item)
    : bool := true.

(** A quiz in progress over [qs], started at [start], nothing stored. *)
Definition world (qs : list Question.t) (start : option Z) : Quiz.World :=
  Quiz.mkWorld (Quiz.mk qs false 0 (Date.Time <$> start) None 0 (config true))
               ∅ quota clock 0.

(** [correct] right answers followed by [wrong] wrong ones. *)
Definition scored (correct wrong : nat) : Quiz.World :=
  world (answered 1 correct "a" ++ answered (S correct) wrong "b")
        (Some 1699999990000).

(** A record with the completion flag set, and a quiz in progress whose
    store holds it. *)
Definition stale_record : QuizState.t :=
  QuizState.mk (Some [SavedAnswer.mk 1 (Some "b")])
               (Some (Date.Time 1699999990000)) true (Some 1%float) "1.0".

Definition stale : Quiz.World :=
  Quiz.mkWorld (Quiz.this (scored 2 1)) {[ "quizState" := Saved stale_record ]}
               quota clock 0.

(** A quiz in progress: the first question answered, the second not. *)
Definition in_progress : Quiz.World :=
  world [question 1 (Some "b"); question 2 None] (Some 1699999990000).

(** [new Quiz(questions)] without options, and a source of random numbers
    for it. *)
Definition no_options : Options.t :=
  Options.mk None None None None None None None.

Definition no_random (k : nat) : float := PrimFloat.zero.

(** [new Quiz(questions, {saveProgress: false})]. *)
Definition no_saving : Options.t :=
  Options.mk None None None None None (Some false) None.

End Sample.

(** ** Sessions: sequences of calls on one quiz *)

Module Session.

(** A call of a method of the quiz by its user. *)
Inductive Op : Type :=
  | SetAnswer (questionId : Z) (answer : string)
  | ResetAllAnswers
  | SubmitQuiz
  | LoadFromStorage
  | GetStatistics
  | ExportData
  | IsTimeUp
  | AddQuestion (question : Question.t)
  | RemoveQuestion (questionId : Z).

(** The world after the call, whether it returned or threw. *)
Definition perform (op : Op) (w : Quiz.World) : Quiz.World :=
  match op with
  | SetAnswer questionId answer => (Quiz.setAnswer questionId answer w).2
  | ResetAllAnswers => (Quiz.resetAllAnswers w).2
  | SubmitQuiz => (Quiz.submitQuiz w).2
  | LoadFromStorage => (Quiz.loadFromStorage w).2
  | GetStatistics => (Quiz.getStatistics w).2
  | ExportData => (Quiz.exportData w).2
  | IsTimeUp => (Quiz.isTimeUp w).2
  | AddQuestion question => (Quiz.addQuestion question w).2
  | RemoveQuestion questionId => (Quiz.removeQuestion questionId w).2
  end.

Fixpoint performAll (ops : list Op) (w : Quiz.World) : Quiz.World :=
  match ops with
  | [] => w
  | op :: ops' => performAll ops' (perform op w)
  end.

(** The number of [submitQuiz] calls of the session that returned. *)
Fixpoint submissions (ops : list Op) (w : Quiz.World) : nat :=
  match ops with
  | [] => 0%nat
  | op :: ops' =>
      ((match op with
        | SubmitQuiz => if returned (Quiz.submitQuiz w).1 then 1 else 0
        | _ => 0
        end) + submissions ops' (perform op w))%nat
  end.

(** The calls that leave the collection of questions alone. *)
Definition keeps_collection (op : Op) : bool :=
  match op with
  | AddQuestion _ | RemoveQuestion _ => false
  | _ => true
  end.

Definition is_load (op : Op) : bool :=
  match op with LoadFromStorage => true | _ => false end.

End Session.

(** A question as the variant constructors build it and [setAnswer] fills
    it: of type true/false with the two fixed options, or of type multiple
    choice with 2 to 6 options; id, text and correct answer non-empty, the
    correct answer and the selected answer among the options. *)
Definition variant_shaped (question : Question.t) : Prop :=
  Question._id question ≠ 0 ∧ Question._text question ≠ "" ∧
  Question._correctAnswer question ≠ "" ∧
  Question._correctAnswer question ∈ Question._options question ∧
  answer_valid question ∧
  ((Question._type question = "true-false" ∧
    Question._options question = ["True"; "False"])
   ∨ (Question._type question = "multiple-choice" ∧
      (2 <= length (Question._options question) <= 6)%nat)).

(** What a question keeps of its answer through a JSON text that is read
    back with a truthiness test: everything but an empty-string answer. *)
Definition reread (question : Question.t) : Question.t :=
  match Question._selectedAnswer question with
  | Some answer => if nonempty answer then question
                   else Question.resetAnswer question
  | None => question
  end.

(** A configuration that survives [JSON.stringify] and the defaults of the
    constructor: finite non-zero threshold, an attempt limit that is
    infinite or finite and non-zero, a time limit that is absent or finite
    and non-zero, a non-empty storage key, and the [showCorrectAnswers]
    that every constructed quiz has. *)
Definition finite_nonzero (x : float) : bool :=
  match Prim2SF x with S754_finite _ _ _ => true | _ => false end.

Definition config_exportable (config : Config.t) : Prop :=
  finite_nonzero (Config.passThreshold config) = true ∧
  (Config.maxAttempts config = PrimFloat.infinity
   ∨ finite_nonzero (Config.maxAttempts config) = true) ∧
  (∀ x, Config.timeLimit config = Some x → finite_nonzero x = true) ∧
  Config.showCorrectAnswers config = true ∧
  Config.storageKey config ≠ "".

(** The count of the questions of a type that satisfy a test. *)
Definition count_type (type : string) (test : Question.t -> bool)
    (qs : list Question.t) : nat :=
  length (List.filter (λ question,
                         String.eqb (Question._type question) type
                         && test question) qs).

(** Two quiz objects have the same configuration and the same questions
    but for the selected answers. *)
Definition same_quiz (q q' : Quiz.t) : Prop :=
  Quiz._config q' = Quiz._config q ∧
  map Question.resetAnswer (Quiz._questions q')
  = map Question.resetAnswer (Quiz._questions q).

(** ** More sample data *)

(** An entry that passes the field checks of the catalog's [addQuestion]:
    id, type, text and correct answer present, and options present on a
    multiple-choice entry. *)
Definition complete_entry (questionData : QuizQuestions.Data.t) : bool :=
  negb (QuizQuestions.Data.id questionData =? 0)
  && nonempty (QuizQuestions.Data.type questionData)
  && nonempty (QuizQuestions.Data.text questionData)
  && nonempty (QuizQuestions.Data.correctAnswer questionData)
  && negb (String.eqb (QuizQuestions.Data.type questionData) "multiple-choice"
           && match QuizQuestions.Data.options questionData with
              | None => true
              | Some _ => false
              end).

(** The entry as the catalog stores it: [{category: 'Custom', ...entry}]. *)
Definition categorised (questionData : QuizQuestions.Data.t)
    : QuizQuestions.Data.t :=
  QuizQuestions.Data.mk
    (QuizQuestions.Data.id questionData)
    (QuizQuestions.Data.type questionData)
    (QuizQuestions.Data.text questionData)
    (QuizQuestions.Data.options questionData)
    (QuizQuestions.Data.correctAnswer questionData)
    (match QuizQuestions.Data.category questionData with
     | Some c => Some c
     | None => Some "Custom"
     end).

(** An entry that [addQuestion] accepts into [catalog]. *)
Definition acceptable (questionData : QuizQuestions.Data.t)
    (catalog : list QuizQuestions.Data.t) : Prop :=
  complete_entry questionData = true ∧
  QuizQuestions.Data.id questionData ∉ map QuizQuestions.Data.id catalog.

(** Entries that can be added one after the other to [catalog]. *)
Definition all_acceptable (l catalog : list QuizQuestions.Data.t) : Prop :=
  Forall (λ questionData, complete_entry questionData = true) l ∧
  NoDup (map QuizQuestions.Data.id l) ∧
  ∀ questionData, questionData ∈ l →
    QuizQuestions.Data.id questionData ∉ map QuizQuestions.Data.id catalog.

Module Scenario.

Definition trueFalse (id : Z) (selected : option string) : Question.t :=
  Question.mk id "The sky is blue" ["True"; "False"] "True" "true-false"
              selected.

(** A quiz in progress with a multiple-choice and a true/false question. *)
Definition mixed : Quiz.World :=
  Sample.world [Sample.question 1 (Some "a"); trueFalse 2 None]
               (Some 1699999990000).

(** A quiz that has not started. *)
Definition unstarted : Quiz.World :=
  Sample.world [Sample.question 1 None; trueFalse 2 None] None.

(** A catalog entry that is not in the catalog of the file. *)
Definition newEntry : QuizQuestions.Data.t :=
  QuizQuestions.Data.mk 13 "true-false" "Rocq is a proof assistant." None
                        "True" None.

(** A record in progress whose second answer is no option of its question,
    and a quiz that has not started whose store holds it. *)
Definition damaged_record : QuizState.t :=
  QuizState.mk (Some [SavedAnswer.mk 1 (Some "a");
                      SavedAnswer.mk 2 (Some "Maybe");
                      SavedAnswer.mk 1 (Some "b")])
               (Some (Date.Time 1699999990000)) false (Some 3%float) "1.0".

Definition damaged : Quiz.World :=
  Quiz.mkWorld (Quiz.this unstarted) {[ "quizState" := Saved damaged_record ]}
               Sample.quota Sample.clock 0.

(** A question one of whose options is the empty string, answered with
    it, and a quiz in progress over it. *)
Definition blank_answer : Question.t :=
  Question.mk 1 "Pick one" [""; "x"] "x" "multiple-choice" (Some "").

Definition blank : Quiz.World :=
  Sample.world [blank_answer] (Some 1699999990000).

(** A record in progress whose attempts are [2^53], and a fresh quiz over
    one question whose store holds it. *)
Definition seeded_record : QuizState.t :=
  QuizState.mk (Some [SavedAnswer.mk 1 (Some "a")]) None false
               (Some 9007199254740992%float) "1.0".

Definition seeded : Quiz.World :=
  Quiz.mkWorld
    (Quiz.new [Sample.question 1 None] Sample.no_options Sample.no_random)
    {[ "quizState" := Saved seeded_record ]} Sample.quota Sample.clock 0.

(** Options that ask to hide the correct answers. *)
Definition hidden : Options.t :=
  Options.mk None None None None (Some false) None None.

End Scenario.

(** * Properties *)

(** ** Basic facts *)

(** Unfolding of the operations of [Exec] and of the accessors of the
    world. *)
Ltac exec :=
  unfold mbind, mret, Exec_bind, Exec_ret, throw, try_catch, modify,
    lift, Quiz.update, Quiz.getThis, Quiz.newDate, Quiz.getItem,
    Quiz.setItem, Quiz.removeItem in *.

Lemma includes_elem_of (l : list string) (x : string) :
  includes l x = true ↔ x ∈ l.
Proof.
  induction l as [|y l IH]; simpl.
  - split; [discriminate | intros H; inversion H].
  - rewrite orb_true_iff, IH, String.eqb_eq, elem_of_cons.
    split; intros [H|H]; auto.
Qed.

Lemma includes_not_elem_of (l : list string) (x : string) :
  includes l x = false ↔ x ∉ l.
Proof.
  rewrite <- includes_elem_of. destruct (includes l x); split; congruence.
Qed.

Lemma nonempty_true (s : string) : nonempty s = true ↔ s ≠ "".
Proof.
  unfold nonempty. rewrite negb_true_iff.
  destruct (String.eqb_spec s ""); split; congruence.
Qed.

(** The counting loop of [calculateScore] counts the correct questions. *)
Lemma count_loop (qs : list Question.t) (k : nat) :
  foldl (λ n question, if Question.isCorrect question then S n else n) k qs
  = (k + length (List.filter Question.isCorrect qs))%nat.
Proof.
  revert k. induction qs as [|x qs IH]; intros k; simpl.
  - lia.
  - rewrite IH. destruct (Question.isCorrect x); simpl; lia.
Qed.

Lemma clearStorage_run (w : Quiz.World) :
  Quiz._clearStorage w =
  (Return tt,
   Quiz.mkWorld (Quiz.this w)
     (delete (Config.storageKey (Quiz._config (Quiz.this w))) (Quiz.localStorage w))
     (Quiz.quota w) (Quiz.clock w) (Quiz.ticks w)).
Proof. reflexivity. Qed.

(** The [duration] getter always returns and leaves the quiz and the store
    as they are. *)
Lemma duration_run (w : Quiz.World) :
  ∃ d n, Quiz.duration w =
         (Return d, Quiz.mkWorld (Quiz.this w) (Quiz.localStorage w)
                                 (Quiz.quota w) (Quiz.clock w) n).
Proof.
  destruct w as [q ls qt c n]. unfold Quiz.duration. exec. simpl.
  destruct (Quiz._startTime q); [destruct (Quiz._endTime q)|]; simpl; eauto.
Qed.

(** [_generateResults] always returns; it reads the quiz and moves the
    clock only. *)
Lemma generateResults_run (w : Quiz.World) :
  ∃ d completedAt n,
    Quiz._generateResults w =
    (Return
       (Result.mk (Quiz._score (Quiz.this w))
          (length (Quiz._questions (Quiz.this w)))
          (Math.round
             (PrimFloat.mul
                (PrimFloat.div (Number.of_nat (Quiz._score (Quiz.this w)))
                   (Number.of_nat (length (Quiz._questions (Quiz.this w)))))
                (Number.of_Z 100)))
          (Quiz.isPassed (Quiz.this w))
          (Math.ceil
             (PrimFloat.mul
                (Number.of_nat (length (Quiz._questions (Quiz.this w))))
                (Config.passThreshold (Quiz._config (Quiz.this w)))))
          d (Quiz._attempts (Quiz.this w)) completedAt
          (if Config.showCorrectAnswers (Quiz._config (Quiz.this w))
           then Some (Quiz._getQuestionResults (Quiz.this w)) else None)),
     Quiz.mkWorld (Quiz.this w) (Quiz.localStorage w) (Quiz.quota w) (Quiz.clock w) n).
Proof.
  destruct (duration_run w) as (d & n & Hd).
  unfold Quiz._generateResults. exec. simpl. rewrite Hd. simpl. eauto.
Qed.

Lemma submitQuiz_run (w : Quiz.World) :
  (Quiz.areAllQuestionsAnswered (Quiz.this w) = false ∧
   Quiz.submitQuiz w = (Throw NotAllAnswered, w))
  ∨ (Quiz.areAllQuestionsAnswered (Quiz.this w) = true ∧
     Quiz._isCompleted (Quiz.this w) = true ∧
     Quiz.submitQuiz w = (Throw AlreadySubmitted, w))
  ∨ (Quiz.areAllQuestionsAnswered (Quiz.this w) = true ∧
     Quiz._isCompleted (Quiz.this w) = false ∧
     ∃ r n,
       let w' :=
         Quiz.mkWorld (submitted w (Quiz.clock w (Quiz.ticks w)))
           (delete (Config.storageKey (Quiz._config (Quiz.this w)))
                   (Quiz.localStorage w))
           (Quiz.quota w) (Quiz.clock w) n in
       Quiz.submitQuiz w = (Return r, w') ∧
       Quiz._generateResults
         (Quiz.mkWorld (Quiz.this w') (Quiz.localStorage w') (Quiz.quota w) (Quiz.clock w)
                       (S (Quiz.ticks w))) = (Return r, w')).
Proof.
  destruct w as [q ls qt c n]. unfold Quiz.submitQuiz. exec. simpl.
  destruct (Quiz.areAllQuestionsAnswered q) eqn:Hall; simpl; [|auto].
  destruct (Quiz._isCompleted q) eqn:Hc; simpl; [auto|].
  right; right. repeat split.
  unfold Quiz.calculateScore. exec. simpl.
  rewrite count_loop. simpl.
  match goal with |- context [Quiz._generateResults ?w] =>
    destruct (generateResults_run w) as (d & at' & n' & Hg) end.
  simpl in Hg. unfold submitted. simpl.
  rewrite Hg. eauto.
Qed.

(** ** Submission *)

(** The whole numbers that [increments_exact] has checked are each followed
    by the next one. *)
Lemma increments_exact_spec (fuel : nat) (from n : Z) :
  increments_exact fuel from = true →
  from <= n < from + Z.of_nat fuel →
  PrimFloat.add (Number.of_Z n) 1 = Number.of_Z (n + 1).
Proof.
  revert from. induction fuel as [|fuel IH]; intros from Hall Hn; [lia|].
  simpl in Hall. apply andb_true_iff in Hall as [Hhere Hrest].
  destruct (decide (n = from)) as [->|Hne].
  - by apply FloatAxioms.Leibniz.eqb_spec.
  - apply (IH (from + 1) Hrest). lia.
Qed.

Lemma increments_exact_countable :
  increments_exact (Z.to_nat 100000) 0 = true.
Proof. vm_compute. reflexivity. Qed.

Lemma countable_next (n : Z) :
  countable n → PrimFloat.add (Number.of_Z n) 1 = Number.of_Z (n + 1).
Proof.
  intros Hn. apply (increments_exact_spec (Z.to_nat 100000) 0 n).
  - exact increments_exact_countable.
  - unfold countable in Hn. lia.
Qed.

(** C1, as the code has it: [submitQuiz] returns exactly when every
    question is answered and the quiz is not completed, and throws
    otherwise, leaving the world as it was. When it returns, the quiz is
    completed, its score is the number of correct questions, its attempts
    are [attempts + 1] in the arithmetic of numbers, which for a whole
    number of attempts from 0 to 99999 is the next whole number, and a
    second call throws [AlreadySubmitted] without changing anything. *)
Theorem C1_submitQuiz (w : Quiz.World) :
  (returned (Quiz.submitQuiz w).1 = true ↔
     Quiz.areAllQuestionsAnswered (Quiz.this w) = true ∧
     Quiz._isCompleted (Quiz.this w) = false)
  ∧ (returned (Quiz.submitQuiz w).1 = false → (Quiz.submitQuiz w).2 = w)
  ∧ (returned (Quiz.submitQuiz w).1 = true →
       let w' := (Quiz.submitQuiz w).2 in
       Quiz._isCompleted (Quiz.this w') = true ∧
       Quiz._score (Quiz.this w') =
         length (List.filter Question.isCorrect (Quiz._questions (Quiz.this w))) ∧
       Quiz._attempts (Quiz.this w')
       = PrimFloat.add (Quiz._attempts (Quiz.this w)) 1 ∧
       (∀ n, countable n → Quiz._attempts (Quiz.this w) = Number.of_Z n →
             Quiz._attempts (Quiz.this w') = Number.of_Z (n + 1)) ∧
       Quiz._questions (Quiz.this w') = Quiz._questions (Quiz.this w) ∧
       Quiz.submitQuiz w' = (Throw AlreadySubmitted, w')).
Proof.
  destruct (submitQuiz_run w)
    as [[Hall Hs] | [(Hall & Hc & Hs) | (Hall & Hc & r & n & Hs & _)]].
  - rewrite Hs; simpl. repeat split; try discriminate; try tauto.
    intros [H _]; congruence.
  - rewrite Hs; simpl. repeat split; try discriminate; try tauto.
    intros [_ H]; congruence.
  - simpl in Hs. rewrite Hs; simpl. split; [tauto|]. split; [discriminate|].
    intros _. do 3 (split; [reflexivity|]).
    split; [intros k Hk ->; by apply countable_next|].
    split; [reflexivity|].
    match goal with |- Quiz.submitQuiz ?w' = _ =>
      destruct (submitQuiz_run w')
        as [[Hall' _] | [(_ & _ & Hs') | (_ & Hc' & _)]] end.
    + unfold Quiz.areAllQuestionsAnswered in *. simpl in Hall'. congruence.
    + exact Hs'.
    + discriminate Hc'.
Qed.

(** C1, at a quiz of one question answered correctly. *)
Lemma C1_submitQuiz_witness :
  returned (Quiz.submitQuiz (Sample.scored 1 0)).1 = true ∧
  Quiz._score (Quiz.this (Quiz.submitQuiz (Sample.scored 1 0)).2) = 1%nat ∧
  Quiz._attempts (Quiz.this (Quiz.submitQuiz (Sample.scored 1 0)).2)
  = Number.of_Z 1 ∧
  Quiz.submitQuiz (Quiz.submitQuiz (Sample.scored 1 0)).2
  = (Throw AlreadySubmitted, (Quiz.submitQuiz (Sample.scored 1 0)).2).
Proof.
  destruct (C1_submitQuiz (Sample.scored 1 0)) as (H1 & _ & H3).
  assert (Hr : returned (Quiz.submitQuiz (Sample.scored 1 0)).1 = true)
    by (apply H1; split; reflexivity).
  destruct (H3 Hr) as (_ & Hscore & _ & Hcount & _ & Hagain).
  split; [exact Hr|]. split; [exact Hscore|]. split; [|exact Hagain].
  apply (Hcount 0); [unfold countable; lia | reflexivity].
Defined.

(** C1 as stated fails: a fresh one-question quiz loads a record in
    progress whose attempts are [2^53]; [submitQuiz] on the loaded quiz
    returns, and the attempts of the quiz, and those that the result
    reports, are still [2^53]. *)
Lemma C1_counterexample :
  ∃ w1 r w2,
    Quiz.loadFromStorage Scenario.seeded = (Return true, w1) ∧
    Quiz._attempts (Quiz.this w1) = 9007199254740992%float ∧
    Quiz.submitQuiz w1 = (Return r, w2) ∧
    Quiz._attempts (Quiz.this w2) = Quiz._attempts (Quiz.this w1) ∧
    Result.attempts r = 9007199254740992%float.
Proof.
  eexists _, _, _. split; [vm_compute; reflexivity|].
  split; [reflexivity|]. split; [vm_compute; reflexivity|].
  split; reflexivity.
Qed.

(** ** Answering *)

(** [_saveToStorage] always returns; it writes the record of the quiz, or,
    when it is not to be saved, when [toISOString] throws or when [setItem]
    throws, nothing. *)
Lemma saveToStorage_run (w : Quiz.World) :
  Quiz._saveToStorage w =
  (Return tt,
   Quiz.mkWorld (Quiz.this w) (saved_store (Quiz.this w) w)
     (Quiz.quota w) (Quiz.clock w) (Quiz.ticks w)).
Proof.
  destruct w as [q ls qt c n].
  unfold Quiz._saveToStorage, saved_store, writes, start_invalid,
    Quiz.quizState.
  exec. simpl.
  destruct (Config.saveProgress (Quiz._config q)), (Quiz._isCompleted q);
    try reflexivity.
  simpl. destruct (Quiz._startTime q) as [[ms|]|]; simpl; try reflexivity.
  - by destruct (qt ls _ _).
  - by destruct (qt ls _ _).
Qed.

(** What [setAnswer] does, case by case. *)
Lemma setAnswer_run (questionId : Z) (answer : string) (w : Quiz.World) :
  match Quiz.getQuestion questionId (Quiz.this w) with
  | None => Quiz.setAnswer questionId answer w = (Return false, w)
  | Some (i, question) =>
      match Question.setAnswer answer question with
      | Throw _ => Quiz.setAnswer questionId answer w = (Return false, w)
      | Return question' =>
          let q' := answered_quiz (Quiz.this w) i question'
                      (Quiz.clock w (Quiz.ticks w)) in
          Quiz.setAnswer questionId answer w =
          (Return true,
           Quiz.mkWorld q' (saved_store q' w)
             (Quiz.quota w) (Quiz.clock w)
             (match Quiz._startTime (Quiz.this w) with
              | Some _ => Quiz.ticks w
              | None => S (Quiz.ticks w)
              end))
      end
  end.
Proof.
  destruct w as [q ls qt c n]. unfold Quiz.setAnswer. exec. simpl.
  destruct (Quiz.getQuestion questionId q) as [[i question]|]; [|reflexivity].
  destruct (Question.setAnswer answer question) as [question'|e]; [|reflexivity].
  unfold answered_quiz. destruct q as [qs completed score st et att cfg].
  simpl.
  destruct st, (Config.saveProgress cfg) eqn:Hsp, completed; simpl;
    rewrite ?Hsp; simpl;
    try (unfold saved_store, writes; simpl; rewrite ?Hsp; reflexivity);
    rewrite saveToStorage_run; reflexivity.
Qed.

Lemma Question_setAnswer_run (answer : string) (question : Question.t) :
  (answer ∈ Question._options question ∧
   Question.setAnswer answer question =
   Return (Question.mk (Question._id question) (Question._text question)
             (Question._options question) (Question._correctAnswer question)
             (Question._type question) (Some answer)))
  ∨ ((answer ∉ Question._options question) ∧
     Question.setAnswer answer question = Throw AnswerNotAnOption).
Proof.
  unfold Question.setAnswer.
  destruct (includes (Question._options question) answer) eqn:H.
  - left. split; [by apply includes_elem_of | reflexivity].
  - right. split; [by apply includes_not_elem_of | reflexivity].
Qed.

(** C5: [Quiz.setAnswer] always returns a boolean, never a thrown error;
    when the id matches no question, or the value is not among the options
    of the matched question, it returns [false] and the whole world (every
    question, the start time, the completion flag, the score, the attempts
    and the store) is unchanged. *)
Theorem C5_setAnswer_failure (questionId : Z) (answer : string)
    (w : Quiz.World) :
  (∃ b w', Quiz.setAnswer questionId answer w = (Return b, w'))
  ∧ (Quiz.getQuestion questionId (Quiz.this w) = None
     ∨ (∃ i question,
          Quiz.getQuestion questionId (Quiz.this w) = Some (i, question)
          ∧ answer ∉ Question._options question)
     → Quiz.setAnswer questionId answer w = (Return false, w)).
Proof.
  pose proof (setAnswer_run questionId answer w) as Hrun.
  destruct (Quiz.getQuestion questionId (Quiz.this w)) as [[i question]|].
  - destruct (Question_setAnswer_run answer question) as [[Hin Hq]|[Hin Hq]];
      rewrite Hq in Hrun; simpl in Hrun.
    + split; [eauto|]. intros [H|(i' & question' & H & Hnot)]; [discriminate|].
      inversion H; subst. contradiction.
    + split; [eauto|]. intros _. exact Hrun.
  - split; [eauto|]. intros _. exact Hrun.
Qed.

(** C5, at an unknown id and at a value that is not an option. *)
Lemma C5_setAnswer_failure_witness :
  Quiz.setAnswer 7 "a" (Sample.scored 1 0) = (Return false, Sample.scored 1 0)
  ∧ Quiz.setAnswer 1 "c" (Sample.scored 1 0) = (Return false, Sample.scored 1 0).
Proof.
  split.
  - apply (C5_setAnswer_failure 7 "a" (Sample.scored 1 0)). left. reflexivity.
  - apply (C5_setAnswer_failure 1 "c" (Sample.scored 1 0)). right.
    exists 0%nat, (Sample.question 1 (Some "a")). split; [reflexivity|].
    intros H. apply includes_elem_of in H. discriminate H.
Defined.

(** Replacing the found entry by one of the same id keeps it the entry
    that [getQuestion] finds. *)
Lemma getQuestion_insert (id : Z) (q q' : Quiz.t) (i : nat)
    (question question' : Question.t) :
  Quiz.getQuestion id q = Some (i, question) →
  Question._id question' = id →
  Quiz._questions q' = <[i := question']> (Quiz._questions q) →
  Quiz.getQuestion id q' = Some (i, question').
Proof.
  unfold Quiz.getQuestion. intros H Hid ->.
  apply list_find_Some in H as (Hi & _ & Hbefore).
  apply list_find_Some. split; [|split; [exact Hid|]].
  - apply list_lookup_insert_eq. by eapply lookup_lt_Some.
  - intros j y Hj Hlt. rewrite list_lookup_insert_ne in Hj by lia.
    by eapply Hbefore.
Qed.

Lemma saved_store_not_saved (q : Quiz.t) (w : Quiz.World) :
  Config.saveProgress (Quiz._config q) = false ∨ Quiz._isCompleted q = true →
  saved_store q w = Quiz.localStorage w.
Proof.
  unfold saved_store, writes. intros [-> | ->]; [reflexivity|].
  by rewrite andb_false_r.
Qed.

(** C2, what the code does in place of the claim: [Quiz.setAnswer] does not
    test the completion flag before it changes an answer. On a completed
    quiz a call with a known id and a value among that question's options
    returns [true] and replaces the question's selected answer, while the
    flag, the score and the attempts stay as the submission left them and
    nothing is written to the store; only a call with an unknown id or a
    value outside the options changes nothing. *)
Theorem C2_setAnswer_completed (questionId : Z) (answer : string)
    (w : Quiz.World) :
  Quiz._isCompleted (Quiz.this w) = true →
  let w' := (Quiz.setAnswer questionId answer w).2 in
  Quiz.localStorage w' = Quiz.localStorage w ∧
  Quiz._isCompleted (Quiz.this w') = true ∧
  Quiz._score (Quiz.this w') = Quiz._score (Quiz.this w) ∧
  Quiz._attempts (Quiz.this w') = Quiz._attempts (Quiz.this w) ∧
  (∀ i question,
     Quiz.getQuestion questionId (Quiz.this w) = Some (i, question) →
     answer ∈ Question._options question →
     (Quiz.setAnswer questionId answer w).1 = Return true ∧
     ∃ question',
       Quiz.getQuestion questionId (Quiz.this w') = Some (i, question') ∧
       Question._selectedAnswer question' = Some answer) ∧
  (Quiz.getQuestion questionId (Quiz.this w) = None
   ∨ (∃ i question,
        Quiz.getQuestion questionId (Quiz.this w) = Some (i, question)
        ∧ answer ∉ Question._options question)
   → Quiz.setAnswer questionId answer w = (Return false, w)).
Proof.
  intros Hc. pose proof (setAnswer_run questionId answer w) as Hrun.
  destruct (Quiz.getQuestion questionId (Quiz.this w))
    as [[i question]|] eqn:Hget.
  - destruct (Question_setAnswer_run answer question) as [[Hin Hq]|[Hin Hq]];
      rewrite Hq in Hrun; simpl in Hrun; rewrite Hrun; simpl.
    + split; [apply saved_store_not_saved; by right|].
      do 3 (split; [done|]). split.
      * intros i' question' H _. inversion H; subst i' question'.
        split; [reflexivity|]. eexists. split.
        -- eapply (getQuestion_insert questionId (Quiz.this w));
             [done| |reflexivity].
           simpl. unfold Quiz.getQuestion in Hget.
           by apply list_find_Some in Hget as (_ & Hid & _).
        -- reflexivity.
      * intros [H|(i' & question' & H & Hnot)]; [discriminate|].
        inversion H; subst. contradiction.
    + do 4 (split; [done|]). split; [|done].
      intros i' question' H Hin'. inversion H; subst. contradiction.
  - rewrite Hrun; simpl. do 4 (split; [done|]). split; [|done].
    intros; discriminate.
Qed.

(** C2, at a submitted one-question quiz whose answer is changed: the
    score still says 1 and the question is no longer correct. *)
Lemma C2_setAnswer_completed_witness :
  (Quiz.setAnswer 1 "b" (Quiz.submitQuiz (Sample.scored 1 0)).2).1 = Return true
  ∧ Quiz._score (Quiz.this (Quiz.setAnswer 1 "b" (Quiz.submitQuiz (Sample.scored 1 0)).2).2)
    = 1%nat.
Proof.
  destruct (C2_setAnswer_completed 1 "b" (Quiz.submitQuiz (Sample.scored 1 0)).2)
    as (_ & _ & Hscore & _ & Hset & _); [reflexivity|].
  split.
  - apply (Hset 0%nat (Sample.question 1 (Some "a"))); [reflexivity|].
    apply includes_elem_of. reflexivity.
  - rewrite Hscore. reflexivity.
Defined.

(** C2 as stated fails: a one-question quiz is answered with ["a"] and
    submitted; [setAnswer] on the completed quiz then returns [true], the
    selected answer is ["b"], which is not the correct one, and the score
    is still 1. *)
Lemma C2_counterexample :
  let w := (Quiz.submitQuiz (Sample.scored 1 0)).2 in
  let w' := (Quiz.setAnswer 1 "b" w).2 in
  Quiz._isCompleted (Quiz.this w) = true ∧
  Question._selectedAnswer <$> Quiz._questions (Quiz.this w) = [Some "a"] ∧
  (Quiz.setAnswer 1 "b" w).1 = Return true ∧
  Question._selectedAnswer <$> Quiz._questions (Quiz.this w') = [Some "b"] ∧
  Quiz._score (Quiz.this w') = 1%nat ∧
  length (List.filter Question.isCorrect (Quiz._questions (Quiz.this w')))
  = 0%nat.
Proof. repeat split. Qed.

(** ** Reset *)


(** ** Statistics and progress *)

(** C10: when no question is answered, [getStatistics] returns, with 0 as
    the average time per question, and the quiz object is left as it
    was. *)
Theorem C10_getStatistics_unanswered (w : Quiz.World) :
  Quiz.getAnsweredCount (Quiz.this w) = 0%nat →
  ∃ s w',
    Quiz.getStatistics w = (Return s, w') ∧
    Statistics.averageTimePerQuestion s = PrimFloat.zero ∧
    Statistics.answeredQuestions s = 0%nat ∧
    Quiz.this w' = Quiz.this w.
Proof.
  intros H0. destruct (duration_run w) as (d & n & Hd).
  unfold Quiz.getStatistics. exec. destruct w as [q ls qt c k]; simpl in *.
  rewrite Hd. simpl. rewrite H0. simpl. eauto 10.
Qed.

(** C10, at a quiz of two questions, none answered. *)
Lemma C10_getStatistics_unanswered_witness :
  ∃ s w',
    Quiz.getStatistics
      (Sample.world [Sample.question 1 None; Sample.question 2 None] None)
    = (Return s, w') ∧
    Statistics.averageTimePerQuestion s = PrimFloat.zero ∧
    Statistics.answeredQuestions s = 0%nat ∧
    Quiz.this w'
    = Quiz.this (Sample.world [Sample.question 1 None; Sample.question 2 None] None).
Proof.
  apply (C10_getStatistics_unanswered
           (Sample.world [Sample.question 1 None; Sample.question 2 None] None)).
  reflexivity.
Defined.

(** C4, at the failing input: on a quiz without questions
    [getProgressPercentage] computes [Math.round((0 / 0) * 100)], which is
    NaN and not 0; no test of the length guards the division. *)
Theorem C4_getProgressPercentage_empty (q : Quiz.t) :
  Quiz._questions q = [] →
  Quiz.getProgressPercentage q = PrimFloat.nan ∧
  PrimFloat.eqb (Quiz.getProgressPercentage q) PrimFloat.zero = false.
Proof.
  intros H. unfold Quiz.getProgressPercentage, Quiz.getAnsweredCount.
  rewrite H. split; reflexivity.
Qed.

(** C4, at the quiz that [new Quiz([], {})] builds. *)
Lemma C4_getProgressPercentage_empty_witness :
  Quiz.getProgressPercentage
    (Quiz.new [] (Options.mk None None None None None None None)
              (λ _, PrimFloat.zero))
  = PrimFloat.nan.
Proof.
  apply (C4_getProgressPercentage_empty
           (Quiz.new [] (Options.mk None None None None None None None)
                     (λ _, PrimFloat.zero))).
  reflexivity.
Defined.

(** ** Results *)



(** The fields that [submitQuiz] computes into its [Result]. *)
Lemma submitQuiz_result (w w' : Quiz.World) (r : Result.t) :
  Quiz.submitQuiz w = (Return r, w') →
  let s := length (List.filter Question.isCorrect (Quiz._questions (Quiz.this w))) in
  let n := length (Quiz._questions (Quiz.this w)) in
  let t := Config.passThreshold (Quiz._config (Quiz.this w)) in
  Result.score r = s ∧ Result.total r = n ∧
  Result.percentage r = float_percentage s n ∧
  Result.passed r = PrimFloat.leb t (PrimFloat.div (Number.of_nat s) (Number.of_nat n)) ∧
  Result.passingScore r = Math.ceil (PrimFloat.mul (Number.of_nat n) t).
Proof.
  intros Hs s n t.
  destruct (submitQuiz_run w)
    as [[_ Hs'] | [(_ & _ & Hs') | (_ & _ & r' & k & Hs' & Hg)]];
    rewrite Hs in Hs'; try discriminate.
  cbv zeta in Hs', Hg. injection Hs' as Hr Hw. subst r'. clear Hw.
  match type of Hg with Quiz._generateResults ?w0 = _ =>
    destruct (generateResults_run w0) as (d & at' & k' & Hg') end.
  rewrite Hg in Hg'. injection Hg' as Hr _. subst r.
  repeat split.
Qed.




(** ** Construction *)

Lemma validateInput_run (this : Question.t) :
  Question._validateInput this = Return tt ↔
  Question._id this ≠ 0 ∧ Question._text this ≠ "" ∧
  Question._correctAnswer this ≠ "" ∧
  Question._correctAnswer this ∈ Question._options this.
Proof.
  unfold Question._validateInput.
  rewrite <- !nonempty_true, <- includes_elem_of.
  destruct (Z.eqb_spec (Question._id this) 0) as [Hid|Hid];
    destruct (nonempty (Question._text this));
    destruct (nonempty (Question._correctAnswer this));
    destruct (includes (Question._options this) (Question._correctAnswer this));
    simpl; split; try discriminate; try tauto; intros (? & ? & ? & ?);
    try discriminate; try contradiction.
Qed.

Lemma Question_new_run (id : Z) (text : string) (options : list string)
    (correctAnswer type : string) :
  (id ≠ 0 ∧ text ≠ "" ∧ correctAnswer ≠ "" ∧ correctAnswer ∈ options ∧
   Question.new id text options correctAnswer type
   = Return (Question.mk id text options correctAnswer type None))
  ∨ (¬ (id ≠ 0 ∧ text ≠ "" ∧ correctAnswer ≠ "" ∧ correctAnswer ∈ options) ∧
     ∃ e, Question.new id text options correctAnswer type = Throw e).
Proof.
  unfold Question.new.
  pose proof (validateInput_run
                (Question.mk id text options correctAnswer type None)) as H.
  simpl in H.
  destruct (Question._validateInput
              (Question.mk id text options correctAnswer type None))
    as [[]|e].
  - left. destruct H as [H _]. specialize (H eq_refl). tauto.
  - right. split; [|eauto]. intros Hc. apply H in Hc. discriminate.
Qed.

(** C6, as the code has it: construction returns exactly when id, text and
    correct answer are non-empty and the correct answer is one of the
    options, with, for a multiple-choice question, between 2 and 6 options
    counted with repetitions, and, for a true/false question, a correct
    answer that is ["True"] or ["False"]; otherwise it throws. A
    constructed question is unanswered and has its correct answer among its
    options; a multiple-choice one has 2 to 6 options, a true/false one
    has the two distinct options ["True"] and ["False"]. *)
Theorem C6_construction (id : Z) (text : string) (options : list string)
    (correctAnswer : string) :
  (returned (MultipleChoiceQuestion.new id text options correctAnswer) = true ↔
     id ≠ 0 ∧ text ≠ "" ∧ correctAnswer ≠ "" ∧ correctAnswer ∈ options ∧
     (2 <= length options <= 6)%nat)
  ∧ (returned (TrueFalseQuestion.new id text correctAnswer) = true ↔
       id ≠ 0 ∧ text ≠ "" ∧ (correctAnswer = "True" ∨ correctAnswer = "False"))
  ∧ (∀ type, returned (Question.new id text options correctAnswer type) = true ↔
       id ≠ 0 ∧ text ≠ "" ∧ correctAnswer ≠ "" ∧ correctAnswer ∈ options)
  ∧ (∀ q, MultipleChoiceQuestion.new id text options correctAnswer = Return q →
       Question._correctAnswer q ∈ Question._options q ∧
       (2 <= length (Question._options q) <= 6)%nat ∧
       Question._selectedAnswer q = None)
  ∧ (∀ q, TrueFalseQuestion.new id text correctAnswer = Return q →
       Question._correctAnswer q ∈ Question._options q ∧
       Question._options q = ["True"; "False"] ∧
       two_distinct (Question._options q) ∧
       Question._selectedAnswer q = None).
Proof.
  assert (Hmc : ∀ q, MultipleChoiceQuestion.new id text options correctAnswer
                     = Return q →
                q = Question.mk id text options correctAnswer "multiple-choice" None
                ∧ id ≠ 0 ∧ text ≠ "" ∧ correctAnswer ≠ "" ∧ correctAnswer ∈ options
                ∧ (2 <= length options <= 6)%nat).
  { intros q. unfold MultipleChoiceQuestion.new,
      MultipleChoiceQuestion._validateMultipleChoiceOptions.
    destruct (Question_new_run id text options correctAnswer "multiple-choice")
      as [(H1 & H2 & H3 & H4 & ->) | (_ & e & ->)]; [|discriminate].
    simpl. destruct (Nat.ltb_spec (length options) 2); simpl; [discriminate|].
    destruct (Nat.ltb_spec 6 (length options)); simpl; [discriminate|].
    intros [= <-]. repeat split; auto; lia. }
  assert (Htf : ∀ q, TrueFalseQuestion.new id text correctAnswer = Return q →
                q = Question.mk id text ["True"; "False"] correctAnswer "true-false" None
                ∧ id ≠ 0 ∧ text ≠ "" ∧ correctAnswer ∈ ["True"; "False"]).
  { intros q. unfold TrueFalseQuestion.new.
    destruct (includes ["True"; "False"] correctAnswer) eqn:Hinc; simpl;
      [|discriminate].
    destruct (Question_new_run id text ["True"; "False"] correctAnswer "true-false")
      as [(H1 & H2 & H3 & H4 & ->) | (_ & e & ->)]; [|discriminate].
    intros [= <-]. auto. }
  split; [|split; [|split; [|split]]].
  - split.
    + destruct (MultipleChoiceQuestion.new id text options correctAnswer)
        as [q|e] eqn:Hq; [|discriminate].
      intros _. destruct (Hmc q eq_refl) as (_ & H). exact H.
    + intros (H1 & H2 & H3 & H4 & H5 & H6).
      unfold MultipleChoiceQuestion.new,
        MultipleChoiceQuestion._validateMultipleChoiceOptions.
      destruct (Question_new_run id text options correctAnswer "multiple-choice")
        as [(_ & _ & _ & _ & ->) | (Hn & _)]; [|tauto].
      simpl. destruct (Nat.ltb_spec (length options) 2); [lia|].
      destruct (Nat.ltb_spec 6 (length options)); [lia|]. reflexivity.
  - split.
    + destruct (TrueFalseQuestion.new id text correctAnswer)
        as [q|e] eqn:Hq; [|discriminate].
      intros _. destruct (Htf q eq_refl) as (_ & H1 & H2 & H3).
      repeat split; auto.
      apply elem_of_cons in H3 as [H3|H3]; [auto|].
      apply list_elem_of_singleton in H3. auto.
    + intros (H1 & H2 & H3). unfold TrueFalseQuestion.new.
      assert (Hin : correctAnswer ∈ ["True"; "False"])
        by (destruct H3 as [-> | ->]; apply includes_elem_of; reflexivity).
      assert (Hne : correctAnswer ≠ "")
        by (destruct H3 as [-> | ->]; discriminate).
      apply includes_elem_of in Hin as Hinc. rewrite Hinc. simpl.
      destruct (Question_new_run id text ["True"; "False"] correctAnswer "true-false")
        as [(_ & _ & _ & _ & ->) | (Hn & _)]; [reflexivity|tauto].
  - intros type.
    destruct (Question_new_run id text options correctAnswer type)
      as [(H1 & H2 & H3 & H4 & ->) | (Hn & e & ->)]; simpl.
    + tauto.
    + split; [discriminate | tauto].
  - intros q Hq. destruct (Hmc q Hq) as (-> & _ & _ & _ & Hin & Hlen).
    simpl. auto.
  - intros q Hq. destruct (Htf q Hq) as (-> & _ & _ & Hin). simpl.
    repeat split; auto.
    exists "True", "False".
    repeat split; [apply includes_elem_of; reflexivity ..| discriminate].
Qed.

(** C6, at a well-formed multiple-choice question and at a true/false
    question whose correct answer is ["Maybe"]. *)
Lemma C6_construction_witness :
  returned (MultipleChoiceQuestion.new 1 "Pick one" ["a"; "b"] "a") = true ∧
  returned (TrueFalseQuestion.new 2 "The sky is blue" "Maybe") = false.
Proof.
  split.
  - apply (C6_construction 1 "Pick one" ["a"; "b"] "a").
    repeat split; try discriminate; try (simpl; lia).
    apply includes_elem_of. reflexivity.
  - destruct (returned (TrueFalseQuestion.new 2 "The sky is blue" "Maybe"))
      eqn:Hr; [|reflexivity].
    apply (C6_construction 2 "The sky is blue" [] "Maybe") in Hr
      as (_ & _ & [H|H]); discriminate H.
Defined.

(** C6 as stated fails: a multiple-choice question whose two options are
    the same value is constructed, and its options do not hold two distinct
    values. *)
Lemma C6_counterexample :
  ∃ q, MultipleChoiceQuestion.new 1 "Pick one" ["a"; "a"] "a" = Return q ∧
       ¬ two_distinct (Question._options q).
Proof.
  eexists. split; [reflexivity|]. simpl.
  intros (x & y & Hx & Hy & Hne). apply Hne.
  assert (Ha : ∀ z : string, z ∈ ["a"; "a"] → z = "a").
  { intros z Hz. apply elem_of_cons in Hz as [Hz|Hz]; [exact Hz|].
    apply list_elem_of_singleton in Hz. exact Hz. }
  rewrite (Ha x Hx), (Ha y Hy). reflexivity.
Qed.

(** ** Persistence *)

Lemma loadFromStorage_disabled (w : Quiz.World) :
  Config.saveProgress (Quiz._config (Quiz.this w)) = false →
  Quiz.loadFromStorage w = (Return false, w).
Proof.
  intros H. unfold Quiz.loadFromStorage. exec. simpl. rewrite H. reflexivity.
Qed.

(** C8, as the code has it: a record whose completion flag is true
    restores nothing. With progress saving enabled, loading it returns
    [false], removes the record from the store and leaves the quiz object
    (every question, the start time, the attempts and all other fields) as
    it was. With progress saving disabled, [loadFromStorage] returns
    [false] before it reads the store: the quiz object is as it was, and so
    is the store, which keeps the record. *)
Theorem C8_load_completed (w : Quiz.World) (state : QuizState.t) :
  Quiz.localStorage w !! Config.storageKey (Quiz._config (Quiz.this w))
    = Some (Saved state) →
  QuizState.isCompleted state = true →
  (Config.saveProgress (Quiz._config (Quiz.this w)) = true →
   Quiz.loadFromStorage w =
   (Return false,
    Quiz.mkWorld (Quiz.this w)
      (delete (Config.storageKey (Quiz._config (Quiz.this w)))
              (Quiz.localStorage w))
      (Quiz.quota w) (Quiz.clock w) (Quiz.ticks w))) ∧
  (Config.saveProgress (Quiz._config (Quiz.this w)) = false →
   Quiz.loadFromStorage w = (Return false, w)) ∧
  Quiz.this (Quiz.loadFromStorage w).2 = Quiz.this w.
Proof.
  intros Hget Hc.
  assert (Hon : Config.saveProgress (Quiz._config (Quiz.this w)) = true →
                Quiz.loadFromStorage w =
                (Return false,
                 Quiz.mkWorld (Quiz.this w)
                   (delete (Config.storageKey (Quiz._config (Quiz.this w)))
                           (Quiz.localStorage w))
                   (Quiz.quota w) (Quiz.clock w) (Quiz.ticks w))).
  { intros Hsp. unfold Quiz.loadFromStorage. exec.
    destruct w as [q ls qt c n]. simpl in *.
    rewrite Hsp. simpl. rewrite Hget. simpl. rewrite Hc. reflexivity. }
  split; [exact Hon|]. split; [apply loadFromStorage_disabled|].
  destruct (Config.saveProgress (Quiz._config (Quiz.this w))) eqn:Hsp.
  - by rewrite Hon.
  - by rewrite loadFromStorage_disabled.
Qed.

(** C8, at a store that holds a completed record under the quiz's key. *)
Lemma C8_load_completed_witness :
  Quiz.loadFromStorage Sample.stale
  = (Return false,
     Quiz.mkWorld (Quiz.this Sample.stale)
       (delete "quizState" (Quiz.localStorage Sample.stale))
       (Quiz.quota Sample.stale) (Quiz.clock Sample.stale)
       (Quiz.ticks Sample.stale)).
Proof.
  destruct (C8_load_completed Sample.stale Sample.stale_record
              eq_refl eq_refl) as [H _].
  exact (H eq_refl).
Defined.

(** C8 as stated fails: a quiz constructed with [saveProgress: false] whose
    store holds a completed record under its key returns [false] from
    [loadFromStorage], and the record is still in the store. *)
Lemma C8_counterexample :
  let w := Quiz.mkWorld
             (Quiz.new [Sample.question 1 None] Sample.no_saving
                       Sample.no_random)
             {[ "quizState" := Saved Sample.stale_record ]}
             Sample.quota Sample.clock 0 in
  Config.storageKey (Quiz._config (Quiz.this w)) = "quizState" ∧
  QuizState.isCompleted Sample.stale_record = true ∧
  (Quiz.loadFromStorage w).1 = Return false ∧
  Quiz.localStorage (Quiz.loadFromStorage w).2 !! "quizState"
  = Some (Saved Sample.stale_record).
Proof. repeat split. Qed.

(** *** The loop that restores the saved answers *)

Lemma unique_ids_lookup (qs : list Question.t) (i j : nat) (x y : Question.t) :
  unique_ids qs → qs !! i = Some x → qs !! j = Some y →
  Question._id x = Question._id y → i = j.
Proof.
  unfold unique_ids. intros Hnd Hi Hj Hid.
  apply (NoDup_lookup (map Question._id qs) i j (Question._id x) Hnd).
  - change (map Question._id qs) with (Question._id <$> qs).
    by rewrite list_lookup_fmap, Hi.
  - change (map Question._id qs) with (Question._id <$> qs).
    rewrite list_lookup_fmap, Hj. simpl. by rewrite Hid.
Qed.

Lemma unique_ids_inj (qs : list Question.t) (x y : Question.t) :
  unique_ids qs → x ∈ qs → y ∈ qs →
  Question._id x = Question._id y → x = y.
Proof.
  intros Hnd Hx Hy Hid.
  apply list_elem_of_lookup in Hx as [i Hi].
  apply list_elem_of_lookup in Hy as [j Hj].
  assert (i = j) as -> by eauto using unique_ids_lookup.
  congruence.
Qed.

(** With unique ids, [getQuestion] finds each question by its own id. *)
Lemma getQuestion_elem_of (q : Quiz.t) (x : Question.t) :
  unique_ids (Quiz._questions q) → x ∈ Quiz._questions q →
  ∃ i, Quiz.getQuestion (Question._id x) q = Some (i, x).
Proof.
  intros Hnd Hx. unfold Quiz.getQuestion.
  destruct (list_find_elem_of (λ question, Question._id question = Question._id x)
              (Quiz._questions q) x Hx eq_refl) as [[i y] Hfind].
  exists i. rewrite Hfind.
  apply list_find_Some in Hfind as (Hi & Hid & _).
  apply list_elem_of_lookup_2 in Hi.
  by rewrite (unique_ids_inj (Quiz._questions q) y x Hnd Hi Hx Hid).
Qed.

Lemma restore_one_id (sa : SavedAnswer.t) (x : Question.t) :
  Question._id (restore_one sa x) = Question._id x.
Proof.
  unfold restore_one. destruct (SavedAnswer.selectedAnswer sa); [|done].
  by destruct (_ && _).
Qed.

Lemma restore_one_options (sa : SavedAnswer.t) (x : Question.t) :
  Question._options (restore_one sa x) = Question._options x.
Proof.
  unfold restore_one. destruct (SavedAnswer.selectedAnswer sa); [|done].
  by destruct (_ && _).
Qed.

Lemma restore_one_other (sa : SavedAnswer.t) (x : Question.t) :
  Question._id x ≠ SavedAnswer.id sa → restore_one sa x = x.
Proof.
  intros Hne. unfold restore_one.
  destruct (SavedAnswer.selectedAnswer sa); [|done].
  by rewrite bool_decide_eq_false_2.
Qed.

Lemma with_questions_same (w : Quiz.World) :
  with_questions (Quiz._questions (Quiz.this w)) w = w.
Proof. by destruct w as [[] ? ? ?]. Qed.

Lemma insert_restore (qs : list Question.t) (i : nat) (x : Question.t)
    (sa : SavedAnswer.t) :
  unique_ids qs → qs !! i = Some x → Question._id x = SavedAnswer.id sa →
  <[i := restore_one sa x]> qs = map (restore_one sa) qs.
Proof.
  intros Hnd Hi Hid. apply list_eq. intros j.
  change (map (restore_one sa) qs) with (restore_one sa <$> qs).
  rewrite list_lookup_fmap.
  destruct (decide (i = j)) as [<-|Hij].
  - rewrite list_lookup_insert_eq by (by eapply lookup_lt_Some).
    by rewrite Hi.
  - rewrite list_lookup_insert_ne by done.
    destruct (qs !! j) as [z|] eqn:Hj; [|done].
    simpl. f_equal. symmetry. apply restore_one_other. intros Hz.
    apply Hij. eapply unique_ids_lookup; eauto. congruence.
Qed.

Lemma map_restore_absent (qs : list Question.t) (sa : SavedAnswer.t) :
  Forall (λ x, Question._id x ≠ SavedAnswer.id sa) qs →
  map (restore_one sa) qs = qs.
Proof.
  induction 1 as [|x qs Hx _ IH]; simpl; [done|].
  by rewrite IH, restore_one_other.
Qed.

(** One round of the loop: the saved answer is applied to the question of
    its id, and to no other. *)
Lemma restoreAnswer_run (sa : SavedAnswer.t) (w : Quiz.World) :
  unique_ids (Quiz._questions (Quiz.this w)) →
  restorable [sa] (Quiz._questions (Quiz.this w)) →
  Quiz.restoreAnswer sa w =
  (Return tt, with_questions (map (restore_one sa) (Quiz._questions (Quiz.this w))) w).
Proof.
  intros Hnd Hok. unfold Quiz.restoreAnswer. exec.
  destruct (Quiz.getQuestion (SavedAnswer.id sa) (Quiz.this w))
    as [[i x]|] eqn:Hget; simpl.
  - unfold Quiz.getQuestion in Hget.
    apply list_find_Some in Hget as (Hi & Hid & _).
    rewrite <- (insert_restore _ i x sa Hnd Hi Hid).
    unfold restore_one.
    destruct (SavedAnswer.selectedAnswer sa) as [a|] eqn:Hsel.
    + rewrite bool_decide_eq_true_2 by done. simpl.
      destruct (nonempty a) eqn:Hne.
      * assert (Hin : a ∈ Question._options x).
        { apply (Hok sa x a); auto.
          - apply list_elem_of_singleton. reflexivity.
          - by eapply list_elem_of_lookup_2. }
        apply includes_elem_of in Hin. unfold Question.setAnswer.
        rewrite Hin. reflexivity.
      * rewrite list_insert_id by done. by rewrite with_questions_same.
    + rewrite list_insert_id by done. by rewrite with_questions_same.
  - unfold Quiz.getQuestion in Hget. apply list_find_None in Hget.
    rewrite map_restore_absent by done. by rewrite with_questions_same.
Qed.

Lemma restorable_cons (sa : SavedAnswer.t) (answers : list SavedAnswer.t)
    (qs : list Question.t) :
  restorable (sa :: answers) qs →
  restorable [sa] qs ∧ restorable answers (map (restore_one sa) qs).
Proof.
  intros Hok. split.
  - intros sa' x a Hsa. apply list_elem_of_singleton in Hsa as ->.
    apply Hok. apply list_elem_of_here.
  - intros sa' x' a Hsa Hx' Hid Hsel Hne.
    apply list_elem_of_fmap in Hx' as (x & -> & Hx).
    rewrite restore_one_options. rewrite restore_one_id in Hid.
    apply (Hok sa' x a); auto. by apply list_elem_of_further.
Qed.

Lemma unique_ids_restore (sa : SavedAnswer.t) (qs : list Question.t) :
  unique_ids qs → unique_ids (map (restore_one sa) qs).
Proof.
  unfold unique_ids. rewrite map_map.
  by rewrite (map_ext _ Question._id (restore_one_id sa)).
Qed.

(** The whole loop. *)
Lemma forEach_restore_run (answers : list SavedAnswer.t) (w : Quiz.World) :
  unique_ids (Quiz._questions (Quiz.this w)) →
  restorable answers (Quiz._questions (Quiz.this w)) →
  forEach Quiz.restoreAnswer answers w =
  (Return tt, with_questions (map (restored answers) (Quiz._questions (Quiz.this w))) w).
Proof.
  revert w. induction answers as [|sa answers IH]; intros w Hnd Hok.
  - simpl. unfold restored. simpl. rewrite map_id.
    by rewrite with_questions_same.
  - apply restorable_cons in Hok as [Hsa Hrest].
    simpl. exec. rewrite (restoreAnswer_run sa w Hnd Hsa).
    rewrite IH; simpl.
    + unfold with_questions. simpl. by rewrite map_map.
    + by apply unique_ids_restore.
    + exact Hrest.
Qed.

(** What [loadFromStorage] does with a record that is not completed and
    whose answers can all be set. *)
Lemma loadFromStorage_run (w : Quiz.World) (state : QuizState.t)
    (answers : list SavedAnswer.t) :
  Config.saveProgress (Quiz._config (Quiz.this w)) = true →
  Quiz.localStorage w !! Config.storageKey (Quiz._config (Quiz.this w))
    = Some (Saved state) →
  QuizState.isCompleted state = false →
  QuizState.answers state = Some answers →
  unique_ids (Quiz._questions (Quiz.this w)) →
  restorable answers (Quiz._questions (Quiz.this w)) →
  Quiz.loadFromStorage w =
  (Return true,
   Quiz.mkWorld
     (loaded_quiz state (map (restored answers) (Quiz._questions (Quiz.this w)))
                  (Quiz.this w))
     (Quiz.localStorage w) (Quiz.quota w) (Quiz.clock w) (Quiz.ticks w)).
Proof.
  intros Hsp Hget Hc Hans Hnd Hok. unfold Quiz.loadFromStorage. exec.
  destruct w as [q ls qt c n]. simpl in *.
  rewrite Hsp. simpl. rewrite Hget. simpl. rewrite Hc, Hans.
  rewrite (forEach_restore_run answers (Quiz.mkWorld q ls qt c n) Hnd Hok). simpl.
  unfold loaded_quiz.
  destruct (QuizState.startTime state), (QuizState.attempts state);
    reflexivity.
Qed.

Lemma restored_id (answers : list SavedAnswer.t) (x : Question.t) :
  Question._id (restored answers x) = Question._id x.
Proof.
  revert x. induction answers as [|sa answers IH]; intros x; [done|].
  unfold restored in *. simpl. by rewrite IH, restore_one_id.
Qed.

(** A question whose id no saved answer carries is left as it is. *)
Lemma restored_absent (answers : list SavedAnswer.t) (x : Question.t) :
  (∀ sa, sa ∈ answers → SavedAnswer.id sa ≠ Question._id x) →
  restored answers x = x.
Proof.
  revert x. induction answers as [|sa answers IH]; intros x Habs; [done|].
  unfold restored in *. simpl. rewrite restore_one_other.
  - apply IH. intros sa' Hsa'. apply Habs. by apply list_elem_of_further.
  - intros Hid. apply (Habs sa); [apply list_elem_of_here | done].
Qed.

(** When the saved answers carry pairwise different ids, a question is
    changed by the saved answer of its id alone. *)
Lemma restored_present (answers : list SavedAnswer.t) (sa : SavedAnswer.t)
    (x : Question.t) :
  NoDup (map SavedAnswer.id answers) → sa ∈ answers →
  SavedAnswer.id sa = Question._id x →
  restored answers x = restore_one sa x.
Proof.
  revert x. induction answers as [|sa' answers IH]; intros x Hnd Hin Hid.
  - inversion Hin.
  - simpl in Hnd. apply NoDup_cons in Hnd as [Hnotin Hnd].
    unfold restored in *. simpl.
    apply elem_of_cons in Hin as [<-|Hin].
    + apply (restored_absent answers (restore_one sa x)).
      intros sa'' Hsa'' Heq. apply Hnotin.
      rewrite restore_one_id in Heq. rewrite Hid, <- Heq.
      change (map SavedAnswer.id answers) with (SavedAnswer.id <$> answers).
      apply list_elem_of_fmap. eauto.
    + rewrite restore_one_other.
      * by apply IH.
      * intros Heq. apply Hnotin. rewrite <- Heq, <- Hid.
        change (map SavedAnswer.id answers) with (SavedAnswer.id <$> answers).
        apply list_elem_of_fmap. eauto.
Qed.

(** *** The shuffle permutes *)

Lemma delete_insert_list {A} (l : list A) (i : nat) (x : A) :
  delete i (<[i := x]> l) = delete i l.
Proof.
  revert i. induction l as [|y l IH]; intros [|i]; simpl; try done.
  by rewrite IH.
Qed.

Lemma insert_Permutation {A} (l : list A) (i : nat) (x : A) :
  (i < length l)%nat → <[i := x]> l ≡ₚ x :: delete i l.
Proof.
  intros Hi. rewrite <- (delete_insert_list l i x).
  apply delete_Permutation. by apply list_lookup_insert_eq.
Qed.

Lemma swap_Permutation (i j : nat) (qs : list Question.t) :
  Quiz.swap i j qs ≡ₚ qs.
Proof.
  unfold Quiz.swap.
  destruct (qs !! i) as [qi|] eqn:Hi; [|done].
  destruct (qs !! j) as [qj|] eqn:Hj; [|done].
  destruct (decide (i = j)) as [->|Hij].
  - assert (qi = qj) as -> by congruence.
    rewrite (list_insert_id qs j qj Hj). by rewrite (list_insert_id qs j qj Hj).
  - assert (Hlen : (j < length (<[i := qj]> qs))%nat).
    { rewrite length_insert. by eapply lookup_lt_Some. }
    rewrite (insert_Permutation _ j qi Hlen).
    assert (Hj' : <[i := qj]> qs !! j = Some qj)
      by (by rewrite list_lookup_insert_ne).
    pose proof (delete_Permutation _ _ _ Hj') as H1.
    assert (Hi' : (i < length qs)%nat) by (by eapply lookup_lt_Some).
    pose proof (insert_Permutation qs i qj Hi') as H2.
    pose proof (delete_Permutation _ _ _ Hi) as H3.
    assert (HD : delete j (<[i := qj]> qs) ≡ₚ delete i qs).
    { apply (Permutation_cons_inv (a := qj)).
      etransitivity; [symmetry; exact H1 | exact H2]. }
    rewrite HD. symmetry. exact H3.
Qed.

Lemma shuffle_from_Permutation (random : nat → float) (k i : nat)
    (qs : list Question.t) :
  Quiz.shuffle_from random k i qs ≡ₚ qs.
Proof.
  revert k qs. induction i as [|i IH]; intros k qs; simpl; [done|].
  rewrite IH. destruct (Number.to_index _); [apply swap_Permutation | done].
Qed.

(** [new Quiz(questions, options)] holds the given questions, in some
    order. *)
Lemma new_questions_Permutation (questions : list Question.t)
    (options : Options.t) (random : nat → float) :
  Quiz._questions (Quiz.new questions options random) ≡ₚ questions.
Proof.
  unfold Quiz.new. simpl.
  destruct (match Options.shuffleQuestions options with
            | Some b => b || false | None => false end); [|done].
  apply shuffle_from_Permutation.
Qed.

(** *** The round trip *)

Lemma saved_answers_ids (qs : list Question.t) :
  map SavedAnswer.id
      (map (λ question, SavedAnswer.mk (Question._id question)
                          (Question._selectedAnswer question)) qs)
  = map Question._id qs.
Proof. rewrite map_map. reflexivity. Qed.

Lemma reset_ids (qs : list Question.t) :
  map Question._id (map Question.resetAnswer qs) = map Question._id qs.
Proof. rewrite map_map. reflexivity. Qed.

(** A question whose id is carried by saved answers that are null or empty
    only is left as it is. *)
Lemma restored_skipped (answers : list SavedAnswer.t) (y : Question.t) :
  (∀ sa, sa ∈ answers → SavedAnswer.id sa = Question._id y →
         SavedAnswer.selectedAnswer sa = None
         ∨ SavedAnswer.selectedAnswer sa = Some "") →
  restored answers y = y.
Proof.
  induction answers as [|sa answers IH]; intros Hskip; [done|].
  unfold restored in *. simpl.
  assert (Hone : restore_one sa y = y).
  { unfold restore_one.
    destruct (SavedAnswer.selectedAnswer sa) as [a|] eqn:Hsel; [|done].
    destruct (decide (Question._id y = SavedAnswer.id sa)) as [Hid|Hid].
    - destruct (Hskip sa) as [H|H]; [apply list_elem_of_here | done | |];
        [rewrite Hsel in H; discriminate|].
      rewrite Hsel in H. injection H as ->. by rewrite andb_false_r.
    - by rewrite bool_decide_eq_false_2. }
  rewrite Hone. apply IH. intros sa' Hsa'. apply Hskip.
  by apply list_elem_of_further.
Qed.

(** When [_saveToStorage] writes, the store holds the record of the quiz
    under its key. *)
Lemma saveToStorage_saved (w : Quiz.World) :
  writes (Quiz.this w) w = true →
  Quiz.localStorage (Quiz._saveToStorage w).2
  !! Config.storageKey (Quiz._config (Quiz.this w))
  = Some (Saved (Quiz.quizState (Quiz.this w))).
Proof.
  intros Hw. rewrite saveToStorage_run. simpl. unfold saved_store.
  rewrite Hw. apply lookup_insert_eq.
Qed.

Lemma writes_true (q : Quiz.t) (w : Quiz.World) :
  writes q w = true →
  Config.saveProgress (Quiz._config q) = true ∧
  Quiz._isCompleted q = false ∧ start_invalid q = false.
Proof.
  unfold writes. intros H.
  apply andb_true_iff in H as [H _]. apply andb_true_iff in H as [H H3].
  apply andb_true_iff in H as [H1 H2].
  apply negb_true_iff in H2, H3. auto.
Qed.

(** The load, by a fresh quiz over [qs], of the record that the quiz of
    [w0] has saved: the questions of [qs] and of the saved quiz that share
    an id are the same question. *)
Lemma round_trip_run (w0 : Quiz.World) (qs : list Question.t)
    (options : Options.t) (random : nat → float)
    (quota' : gmap string Item → string → Item → bool)
    (clock' : nat → Z) (ticks' : nat) :
  let q0 := Quiz.this w0 in
  let saved := (Quiz._saveToStorage w0).2 in
  let fresh := Quiz.new qs options random in
  let answers := map (λ question, SavedAnswer.mk (Question._id question)
                                    (Question._selectedAnswer question))
                     (Quiz._questions q0) in
  writes q0 w0 = true →
  Forall answer_valid (Quiz._questions q0) →
  unique_ids qs →
  (∀ x y, x ∈ Quiz._questions q0 → y ∈ qs →
          Question._id x = Question._id y → y = Question.resetAnswer x) →
  Config.saveProgress (Quiz._config fresh) = true →
  Config.storageKey (Quiz._config fresh) = Config.storageKey (Quiz._config q0) →
  Quiz.loadFromStorage
    (Quiz.mkWorld fresh (Quiz.localStorage saved) quota' clock' ticks')
  = (Return true,
     Quiz.mkWorld
       (loaded_quiz (Quiz.quizState q0)
          (map (restored answers) (Quiz._questions fresh)) fresh)
       (Quiz.localStorage saved) quota' clock' ticks').
Proof.
  intros q0 saved fresh answers Hw Hvalid Hnd' Hsame Hsp' Hkey.
  destruct (writes_true q0 w0 Hw) as (_ & Hc & _).
  pose proof (new_questions_Permutation qs options random) as Hperm.
  fold fresh in Hperm.
  assert (Hstore : Quiz.localStorage saved
                   !! Config.storageKey (Quiz._config fresh)
                   = Some (Saved (Quiz.quizState q0))).
  { rewrite Hkey. by apply saveToStorage_saved. }
  assert (Hndf : unique_ids (Quiz._questions fresh)).
  { unfold unique_ids.
    change (map Question._id (Quiz._questions fresh))
      with (Question._id <$> Quiz._questions fresh).
    rewrite Hperm. exact Hnd'. }
  assert (Hok : restorable answers (Quiz._questions fresh)).
  { intros sa y a Hsa Hy Hid Hsel Hne.
    apply list_elem_of_fmap in Hsa as (x & -> & Hx).
    rewrite Hperm in Hy. simpl in *.
    rewrite (Hsame x y Hx Hy (eq_sym Hid)). simpl.
    rewrite Forall_forall in Hvalid. by apply (Hvalid x). }
  exact (loadFromStorage_run
           (Quiz.mkWorld fresh (Quiz.localStorage saved) quota' clock' ticks')
           (Quiz.quizState q0) answers Hsp' Hstore Hc eq_refl Hndf Hok).
Qed.

(** C7, what the code does: a quiz in progress whose questions carry
    pairwise different ids and valid answers has saved its state (the
    record was written); a fresh quiz with saving enabled and the same
    storage key, built over unanswered questions with pairwise different
    ids of which those that share an id with a saved question are that
    question, loads the record. The load returns [true]. Every question
    that was answered with a non-empty string and is in the fresh quiz is
    found in the loaded quiz with the same answer. A question of the
    loaded quiz is unanswered when the record has no entry of its id, or
    an entry with a null answer, or, departing from the claim, an entry
    whose answer is the empty string: a question answered with the empty
    string is unanswered after the round trip. *)
Theorem C7_round_trip (w0 : Quiz.World) (qs : list Question.t)
    (options : Options.t) (random : nat → float)
    (quota' : gmap string Item → string → Item → bool)
    (clock' : nat → Z) (ticks' : nat) :
  let q0 := Quiz.this w0 in
  let saved := (Quiz._saveToStorage w0).2 in
  let fresh := Quiz.new qs options random in
  let loaded :=
    Quiz.loadFromStorage
      (Quiz.mkWorld fresh (Quiz.localStorage saved) quota' clock' ticks') in
  writes q0 w0 = true →
  unique_ids (Quiz._questions q0) →
  Forall answer_valid (Quiz._questions q0) →
  unique_ids qs →
  Forall (λ y, Question._selectedAnswer y = None) qs →
  (∀ x y, x ∈ Quiz._questions q0 → y ∈ qs →
          Question._id x = Question._id y → y = Question.resetAnswer x) →
  Config.saveProgress (Quiz._config fresh) = true →
  Config.storageKey (Quiz._config fresh) = Config.storageKey (Quiz._config q0) →
  loaded.1 = Return true ∧
  (∀ x a, x ∈ Quiz._questions q0 →
          Question._selectedAnswer x = Some a → a ≠ "" →
          Question.resetAnswer x ∈ qs →
          ∃ i y, Quiz.getQuestion (Question._id x) (Quiz.this loaded.2)
                 = Some (i, y) ∧
                 Question._selectedAnswer y = Some a) ∧
  (∀ y, y ∈ Quiz._questions (Quiz.this loaded.2) →
        (∀ x, x ∈ Quiz._questions q0 → Question._id x = Question._id y →
              Question._selectedAnswer x = None
              ∨ Question._selectedAnswer x = Some "") →
        Question._selectedAnswer y = None) ∧
  (∀ x i y, x ∈ Quiz._questions q0 →
            Question._selectedAnswer x = Some "" →
            Quiz.getQuestion (Question._id x) (Quiz.this loaded.2)
            = Some (i, y) →
            Question._selectedAnswer y = None).
Proof.
  intros q0 saved fresh loaded Hw Hnd Hvalid Hnd' Hnone Hsame Hsp' Hkey.
  set (qs0 := Quiz._questions q0) in *.
  set (answers := map (λ question, SavedAnswer.mk (Question._id question)
                                     (Question._selectedAnswer question)) qs0).
  pose proof (round_trip_run w0 qs options random quota' clock' ticks'
                Hw Hvalid Hnd' Hsame Hsp' Hkey) as Hload.
  cbv zeta in Hload. fold q0 qs0 answers saved fresh loaded in Hload.
  pose proof (new_questions_Permutation qs options random) as Hperm.
  fold fresh in Hperm. clearbody fresh.
  rewrite Hload. simpl.
  set (final := map (restored answers) (Quiz._questions fresh)).
  assert (Hndf : unique_ids final).
  { unfold unique_ids, final. rewrite map_map.
    rewrite (map_ext _ Question._id (restored_id answers)).
    change (map Question._id (Quiz._questions fresh))
      with (Question._id <$> Quiz._questions fresh).
    rewrite Hperm. exact Hnd'. }
  assert (Hnda : NoDup (map SavedAnswer.id answers)).
  { unfold answers. rewrite saved_answers_ids. exact Hnd. }
  assert (Hskip : ∀ y, y ∈ final →
            (∀ x, x ∈ qs0 → Question._id x = Question._id y →
                  Question._selectedAnswer x = None
                  ∨ Question._selectedAnswer x = Some "") →
            Question._selectedAnswer y = None).
  { intros y Hy Hx.
    apply list_elem_of_fmap in Hy as (y0 & -> & Hy0).
    rewrite Hperm in Hy0. rewrite restored_skipped.
    - rewrite Forall_forall in Hnone. by apply Hnone.
    - intros sa Hsa Hid.
      apply list_elem_of_fmap in Hsa as (x & -> & Hx0). simpl in *.
      apply (Hx x Hx0). by rewrite restored_id. }
  split; [reflexivity|]. split; [|split; [exact Hskip|]].
  - intros x a Hx Hsel Hne Hin.
    set (sa := SavedAnswer.mk (Question._id x) (Some a)).
    assert (Hsa : sa ∈ answers).
    { apply list_elem_of_fmap. exists x. by rewrite Hsel. }
    assert (Hy : restored answers (Question.resetAnswer x) ∈ final).
    { apply list_elem_of_fmap. eexists. split; [reflexivity|].
      by rewrite Hperm. }
    rewrite (restored_present answers sa (Question.resetAnswer x)
               Hnda Hsa eq_refl) in Hy.
    unfold restore_one in Hy. simpl in Hy.
    rewrite bool_decide_eq_true_2 in Hy by done.
    apply nonempty_true in Hne. rewrite Hne in Hy. simpl in Hy.
    destruct (getQuestion_elem_of
                (loaded_quiz (Quiz.quizState q0) final fresh) _ Hndf Hy)
      as [i Hi].
    simpl in Hi. eauto.
  - intros x i y Hx Hsel Hget.
    unfold Quiz.getQuestion in Hget. simpl in Hget.
    apply list_find_Some in Hget as (Hi & Hid & _).
    apply (Hskip y); [by eapply list_elem_of_lookup_2|].
    intros x' Hx' Hid'. right.
    assert (x' = x) as ->; [|exact Hsel].
    apply (unique_ids_inj qs0); [done..|congruence].
Qed.

(** C7, at the failing input: a question whose options are [""] and ["x"]
    is answered with the empty string and saved; a fresh quiz over that
    question and a second one, of which the record has no entry, loads the
    record, and both questions are unanswered. *)
Lemma C7_round_trip_witness :
  let loaded :=
    Quiz.loadFromStorage
      (Quiz.mkWorld
         (Quiz.new [Question.resetAnswer Scenario.blank_answer;
                    Sample.question 2 None]
                   Sample.no_options Sample.no_random)
         (Quiz.localStorage (Quiz._saveToStorage Scenario.blank).2)
         Sample.quota Sample.clock 0) in
  loaded.1 = Return true ∧
  (∀ i y, Quiz.getQuestion 1 (Quiz.this loaded.2) = Some (i, y) →
          Question._selectedAnswer y = None) ∧
  (∀ y, y ∈ Quiz._questions (Quiz.this loaded.2) → Question._id y = 2 →
        Question._selectedAnswer y = None).
Proof.
  intros loaded.
  assert (Hnd : unique_ids (Quiz._questions (Quiz.this Scenario.blank))).
  { apply (bool_decide_unpack _). vm_compute. exact I. }
  assert (Hvalid : Forall answer_valid
                     (Quiz._questions (Quiz.this Scenario.blank))).
  { apply Forall_cons. split; [|constructor].
    intros a Ha. injection Ha as <-. apply includes_elem_of. reflexivity. }
  assert (Hnd' : unique_ids [Question.resetAnswer Scenario.blank_answer;
                             Sample.question 2 None]).
  { apply (bool_decide_unpack _). vm_compute. exact I. }
  assert (Hnone : Forall (λ y, Question._selectedAnswer y = None)
                    [Question.resetAnswer Scenario.blank_answer;
                     Sample.question 2 None]).
  { by repeat constructor. }
  assert (Hsame : ∀ x y,
            x ∈ Quiz._questions (Quiz.this Scenario.blank) →
            y ∈ [Question.resetAnswer Scenario.blank_answer;
                 Sample.question 2 None] →
            Question._id x = Question._id y → y = Question.resetAnswer x).
  { intros x y Hx Hy Hid. apply list_elem_of_singleton in Hx as ->.
    apply elem_of_cons in Hy as [->|Hy]; [reflexivity|].
    apply list_elem_of_singleton in Hy as ->. discriminate Hid. }
  destruct (C7_round_trip Scenario.blank
              [Question.resetAnswer Scenario.blank_answer;
               Sample.question 2 None]
              Sample.no_options Sample.no_random Sample.quota Sample.clock 0
              eq_refl Hnd Hvalid Hnd' Hnone Hsame eq_refl eq_refl)
    as (Hret & _ & Habsent & H).
  split; [exact Hret|]. split.
  - intros i y. apply (H Scenario.blank_answer i y);
      [apply list_elem_of_here | reflexivity].
  - intros y Hy Hid. apply (Habsent y Hy).
    intros x Hx Hxy. apply list_elem_of_singleton in Hx as ->.
    rewrite Hid in Hxy. discriminate Hxy.
Defined.

(** C7 as stated fails: a multiple-choice question with the options [""]
    and ["x"] is constructed and answered with the empty string, which
    saves the state with a non-null answer for id 1; a fresh quiz over the
    same question loads the record, returns [true], and the question is
    unanswered. *)
Lemma C7_counterexample :
  ∃ question w1 w2,
    MultipleChoiceQuestion.new 1 "Pick one" [""; "x"] "x" = Return question ∧
    Quiz.setAnswer 1 ""
      (Quiz.mkWorld (Quiz.new [question] Sample.no_options Sample.no_random)
                    ∅ Sample.quota Sample.clock 0)
    = (Return true, w1) ∧
    Question._selectedAnswer <$> Quiz._questions (Quiz.this w1) = [Some ""] ∧
    Quiz.localStorage w1 !! "quizState"
    = Some (Saved (QuizState.mk (Some [SavedAnswer.mk 1 (Some "")])
                                (Some (Date.Time 1700000000000)) false
                                (Some 0%float) "1.0")) ∧
    Quiz.loadFromStorage
      (Quiz.mkWorld (Quiz.new [question] Sample.no_options Sample.no_random)
                    (Quiz.localStorage w1) Sample.quota Sample.clock 0)
    = (Return true, w2) ∧
    Question._selectedAnswer <$> Quiz._questions (Quiz.this w2) = [None].
Proof.
  eexists. eexists. eexists.
  split; [reflexivity|]. split; [reflexivity|]. split; [reflexivity|].
  split; [reflexivity|]. split; reflexivity.
Qed.

(** ** The invariants are kept *)

Lemma inv_insert (q q' : Quiz.t) (i : nat) (x x' : Question.t) :
  Quiz._questions q !! i = Some x →
  Question._id x' = Question._id x → answer_valid x' →
  Quiz._questions q' = <[i := x']> (Quiz._questions q) →
  quiz_inv q → quiz_inv q'.
Proof.
  intros Hi Hid Hv Hq' [Hnd Hall]. unfold quiz_inv. rewrite Hq'. split.
  - unfold unique_ids in *.
    change (NoDup (Question._id <$> <[i := x']> (Quiz._questions q))).
    rewrite list_fmap_insert, Hid. rewrite list_insert_id; [exact Hnd|].
    by rewrite list_lookup_fmap, Hi.
  - by apply Forall_insert.
Qed.

Lemma answer_valid_setAnswer (answer : string) (x x' : Question.t) :
  Question.setAnswer answer x = Return x' →
  answer_valid x' ∧ Question._id x' = Question._id x.
Proof.
  destruct (Question_setAnswer_run answer x) as [[Hin ->]|[_ ->]];
    [|discriminate].
  intros [= <-]. split; [|reflexivity].
  intros a Ha. simpl in *. by injection Ha as <-.
Qed.

Lemma constructed_valid (question : Question.t) :
  Question._selectedAnswer question = None → answer_valid question.
Proof. intros H a Ha. congruence. Qed.

(** [setAnswer] keeps the ids unique and the answers valid. *)
Lemma setAnswer_inv (questionId : Z) (answer : string) (w : Quiz.World) :
  quiz_inv (Quiz.this w) →
  quiz_inv (Quiz.this (Quiz.setAnswer questionId answer w).2).
Proof.
  intros Hinv. pose proof (setAnswer_run questionId answer w) as Hrun.
  destruct (Quiz.getQuestion questionId (Quiz.this w))
    as [[i x]|] eqn:Hget; [|by rewrite Hrun].
  destruct (Question.setAnswer answer x) as [x'|e] eqn:Hset;
    [|by rewrite Hrun].
  simpl in Hrun. rewrite Hrun. simpl.
  apply answer_valid_setAnswer in Hset as [Hv Hid].
  unfold Quiz.getQuestion in Hget. apply list_find_Some in Hget as (Hi & _).
  by eapply (inv_insert (Quiz.this w)).
Qed.

(** [resetAllAnswers] and [submitQuiz] keep them too. *)
Lemma resetAllAnswers_inv (w : Quiz.World) :
  quiz_inv (Quiz.this w) → quiz_inv (Quiz.this (Quiz.resetAllAnswers w).2).
Proof.
  intros [Hnd _]. split; simpl.
  - unfold unique_ids. by rewrite reset_ids.
  - apply Forall_forall. intros x Hx.
    apply list_elem_of_fmap in Hx as (y & -> & _). by apply constructed_valid.
Qed.

Lemma submitQuiz_inv (w : Quiz.World) :
  quiz_inv (Quiz.this w) → quiz_inv (Quiz.this (Quiz.submitQuiz w).2).
Proof.
  intros Hinv.
  destruct (submitQuiz_run w)
    as [[_ ->] | [(_ & _ & ->) | (_ & _ & r & n & Hs & _)]]; try done.
  simpl in Hs. by rewrite Hs.
Qed.

Lemma restoreAnswer_inv (sa : SavedAnswer.t) (w : Quiz.World) :
  quiz_inv (Quiz.this w) → quiz_inv (Quiz.this (Quiz.restoreAnswer sa w).2).
Proof.
  intros Hinv. unfold Quiz.restoreAnswer. exec.
  destruct (Quiz.getQuestion (SavedAnswer.id sa) (Quiz.this w))
    as [[i x]|] eqn:Hget; simpl; [|done].
  destruct (SavedAnswer.selectedAnswer sa) as [a|]; [|done].
  destruct (nonempty a); [|done].
  destruct (Question.setAnswer a x) as [x'|e] eqn:Hset; simpl; [|done].
  apply answer_valid_setAnswer in Hset as [Hv Hid].
  unfold Quiz.getQuestion in Hget. apply list_find_Some in Hget as (Hi & _).
  by eapply (inv_insert (Quiz.this w)).
Qed.

Lemma forEach_restore_inv (answers : list SavedAnswer.t) (w : Quiz.World) :
  quiz_inv (Quiz.this w) →
  quiz_inv (Quiz.this (forEach Quiz.restoreAnswer answers w).2).
Proof.
  revert w. induction answers as [|sa answers IH]; intros w Hinv; [done|].
  simpl. exec. pose proof (restoreAnswer_inv sa w Hinv) as H1.
  destruct (Quiz.restoreAnswer sa w) as [[[]|e] w1]; simpl in *; [|done].
  by apply IH.
Qed.

(** [loadFromStorage] keeps the invariants, whatever the store holds. *)
Lemma loadFromStorage_inv (w : Quiz.World) :
  quiz_inv (Quiz.this w) → quiz_inv (Quiz.this (Quiz.loadFromStorage w).2).
Proof.
  intros Hinv. unfold Quiz.loadFromStorage. exec.
  destruct w as [q ls qt c n]. simpl in *.
  destruct (Config.saveProgress (Quiz._config q)); simpl; [|done].
  destruct (ls !! Config.storageKey (Quiz._config q)) as [[state| |]|];
    simpl; try done.
  destruct (QuizState.isCompleted state); simpl; [done|].
  destruct (QuizState.answers state) as [answers|]; simpl.
  - pose proof (forEach_restore_inv answers (Quiz.mkWorld q ls qt c n) Hinv) as H1.
    destruct (forEach Quiz.restoreAnswer answers (Quiz.mkWorld q ls qt c n))
      as [[[]|e] w1]; simpl in *; [|done].
    destruct (QuizState.startTime state), (QuizState.attempts state); done.
  - destruct (QuizState.startTime state), (QuizState.attempts state); done.
Qed.

(** * Further properties of the code *)

(** ** Questions *)

Lemma Question_new_inv (id : Z) (text : string) (options : list string)
    (correctAnswer type : string) (q : Question.t) :
  Question.new id text options correctAnswer type = Return q →
  q = Question.mk id text options correctAnswer type None ∧
  id ≠ 0 ∧ text ≠ "" ∧ correctAnswer ≠ "" ∧ correctAnswer ∈ options.
Proof.
  destruct (Question_new_run id text options correctAnswer type)
    as [(H1 & H2 & H3 & H4 & ->) | (_ & e & ->)]; [|discriminate].
  intros [= <-]. auto.
Qed.

(** X1: on a constructed question, [isCorrect] is false until an answer is
    given; answering with the correct answer returns and makes it true,
    answering with another option returns and leaves it false, a value that
    is not an option throws and changes nothing, and [resetAnswer] after
    any answer gives the constructed question back. *)
Theorem X1_answer_and_correctness (id : Z) (text : string)
    (options : list string) (correctAnswer type : string) (q : Question.t) :
  Question.new id text options correctAnswer type = Return q →
  Question.isCorrect q = false ∧
  (∀ answer, answer ∈ options →
     ∃ q', Question.setAnswer answer q = Return q' ∧
           Question.isCorrect q' = bool_decide (answer = correctAnswer) ∧
           Question.resetAnswer q' = q) ∧
  (∀ answer, answer ∉ options →
     Question.setAnswer answer q = Throw AnswerNotAnOption).
Proof.
  intros Hq. apply Question_new_inv in Hq as (-> & _ & _ & _ & Hin).
  split; [reflexivity|]. split.
  - intros answer Ha.
    destruct (Question_setAnswer_run answer
                (Question.mk id text options correctAnswer type None))
      as [[_ ->]|[Hn _]]; [|contradiction].
    eexists. split; [reflexivity|]. split; [|reflexivity].
    unfold Question.isCorrect. simpl.
    destruct (String.eqb_spec answer correctAnswer) as [->|Hne].
    + by rewrite bool_decide_eq_true_2.
    + by rewrite bool_decide_eq_false_2.
  - intros answer Ha.
    destruct (Question_setAnswer_run answer
                (Question.mk id text options correctAnswer type None))
      as [[Hy _]|[_ ->]]; [contradiction|reflexivity].
Qed.

(** X1, at the sample question: ["a"] is correct, ["b"] is not. *)
Lemma X1_answer_and_correctness_witness :
  ∃ q', Question.setAnswer "b" (Sample.question 1 None) = Return q' ∧
        Question.isCorrect q' = false ∧
        Question.resetAnswer q' = Sample.question 1 None.
Proof.
  destruct (X1_answer_and_correctness 1 "Pick one" ["a"; "b"] "a"
              "multiple-choice" (Sample.question 1 None) eq_refl)
    as (_ & H & _).
  destruct (H "b") as (q' & H1 & H2 & H3).
  - apply includes_elem_of. reflexivity.
  - exists q'. split; [exact H1|]. split; [exact H2 | exact H3].
Defined.

(** X2: [fromJSON] after [toJSON] gives back a question whose id, text and
    correct answer are non-empty and whose correct and selected answers are
    options, with all its fields, except that a selected empty string is
    read back as no answer. *)
Theorem X2_fromJSON_toJSON (q : Question.t) :
  Question._id q ≠ 0 → Question._text q ≠ "" →
  Question._correctAnswer q ≠ "" →
  Question._correctAnswer q ∈ Question._options q →
  answer_valid q →
  Question.fromJSON (Question.toJSON q) = Return (reread q).
Proof.
  intros H1 H2 H3 H4 Hv. unfold Question.fromJSON, Question.toJSON. simpl.
  destruct (Question_new_run (Question._id q) (Question._text q)
              (Question._options q) (Question._correctAnswer q)
              (Question._type q))
    as [(_ & _ & _ & _ & ->) | (Hn & _)]; [|tauto].
  unfold reread. destruct q as [i t o c ty [a|]]; simpl in *; [|reflexivity].
  destruct (nonempty a); [|reflexivity].
  unfold Question.setAnswer. simpl.
  assert (Ha : includes o a = true) by (apply includes_elem_of, Hv; reflexivity).
  by rewrite Ha.
Qed.

(** X2, at an answered sample question. *)
Lemma X2_fromJSON_toJSON_witness :
  Question.fromJSON (Question.toJSON (Sample.question 1 (Some "b")))
  = Return (Sample.question 1 (Some "b")).
Proof.
  apply (X2_fromJSON_toJSON (Sample.question 1 (Some "b")));
    try discriminate.
  - apply includes_elem_of. reflexivity.
  - intros a Ha. injection Ha as <-. apply includes_elem_of. reflexivity.
Defined.

(** ** True/false questions *)

Lemma TrueFalse_new_inv (id : Z) (text correctAnswer : string)
    (q : Question.t) :
  TrueFalseQuestion.new id text correctAnswer = Return q →
  q = Question.mk id text ["True"; "False"] correctAnswer "true-false" None ∧
  id ≠ 0 ∧ text ≠ "" ∧ (correctAnswer = "True" ∨ correctAnswer = "False").
Proof.
  unfold TrueFalseQuestion.new.
  destruct (includes ["True"; "False"] correctAnswer) eqn:Hinc; simpl;
    [|discriminate].
  intros Hq. apply Question_new_inv in Hq as (-> & H1 & H2 & _ & Hin).
  repeat split; auto.
  apply elem_of_cons in Hin as [Hin|Hin]; [auto|].
  apply list_elem_of_singleton in Hin. auto.
Qed.

(** X3: on a constructed true/false question [getSelectedAnswerAsBoolean]
    is null; [setAnswerFromBoolean b] always returns, after which
    [getSelectedAnswerAsBoolean] is [b] and [isCorrect] says whether [b] is
    the boolean of the correct answer. *)
Theorem X3_boolean_answers (id : Z) (text correctAnswer : string)
    (q : Question.t) (b : bool) :
  TrueFalseQuestion.new id text correctAnswer = Return q →
  TrueFalseQuestion.getSelectedAnswerAsBoolean q = None ∧
  ∃ q', TrueFalseQuestion.setAnswerFromBoolean b q = Return q' ∧
        TrueFalseQuestion.getSelectedAnswerAsBoolean q' = Some b ∧
        Question.isCorrect q'
        = Bool.eqb b (TrueFalseQuestion.getCorrectAnswerAsBoolean q).
Proof.
  intros Hq. apply TrueFalse_new_inv in Hq as (-> & _ & _ & Hc).
  split; [reflexivity|].
  destruct b, Hc as [-> | ->]; eexists; repeat split.
Qed.

(** X3, at a true statement answered with [false]. *)
Lemma X3_boolean_answers_witness :
  ∃ q', TrueFalseQuestion.setAnswerFromBoolean false (Scenario.trueFalse 2 None)
        = Return q' ∧
        TrueFalseQuestion.getSelectedAnswerAsBoolean q' = Some false ∧
        Question.isCorrect q' = false.
Proof.
  destruct (X3_boolean_answers 2 "The sky is blue" "True"
              (Scenario.trueFalse 2 None) false eq_refl)
    as (_ & q' & H1 & H2 & H3).
  exists q'. split; [exact H1|]. split; [exact H2 | exact H3].
Defined.

Lemma append_nonempty_l (s t : string) : s ≠ "" → (s ++ t)%string ≠ "".
Proof. destruct s; [congruence | discriminate]. Qed.

Lemma negateStatement_nonempty (toLowerCase : string → string)
    (statement : string) :
  statement ≠ "" →
  TrueFalseQuestion._negateStatement toLowerCase statement ≠ "".
Proof.
  intros H. unfold TrueFalseQuestion._negateStatement.
  destruct (_ || _); [by apply append_nonempty_l | discriminate].
Qed.

(** The sum of two whole numbers, as numbers: exact up to [2^53]. *)
Lemma nearest_exact (z : Z) : Z.abs z <= 2 ^ 53 → Number.nearest z = z.
Proof.
  intros H. unfold Number.nearest.
  destruct (Z.leb_spec (Z.abs z) (2 ^ 53)); [reflexivity | lia].
Qed.

(** Only 0 is rounded to 0. *)
Lemma nearest_zero (z : Z) : Number.nearest z = 0 ↔ z = 0.
Proof.
  split; [|intros ->; reflexivity].
  unfold Number.nearest.
  destruct (Z.leb_spec (Z.abs z) (2 ^ 53)) as [_|Hbig]; [done|].
  set (a := Z.abs z) in *. set (e := Z.log2 a - 52).
  assert (Hlog : 53 <= Z.log2 a).
  { rewrite <- (Z.log2_pow2 53) by lia. apply Z.log2_le_mono. lia. }
  assert (He : 0 < 2 ^ e) by (apply Z.pow_pos_nonneg; unfold e; lia).
  assert (Hq : 1 <= a / 2 ^ e).
  { apply Z.div_le_lower_bound; [exact He|].
    assert (Ha : 2 ^ Z.log2 a <= a) by (apply Z.log2_spec; lia).
    assert (2 ^ e <= 2 ^ Z.log2 a)
      by (apply Z.pow_le_mono_r; unfold e; lia).
    lia. }
  intros H. exfalso.
  assert (Hq' : 1 <= (if 2 * (a mod 2 ^ e) <? 2 ^ e then a / 2 ^ e
                      else if 2 ^ e <? 2 * (a mod 2 ^ e) then a / 2 ^ e + 1
                      else if Z.even (a / 2 ^ e) then a / 2 ^ e
                           else a / 2 ^ e + 1)).
  { destruct (_ <? _); [exact Hq|]. destruct (_ <? _); [lia|].
    destruct (Z.even _); lia. }
  apply Z.mul_eq_0 in H as [H|H]; [unfold a in Hbig; lia|].
  apply Z.mul_eq_0 in H as [H|H]; lia.
Qed.

(** [nearest] against the addition of numbers, at sums where the spacing of
    the numbers is 2, 4 and 16, with and without a tie. *)
Lemma nearest_is_addition :
  forallb (λ ab : Z * Z,
             PrimFloat.Leibniz.eqb
               (PrimFloat.add (Number.of_Z ab.1) (Number.of_Z ab.2))
               (Number.of_Z (Number.nearest (ab.1 + ab.2))))
          [(2 ^ 53, 1); (2 ^ 53 + 2, 1); (2 ^ 53, 3); (2 ^ 54, 1000);
           (2 ^ 54, 2); (2 ^ 54 + 4, 2); (2 ^ 56, 1000); (2 ^ 56, 8);
           (2 ^ 56 + 16, 8); (2 ^ 56, 9); (- 2 ^ 56, 1000);
           (- 2 ^ 56, -1000); (2 ^ 53 - 1, 1); (2 ^ 53 - 1, 2);
           (-1000, 1000); (41, 1000); (2 ^ 61, 1000)]
  = true.
Proof. vm_compute. reflexivity. Qed.

(** X4: [createOppositeQuestion] on a constructed true/false question
    returns an unanswered true/false question with the other correct
    answer, whatever the text, whose id is the sum [id + 1000] of numbers:
    the number nearest to the exact sum, which is the exact sum up to
    [2^53]. The one exception is the id -1000, for which the new id is 0
    and the constructor throws. *)
Theorem X4_createOppositeQuestion (toLowerCase : string → string) (id : Z)
    (text correctAnswer : string) (q : Question.t) :
  TrueFalseQuestion.new id text correctAnswer = Return q →
  (id ≠ -1000 →
     ∃ q', TrueFalseQuestion.createOppositeQuestion toLowerCase q = Return q' ∧
           Question._id q' = Number.nearest (id + 1000) ∧
           (Z.abs (id + 1000) <= 2 ^ 53 → Question._id q' = id + 1000) ∧
           TrueFalseQuestion.getCorrectAnswerAsBoolean q'
           = negb (TrueFalseQuestion.getCorrectAnswerAsBoolean q) ∧
           Question._options q' = ["True"; "False"] ∧
           Question._selectedAnswer q' = None) ∧
  (id = -1000 →
     TrueFalseQuestion.createOppositeQuestion toLowerCase q
     = Throw InvalidQuestionParameters).
Proof.
  intros Hq. apply TrueFalse_new_inv in Hq as (-> & Hid & Ht & Hc).
  pose proof (negateStatement_nonempty toLowerCase text Ht) as Hneg.
  unfold TrueFalseQuestion.createOppositeQuestion. simpl.
  set (negated := TrueFalseQuestion._negateStatement toLowerCase text) in *.
  split.
  - intros Hne.
    assert (Hid' : Number.nearest (id + 1000) ≠ 0).
    { intros H. apply (proj1 (nearest_zero _)) in H. lia. }
    set (id' := Number.nearest (id + 1000)) in *.
    assert (Hnew : ∀ answer, answer = "True" ∨ answer = "False" →
              TrueFalseQuestion.new id' negated answer
              = Return (Question.mk id' negated ["True"; "False"]
                          answer "true-false" None)).
    { intros answer Ha. unfold TrueFalseQuestion.new.
      assert (Hin : answer ∈ ["True"; "False"])
        by (destruct Ha as [-> | ->]; apply includes_elem_of; reflexivity).
      apply includes_elem_of in Hin as Hinc. rewrite Hinc. simpl.
      destruct (Question_new_run id' negated ["True"; "False"]
                  answer "true-false")
        as [(_ & _ & _ & _ & ->) | (Hn & _)]; [reflexivity|].
      exfalso. apply Hn. repeat split; auto.
      destruct Ha as [-> | ->]; discriminate. }
    destruct Hc as [-> | ->]; simpl; rewrite Hnew by auto;
      eexists; (split; [reflexivity|]); (split; [reflexivity|]);
      (split; [intros Hsmall; by apply nearest_exact|]); by repeat split.
  - intros ->. unfold TrueFalseQuestion.new, Question.new,
      Question._validateInput. simpl.
    destruct Hc as [-> | ->]; reflexivity.
Qed.

(** X4, with the identity in place of [toLowerCase], at the id [2^56]:
    the new id is [2^56 + 992]. *)
Lemma X4_createOppositeQuestion_witness :
  ∃ q', TrueFalseQuestion.createOppositeQuestion (λ s, s)
          (Scenario.trueFalse 72057594037927936 None) = Return q' ∧
        Question._id q' = 72057594037928928 ∧
        TrueFalseQuestion.getCorrectAnswerAsBoolean q' = false.
Proof.
  destruct (X4_createOppositeQuestion (λ s, s) 72057594037927936
              "The sky is blue" "True"
              (Scenario.trueFalse 72057594037927936 None) eq_refl) as [H _].
  destruct H as (q' & H1 & H2 & _ & H3 & _); [discriminate|].
  exists q'. split; [exact H1|]. split; [|exact H3].
  rewrite H2. reflexivity.
Defined.

(** X5: [fromBoolean] returns exactly when the id is not 0 and the
    statement is not empty, and the question it returns has the given
    boolean as its correct answer. *)
Theorem X5_fromBoolean (id : Z) (statement : string) (isTrue : bool) :
  (returned (TrueFalseQuestion.fromBoolean id statement isTrue) = true ↔
     id ≠ 0 ∧ statement ≠ "") ∧
  (∀ q, TrueFalseQuestion.fromBoolean id statement isTrue = Return q →
        TrueFalseQuestion.getCorrectAnswerAsBoolean q = isTrue ∧
        Question._id q = id ∧ Question._text q = statement).
Proof.
  unfold TrueFalseQuestion.fromBoolean. split.
  - destruct (TrueFalseQuestion.new id statement
                (if isTrue then "True" else "False")) as [q|e] eqn:Hq; simpl.
    + apply TrueFalse_new_inv in Hq as (_ & H1 & H2 & _). tauto.
    + split; [discriminate|]. intros [H1 H2]. exfalso.
      unfold TrueFalseQuestion.new in Hq.
      assert (Hinc : includes ["True"; "False"]
                       (if isTrue then "True" else "False") = true)
        by (destruct isTrue; reflexivity).
      rewrite Hinc in Hq. simpl in Hq.
      destruct (Question_new_run id statement ["True"; "False"]
                  (if isTrue then "True" else "False") "true-false")
        as [(_ & _ & _ & _ & Hr) | (Hn & _)]; [congruence|].
      apply Hn. repeat split; auto.
      * destruct isTrue; discriminate.
      * apply includes_elem_of. exact Hinc.
  - intros q Hq. apply TrueFalse_new_inv in Hq as (-> & _). simpl.
    split; [by destruct isTrue | auto].
Qed.

(** X5, at a false statement. *)
Lemma X5_fromBoolean_witness :
  returned (TrueFalseQuestion.fromBoolean 3 "Water is dry" false) = true.
Proof.
  apply (X5_fromBoolean 3 "Water is dry" false). split; discriminate.
Defined.

(** ** Answering, once more *)

(** X6: the timer starts with the first answer that is accepted and is not
    restarted. A start time that is set is kept by every [setAnswer], which
    then does not read the clock; a quiz not yet started gets the clock's
    reading as its start time when the answer is accepted, and stays
    unstarted when it is rejected. *)
Theorem X6_setAnswer_timer (questionId : Z) (answer : string)
    (w : Quiz.World) :
  let w' := (Quiz.setAnswer questionId answer w).2 in
  (∀ t, Quiz._startTime (Quiz.this w) = Some t →
        Quiz._startTime (Quiz.this w') = Some t ∧
        Quiz.ticks w' = Quiz.ticks w) ∧
  (Quiz._startTime (Quiz.this w) = None →
     (Quiz.setAnswer questionId answer w).1 = Return true →
     Quiz._startTime (Quiz.this w')
     = Some (Date.Time (Quiz.clock w (Quiz.ticks w)))) ∧
  (Quiz._startTime (Quiz.this w) = None →
     (Quiz.setAnswer questionId answer w).1 = Return false →
     Quiz._startTime (Quiz.this w') = None).
Proof.
  pose proof (setAnswer_run questionId answer w) as Hrun. simpl.
  destruct (Quiz.getQuestion questionId (Quiz.this w)) as [[i x]|].
  - destruct (Question.setAnswer answer x) as [x'|e]; simpl in Hrun;
      rewrite Hrun; simpl.
    + split; [|split].
      * intros t Ht. rewrite Ht. auto.
      * intros Hn _. by rewrite Hn.
      * intros _ H. discriminate H.
    + split; [auto|]. split; [intros _ H; discriminate H | auto].
  - rewrite Hrun. simpl.
    split; [auto|]. split; [intros _ H; discriminate H | auto].
Qed.

(** X7: what an accepted answer writes. On a quiz whose ids are pairwise
    different, after a [setAnswer] that returned [true]: when saving is
    enabled, the quiz is not completed, its start time is not an Invalid
    Date and the quota accepts the record, the store holds under the quiz's
    key the record of the quiz as it now is, and every other key is as
    before; when saving is disabled, or the quiz is completed, or the start
    time is an Invalid Date (so that [toISOString] throws), or the quota
    refuses the record (so that [setItem] throws), the store is as it was,
    although [setAnswer] returned [true]. *)
Theorem X7_setAnswer_saves (questionId : Z) (answer : string)
    (w : Quiz.World) :
  let w' := (Quiz.setAnswer questionId answer w).2 in
  let key := Config.storageKey (Quiz._config (Quiz.this w)) in
  let accepted :=
    Quiz.quota w (Quiz.localStorage w) key
               (Saved (Quiz.quizState (Quiz.this w'))) in
  unique_ids (Quiz._questions (Quiz.this w)) →
  (Quiz.setAnswer questionId answer w).1 = Return true →
  (Config.saveProgress (Quiz._config (Quiz.this w)) = true →
   Quiz._isCompleted (Quiz.this w) = false →
   start_invalid (Quiz.this w) = false →
   accepted = true →
   Quiz.localStorage w'
   = <[key := Saved (Quiz.quizState (Quiz.this w'))]> (Quiz.localStorage w) ∧
   QuizState.isCompleted (Quiz.quizState (Quiz.this w')) = false ∧
   QuizState.answers (Quiz.quizState (Quiz.this w'))
   = Some (map (λ question, SavedAnswer.mk (Question._id question)
                              (Question._selectedAnswer question))
               (Quiz._questions (Quiz.this w')))) ∧
  (Config.saveProgress (Quiz._config (Quiz.this w)) = false
   ∨ Quiz._isCompleted (Quiz.this w) = true
   ∨ start_invalid (Quiz.this w) = true
   ∨ accepted = false →
   Quiz.localStorage w' = Quiz.localStorage w).
Proof.
  pose proof (setAnswer_run questionId answer w) as Hrun. simpl.
  intros _.
  destruct (Quiz.getQuestion questionId (Quiz.this w)) as [[i x]|];
    [|rewrite Hrun; discriminate].
  destruct (Question.setAnswer answer x) as [x'|e]; simpl in Hrun;
    rewrite Hrun; simpl; [|discriminate].
  intros _. unfold saved_store, writes, start_invalid. simpl. split.
  - intros -> -> Hst ->. simpl.
    destruct (Quiz._startTime (Quiz.this w)) as [[ms|]|];
      try discriminate; simpl; auto.
  - intros [-> | [-> | [Hst | ->]]].
    + reflexivity.
    + by rewrite andb_false_r.
    + destruct (Quiz._startTime (Quiz.this w)) as [[ms|]|];
        try discriminate. simpl. by rewrite !andb_false_r.
    + by rewrite !andb_false_r.
Qed.

(** X7, at the first answer of a quiz that has not started. *)
Lemma X7_setAnswer_saves_witness :
  Quiz.localStorage (Quiz.setAnswer 1 "a" Scenario.unstarted).2
  !! "quizState"
  = Some (Saved (Quiz.quizState
                   (Quiz.this (Quiz.setAnswer 1 "a" Scenario.unstarted).2))).
Proof.
  assert (Hnd : unique_ids (Quiz._questions (Quiz.this Scenario.unstarted))).
  { apply (bool_decide_unpack _). vm_compute. exact I. }
  destruct (X7_setAnswer_saves 1 "a" Scenario.unstarted Hnd eq_refl)
    as [H _].
  destruct (H eq_refl eq_refl eq_refl eq_refl) as (Hs & _).
  rewrite Hs. apply lookup_insert_eq.
Defined.

Lemma count_insert (f : Question.t → bool) (l : list Question.t) (i : nat)
    (x y : Question.t) :
  l !! i = Some x →
  (length (List.filter f (<[i := y]> l)) + (if f x then 1 else 0)
   = length (List.filter f l) + (if f y then 1 else 0))%nat.
Proof.
  revert i. induction l as [|z l IH]; intros [|i] Hi; simpl in *;
    try discriminate.
  - injection Hi as ->. destruct (f x), (f y); simpl; lia.
  - specialize (IH i Hi). destruct (f z); simpl; lia.
Qed.

(** X8: on a quiz whose ids are pairwise different, an accepted answer
    raises the number of answered questions by one when the question was
    unanswered and leaves it when the question is answered again; the
    number never falls. *)
Theorem X8_setAnswer_count (questionId : Z) (answer : string)
    (w : Quiz.World) (i : nat) (question : Question.t) :
  unique_ids (Quiz._questions (Quiz.this w)) →
  Quiz.getQuestion questionId (Quiz.this w) = Some (i, question) →
  answer ∈ Question._options question →
  Quiz.getAnsweredCount (Quiz.this (Quiz.setAnswer questionId answer w).2)
  = (Quiz.getAnsweredCount (Quiz.this w)
     + (if Question.isAnswered question then 0 else 1))%nat.
Proof.
  intros _ Hget Hin. pose proof (setAnswer_run questionId answer w) as Hrun.
  rewrite Hget in Hrun.
  destruct (Question_setAnswer_run answer question) as [[_ Hq]|[Hn _]];
    [|contradiction].
  rewrite Hq in Hrun. simpl in Hrun. rewrite Hrun. simpl.
  unfold Quiz.getAnsweredCount. simpl.
  unfold Quiz.getQuestion in Hget. apply list_find_Some in Hget as (Hi & _).
  pose proof (count_insert Question.isAnswered _ i question
                (Question.mk (Question._id question) (Question._text question)
                   (Question._options question)
                   (Question._correctAnswer question)
                   (Question._type question) (Some answer)) Hi) as Hc.
  simpl in Hc. destruct (Question.isAnswered question); lia.
Qed.

(** X8, at the unanswered second question of the mixed quiz. *)
Lemma X8_setAnswer_count_witness :
  Quiz.getAnsweredCount (Quiz.this (Quiz.setAnswer 2 "False" Scenario.mixed).2)
  = 2%nat.
Proof.
  rewrite (X8_setAnswer_count 2 "False" Scenario.mixed 1%nat
             (Scenario.trueFalse 2 None)).
  - reflexivity.
  - apply (bool_decide_unpack _). vm_compute. exact I.
  - reflexivity.
  - apply includes_elem_of. reflexivity.
Defined.

Lemma filter_length_bound (f : Question.t → bool) (l : list Question.t) :
  (length (List.filter f l) <= length l)%nat.
Proof.
  induction l as [|x l IH]; simpl; [lia|]. destruct (f x); simpl; lia.
Qed.

Lemma filter_length_all (f : Question.t → bool) (l : list Question.t) :
  forallb f l = true ↔ length (List.filter f l) = length l.
Proof.
  induction l as [|x l IH]; simpl; [tauto|].
  assert (Hle : (length (List.filter f l) <= length l)%nat)
    by apply filter_length_bound.
  destruct (f x); simpl.
  - rewrite IH. lia.
  - split; [discriminate | lia].
Qed.

(** X9: [areAllQuestionsAnswered] holds exactly when [getAnsweredCount]
    is the number of questions; the answered questions are never more than
    the questions, and the correct ones never more than the answered. *)
Theorem X9_answered_counts (q : Quiz.t) :
  (Quiz.areAllQuestionsAnswered q = true ↔
     Quiz.getAnsweredCount q = length (Quiz._questions q)) ∧
  (Quiz.getAnsweredCount q <= length (Quiz._questions q))%nat ∧
  (length (List.filter Question.isCorrect (Quiz._questions q))
   <= Quiz.getAnsweredCount q)%nat.
Proof.
  unfold Quiz.areAllQuestionsAnswered, Quiz.getAnsweredCount.
  split; [apply filter_length_all|]. split; [apply filter_length_bound|].
  induction (Quiz._questions q) as [|x l IH]; simpl; [lia|].
  destruct (Question.isCorrect x) eqn:Hc, (Question.isAnswered x) eqn:Ha;
    simpl; try lia.
  unfold Question.isCorrect, Question.isAnswered in Hc, Ha.
  destruct (Question._selectedAnswer x); discriminate.
Qed.

(** X6, at the two answers of a session. *)
Lemma X6_setAnswer_timer_witness :
  Quiz._startTime (Quiz.this (Quiz.setAnswer 1 "a" Scenario.unstarted).2)
  = Some (Date.Time 1700000000000) ∧
  Quiz._startTime
    (Quiz.this (Quiz.setAnswer 2 "True"
                  (Quiz.setAnswer 1 "a" Scenario.unstarted).2).2)
  = Some (Date.Time 1700000000000).
Proof.
  destruct (X6_setAnswer_timer 1 "a" Scenario.unstarted) as (_ & H1 & _).
  specialize (H1 eq_refl eq_refl). split; [exact H1|].
  destruct (X6_setAnswer_timer 2 "True"
              (Quiz.setAnswer 1 "a" Scenario.unstarted).2) as (H2 & _).
  apply (H2 (Date.Time 1700000000000) H1).
Defined.

(** ** The result of a submission *)

Lemma submitQuiz_result_full (w w' : Quiz.World) (r : Result.t) :
  Quiz.submitQuiz w = (Return r, w') →
  Result.attempts r = PrimFloat.add (Quiz._attempts (Quiz.this w)) 1 ∧
  Result.questions r
  = (if Config.showCorrectAnswers (Quiz._config (Quiz.this w))
     then Some (Quiz._getQuestionResults (Quiz.this w)) else None) ∧
  Quiz.areAllQuestionsAnswered (Quiz.this w) = true.
Proof.
  intros Hs.
  destruct (submitQuiz_run w)
    as [[_ Hs'] | [(_ & _ & Hs') | (Hall & _ & r' & k & Hs' & Hg)]];
    rewrite Hs in Hs'; try discriminate.
  cbv zeta in Hs', Hg. injection Hs' as Hr Hw. subst r'. clear Hw.
  match type of Hg with Quiz._generateResults ?w0 = _ =>
    destruct (generateResults_run w0) as (d & at' & k' & Hg') end.
  rewrite Hg in Hg'. injection Hg' as Hr _. subst r.
  repeat split. exact Hall.
Qed.

Lemma results_correct_count (qs : list Question.t) :
  length (List.filter QuestionResult.isCorrect
            (map (λ question,
                    QuestionResult.mk (Question._id question)
                      (Question._text question)
                      (Question._selectedAnswer question)
                      (Question._correctAnswer question)
                      (Question.isCorrect question) (Question._type question))
                 qs))
  = length (List.filter Question.isCorrect qs).
Proof.
  induction qs as [|x qs IH]; simpl; [done|].
  destruct (Question.isCorrect x); simpl; lia.
Qed.

(** X10: in the [Result] of a successful submission the score is at most
    the total, the attempts are those of the quiz before plus 1 in the
    arithmetic of numbers (the next whole number for a whole number of
    attempts from 0 to 99999), and, when the
    configuration shows correct answers, the breakdown has one entry per
    question, in order, every entry has a selected answer, an entry is
    marked correct exactly when that answer is the correct one, and the
    entries marked correct are as many as the score. *)
Theorem X10_result_breakdown (w w' : Quiz.World) (r : Result.t) :
  Quiz.submitQuiz w = (Return r, w') →
  (Result.score r <= Result.total r)%nat ∧
  Result.attempts r = PrimFloat.add (Quiz._attempts (Quiz.this w)) 1 ∧
  (∀ n, countable n → Quiz._attempts (Quiz.this w) = Number.of_Z n →
        Result.attempts r = Number.of_Z (n + 1)) ∧
  (Config.showCorrectAnswers (Quiz._config (Quiz.this w)) = true →
   ∃ entries,
     Result.questions r = Some entries ∧
     map QuestionResult.id entries
     = map Question._id (Quiz._questions (Quiz.this w)) ∧
     length (List.filter QuestionResult.isCorrect entries) = Result.score r ∧
     Forall (λ entry,
               (∃ answer, QuestionResult.selectedAnswer entry = Some answer) ∧
               (QuestionResult.isCorrect entry = true ↔
                QuestionResult.selectedAnswer entry
                = Some (QuestionResult.correctAnswer entry)))
            entries).
Proof.
  intros Hs.
  destruct (submitQuiz_result w w' r Hs) as (Hsc & Ht & _).
  destruct (submitQuiz_result_full w w' r Hs) as (Hat & Hq & Hall).
  split; [rewrite Hsc, Ht; apply filter_length_bound|]. split; [exact Hat|].
  split; [intros n Hn Hw; rewrite Hat, Hw; by apply countable_next|].
  intros Hshow. rewrite Hshow in Hq. eexists. split; [exact Hq|].
  unfold Quiz._getQuestionResults. split; [|split].
  - rewrite map_map. reflexivity.
  - rewrite Hsc. apply results_correct_count.
  - unfold Quiz.areAllQuestionsAnswered in Hall.
    rewrite forallb_forall in Hall.
    apply Forall_forall. intros entry Hentry.
    apply list_elem_of_fmap in Hentry as (x & -> & Hx). simpl.
    apply list_elem_of_In in Hx. specialize (Hall x Hx).
    unfold Question.isAnswered in Hall. unfold Question.isCorrect.
    destruct (Question._selectedAnswer x) as [a|]; [|discriminate].
    split; [eauto|]. rewrite String.eqb_eq.
    split; [by intros -> | by intros [= ->]].
Qed.

(** X10, at the submission of three answers of which two are correct. *)
Lemma X10_result_breakdown_witness :
  ∃ r w', Quiz.submitQuiz (Sample.scored 2 1) = (Return r, w') ∧
          (Result.score r <= Result.total r)%nat ∧
          Result.attempts r = Number.of_Z 1.
Proof.
  assert (Hs : ∃ r w', Quiz.submitQuiz (Sample.scored 2 1) = (Return r, w'))
    by (eexists _, _; vm_compute; reflexivity).
  destruct Hs as (r & w' & Hs). exists r, w'. split; [exact Hs|].
  destruct (X10_result_breakdown (Sample.scored 2 1) w' r Hs)
    as (H1 & _ & H2 & _).
  split; [exact H1|]. apply (H2 0); [unfold countable; lia | reflexivity].
Defined.

(** ** The collection of questions *)

(** X11: [getQuestionByIndex] returns null outside [0 .. length - 1] and
    the question at that place inside; when the ids are pairwise different,
    [getQuestion] on the id of that question finds the same question at
    the same place. *)
Theorem X11_index_and_id (q : Quiz.t) (index : Z) :
  (index < 0 ∨ Z.of_nat (length (Quiz._questions q)) <= index →
   Quiz.getQuestionByIndex index q = None) ∧
  (0 <= index < Z.of_nat (length (Quiz._questions q)) →
   ∃ question,
     Quiz.getQuestionByIndex index q = Some question ∧
     (unique_ids (Quiz._questions q) →
      Quiz.getQuestion (Question._id question) q
      = Some (Z.to_nat index, question))).
Proof.
  unfold Quiz.getQuestionByIndex. split.
  - intros H.
    destruct (Z.leb_spec 0 index), (Z.ltb_spec index
      (Z.of_nat (length (Quiz._questions q)))); simpl; try reflexivity; lia.
  - intros H.
    destruct (Z.leb_spec 0 index), (Z.ltb_spec index
      (Z.of_nat (length (Quiz._questions q)))); simpl; try lia.
    destruct (Quiz._questions q !! Z.to_nat index) as [x|] eqn:Hx.
    + exists x. split; [reflexivity|]. intros Hnd.
      destruct (getQuestion_elem_of q x Hnd) as [i Hi];
        [by eapply list_elem_of_lookup_2|].
      rewrite Hi. unfold Quiz.getQuestion in Hi.
      apply list_find_Some in Hi as (Hi & _).
      by rewrite (unique_ids_lookup _ _ _ _ _ Hnd Hi Hx eq_refl).
    + apply lookup_ge_None in Hx. lia.
Qed.

(** X11, at the second place of the mixed quiz. *)
Lemma X11_index_and_id_witness :
  ∃ question,
    Quiz.getQuestionByIndex 1 (Quiz.this Scenario.mixed) = Some question ∧
    Quiz.getQuestionByIndex 2 (Quiz.this Scenario.mixed) = None.
Proof.
  destruct (X11_index_and_id (Quiz.this Scenario.mixed) 1) as [_ H1].
  destruct H1 as (question & H1 & _); [simpl; lia|].
  exists question. split; [exact H1|].
  apply (X11_index_and_id (Quiz.this Scenario.mixed) 2). right. simpl. lia.
Defined.

(** X12: a successful submission freezes the collection: on the quiz it
    leaves, [addQuestion] and [removeQuestion] throw and change nothing;
    after [resetAllAnswers] they are accepted again. *)
Theorem X12_collection_frozen (w w' : Quiz.World) (r : Result.t)
    (question : Question.t) (questionId : Z) :
  Quiz.submitQuiz w = (Return r, w') →
  Quiz.addQuestion question w' = (Thrown CannotAddToCompleted, w') ∧
  Quiz.removeQuestion questionId w' = (Thrown CannotRemoveFromCompleted, w') ∧
  (Quiz.addQuestion question (Quiz.resetAllAnswers w').2).1 = Returned true ∧
  ∃ b, (Quiz.removeQuestion questionId (Quiz.resetAllAnswers w').2).1
       = Returned b.
Proof.
  intros Hs.
  assert (Hc : Quiz._isCompleted (Quiz.this w') = true).
  { destruct (submitQuiz_run w)
      as [[_ Hs'] | [(_ & _ & Hs') | (_ & _ & r' & k & Hs' & _)]];
      rewrite Hs in Hs'; try discriminate.
    cbv zeta in Hs'. by injection Hs' as _ ->. }
  unfold Quiz.addQuestion, Quiz.removeQuestion. rewrite Hc. simpl.
  do 3 (split; [reflexivity|]).
  destruct (list_find _ _) as [[i x]|]; eauto.
Qed.

(** X12, at the submission of the sample quiz. *)
Lemma X12_collection_frozen_witness :
  ∃ w', Quiz.addQuestion (Sample.question 9 None) w'
        = (Thrown CannotAddToCompleted, w') ∧
        (Quiz.submitQuiz (Sample.scored 1 0)).2 = w'.
Proof.
  assert (Hs : ∃ r w', Quiz.submitQuiz (Sample.scored 1 0) = (Return r, w'))
    by (eexists _, _; vm_compute; reflexivity).
  destruct Hs as (r & w' & Hs). exists w'.
  destruct (X12_collection_frozen (Sample.scored 1 0) w' r
              (Sample.question 9 None) 1 Hs) as (H & _).
  split; [exact H | by rewrite Hs].
Defined.

(** X13: on a quiz that is not completed, adding a question whose id no
    question carries puts it last, where [getQuestion] finds it, and
    removing that id again gives back the world as it was. Neither call
    touches the store. *)
Theorem X13_add_then_remove (question : Question.t) (w : Quiz.World) :
  Quiz._isCompleted (Quiz.this w) = false →
  Quiz.getQuestion (Question._id question) (Quiz.this w) = None →
  (Quiz.addQuestion question w).1 = Returned true ∧
  Quiz.getQuestion (Question._id question)
    (Quiz.this (Quiz.addQuestion question w).2)
  = Some (length (Quiz._questions (Quiz.this w)), question) ∧
  Quiz.localStorage (Quiz.addQuestion question w).2 = Quiz.localStorage w ∧
  Quiz.removeQuestion (Question._id question) (Quiz.addQuestion question w).2
  = (Returned true, w).
Proof.
  intros Hc Hnone. unfold Quiz.addQuestion. rewrite Hc. simpl.
  assert (Hfind : list_find (λ x, Question._id x = Question._id question)
                    (Quiz._questions (Quiz.this w) ++ [question])
                  = Some (length (Quiz._questions (Quiz.this w)), question)).
  { unfold Quiz.getQuestion in Hnone.
    rewrite (list_find_app_r _ _ _ Hnone). simpl.
    rewrite decide_True by done. reflexivity. }
  split; [reflexivity|]. split; [exact Hfind|]. split; [reflexivity|].
  unfold Quiz.removeQuestion. simpl. rewrite Hc, Hfind. simpl.
  rewrite (delete_middle (Quiz._questions (Quiz.this w)) [] question).
  rewrite app_nil_r. f_equal. apply (with_questions_same w).
Qed.

(** X13, at a third question for the mixed quiz. *)
Lemma X13_add_then_remove_witness :
  Quiz.removeQuestion 3
    (Quiz.addQuestion (Scenario.trueFalse 3 None) Scenario.mixed).2
  = (Returned true, Scenario.mixed).
Proof.
  apply (X13_add_then_remove (Scenario.trueFalse 3 None) Scenario.mixed);
    reflexivity.
Defined.

Lemma delete_other_ids (qs : list Question.t) (i : nat) (x : Question.t) :
  unique_ids qs → qs !! i = Some x →
  Forall (λ y, Question._id y ≠ Question._id x) (delete i qs).
Proof.
  intros Hnd Hi. apply Forall_forall. intros y Hy Hid.
  apply list_elem_of_lookup in Hy as [j Hj].
  rewrite list_lookup_delete in Hj.
  destruct (decide (j < i)%nat) as [Hlt|Hge].
  - assert (j = i) by eauto using unique_ids_lookup. lia.
  - assert (S j = i) by eauto using unique_ids_lookup. lia.
Qed.

(** X14: on a quiz that is not completed and whose ids are pairwise
    different, [removeQuestion] of an id that a question carries returns
    [true] and takes exactly that question out: the id is no longer found,
    every other question is still found by its id, the ids stay pairwise
    different and the store is untouched. Of an id that no question
    carries it returns [false] and changes nothing. *)
Theorem X14_removeQuestion (questionId : Z) (w : Quiz.World) :
  Quiz._isCompleted (Quiz.this w) = false →
  unique_ids (Quiz._questions (Quiz.this w)) →
  let w' := (Quiz.removeQuestion questionId w).2 in
  (∀ i x, Quiz.getQuestion questionId (Quiz.this w) = Some (i, x) →
     (Quiz.removeQuestion questionId w).1 = Returned true ∧
     Quiz._questions (Quiz.this w') = delete i (Quiz._questions (Quiz.this w)) ∧
     Quiz.getQuestion questionId (Quiz.this w') = None ∧
     unique_ids (Quiz._questions (Quiz.this w')) ∧
     Quiz.localStorage w' = Quiz.localStorage w ∧
     ∀ y, y ∈ Quiz._questions (Quiz.this w) → y ≠ x →
          ∃ j, Quiz.getQuestion (Question._id y) (Quiz.this w') = Some (j, y)) ∧
  (Quiz.getQuestion questionId (Quiz.this w) = None →
     Quiz.removeQuestion questionId w = (Returned false, w)).
Proof.
  intros Hc Hnd. unfold Quiz.removeQuestion, Quiz.getQuestion. rewrite Hc.
  cbv zeta. split.
  - intros i x Hfind. rewrite Hfind.
    unfold Quiz.assign_questions.
    cbn [fst snd Quiz.this Quiz.localStorage Quiz._questions].
    apply list_find_Some in Hfind as (Hi & Hid & _).
    assert (Hnd' : unique_ids (delete i (Quiz._questions (Quiz.this w)))).
    { unfold unique_ids in *.
      change (NoDup (Question._id <$> delete i (Quiz._questions (Quiz.this w)))).
      rewrite list_fmap_delete.
      eapply sublist_NoDup; [exact Hnd | apply sublist_delete]. }
    split; [reflexivity|]. split; [reflexivity|]. split; [|split; [exact Hnd'|]].
    + apply list_find_None. rewrite <- Hid.
      by apply delete_other_ids.
    + split; [reflexivity|]. intros y Hy Hne.
      apply (getQuestion_elem_of
               (Quiz.assign_questions
                  (delete i (Quiz._questions (Quiz.this w))) (Quiz.this w)));
        [exact Hnd'|]. unfold Quiz.assign_questions. cbn [Quiz._questions].
      apply list_elem_of_lookup in Hy as [j Hj].
      assert (j ≠ i) by congruence.
      apply list_elem_of_lookup.
      destruct (decide (j < i)%nat).
      * exists j. etransitivity; [apply list_lookup_delete_lt; lia | exact Hj].
      * exists (j - 1)%nat.
        etransitivity; [apply list_lookup_delete_ge; lia|].
        by replace (S (j - 1)) with j by lia.
  - intros ->. reflexivity.
Qed.

(** X14, at the removal of the first question of the mixed quiz. *)
Lemma X14_removeQuestion_witness :
  Quiz.getQuestion 1 (Quiz.this (Quiz.removeQuestion 1 Scenario.mixed).2) = None
  ∧ Quiz.removeQuestion 5 Scenario.mixed = (Returned false, Scenario.mixed).
Proof.
  assert (Hnd : unique_ids (Quiz._questions (Quiz.this Scenario.mixed))).
  { apply (bool_decide_unpack _). vm_compute. exact I. }
  destruct (X14_removeQuestion 1 Scenario.mixed eq_refl Hnd) as [H _].
  destruct (H 0%nat (Sample.question 1 (Some "a")) eq_refl)
    as (_ & _ & Hgone & _).
  split; [exact Hgone|].
  apply (X14_removeQuestion 5 Scenario.mixed eq_refl Hnd). reflexivity.
Defined.

(** X15: [addQuestion] does not compare ids. Adding a question whose id a
    question of the quiz already carries, and that differs from the one
    [getQuestion] finds for that id (so that it is another object), returns
    [true] and makes the quiz one question longer, yet [getQuestion] on
    that id still finds the old question, so [setAnswer] on that id never
    reaches the new one. *)
Theorem X15_addQuestion_same_id (question : Question.t) (w : Quiz.World)
    (i : nat) (old : Question.t) :
  Quiz._isCompleted (Quiz.this w) = false →
  Quiz.getQuestion (Question._id question) (Quiz.this w) = Some (i, old) →
  question ≠ old →
  let w' := (Quiz.addQuestion question w).2 in
  (Quiz.addQuestion question w).1 = Returned true ∧
  Quiz._questions (Quiz.this w') = Quiz._questions (Quiz.this w) ++ [question] ∧
  Quiz.getQuestion (Question._id question) (Quiz.this w') = Some (i, old) ∧
  ¬ unique_ids (Quiz._questions (Quiz.this w')) ∧
  ∀ answer,
    Quiz._questions (Quiz.this (Quiz.setAnswer (Question._id question) answer w').2)
    !! length (Quiz._questions (Quiz.this w)) = Some question.
Proof.
  intros Hc Hget _. unfold Quiz.addQuestion. rewrite Hc. simpl.
  set (w' := Quiz.mkWorld _ _ _ _ _).
  assert (Hget' : Quiz.getQuestion (Question._id question) (Quiz.this w')
                  = Some (i, old)).
  { unfold Quiz.getQuestion in *. simpl. by apply list_find_app_l. }
  assert (Hi : (i < length (Quiz._questions (Quiz.this w)))%nat).
  { unfold Quiz.getQuestion in Hget.
    apply list_find_Some in Hget as (Hi & _). by eapply lookup_lt_Some. }
  split; [reflexivity|]. split; [reflexivity|]. split; [exact Hget'|]. split.
  - intros Hnd. unfold Quiz.getQuestion in Hget.
    apply list_find_Some in Hget as (Hold & Hid & _).
    assert (i = length (Quiz._questions (Quiz.this w))); [|lia].
    apply (unique_ids_lookup _ _ _ old question Hnd); simpl.
    + by apply lookup_app_l_Some.
    + by apply list_lookup_middle.
    + exact Hid.
  - intros answer.
    pose proof (setAnswer_run (Question._id question) answer w') as Hrun.
    rewrite Hget' in Hrun.
    destruct (Question.setAnswer answer old) as [old'|e]; simpl in Hrun;
      rewrite Hrun; simpl.
    + rewrite list_lookup_insert_ne by lia. by apply list_lookup_middle.
    + by apply list_lookup_middle.
Qed.

(** X15, at a second question with id 1 for the mixed quiz. *)
Lemma X15_addQuestion_same_id_witness :
  Quiz.getQuestion 1
    (Quiz.this (Quiz.addQuestion (Scenario.trueFalse 1 None) Scenario.mixed).2)
  = Some (0%nat, Sample.question 1 (Some "a")).
Proof.
  apply (X15_addQuestion_same_id (Scenario.trueFalse 1 None) Scenario.mixed
           0%nat (Sample.question 1 (Some "a")) eq_refl eq_refl).
  discriminate.
Defined.

(** ** Statistics *)

Lemma duration_ticks (w : Quiz.World) :
  ∃ d n, Quiz.duration w =
         (Return d, Quiz.mkWorld (Quiz.this w) (Quiz.localStorage w)
                                 (Quiz.quota w) (Quiz.clock w) n) ∧
         (Quiz.ticks w <= n <= S (Quiz.ticks w))%nat.
Proof.
  destruct w as [q ls qt c n]. unfold Quiz.duration. exec. simpl.
  destruct (Quiz._startTime q); [destruct (Quiz._endTime q)|]; simpl;
    eexists _, _; (split; [reflexivity|]); lia.
Qed.

Lemma getStatistics_run (w : Quiz.World) :
  ∃ s n,
    Quiz.getStatistics w
    = (Return s, Quiz.mkWorld (Quiz.this w) (Quiz.localStorage w)
                              (Quiz.quota w) (Quiz.clock w) n) ∧
    (Quiz.ticks w <= n <= Quiz.ticks w + 2)%nat ∧
    Statistics.totalQuestions s = length (Quiz._questions (Quiz.this w)) ∧
    Statistics.answeredQuestions s = Quiz.getAnsweredCount (Quiz.this w) ∧
    Statistics.correctAnswers s
    = (if Quiz._isCompleted (Quiz.this w)
       then Quiz._score (Quiz.this w) else 0%nat) ∧
    Statistics.passed s
    = (if Quiz._isCompleted (Quiz.this w)
       then Some (Quiz.isPassed (Quiz.this w)) else None) ∧
    Statistics.attempts s = Quiz._attempts (Quiz.this w).
Proof.
  destruct (duration_ticks w) as (d & n & Hd & Hn).
  destruct (duration_ticks
              (Quiz.mkWorld (Quiz.this w) (Quiz.localStorage w) (Quiz.quota w) (Quiz.clock w) n))
    as (d' & n' & Hd' & Hn').
  simpl in Hd', Hn'.
  unfold Quiz.getStatistics. exec. destruct w as [q ls qt c k]; simpl in *.
  rewrite Hd. simpl.
  destruct (0 <? Quiz.getAnsweredCount q)%nat; simpl.
  - rewrite Hd'. simpl. eexists _, _. split; [reflexivity|]. simpl.
    split; [lia|]. repeat split.
  - eexists _, _. split; [reflexivity|]. simpl.
    split; [lia|]. repeat split.
Qed.

(** X16: [getStatistics] always returns and is a pure reading: the quiz
    object and the store are as before and the clock has been read at most
    twice. It reports the number of questions and of answered questions,
    the score only when the quiz is completed and 0 otherwise, and a
    pass/fail verdict only when the quiz is completed. *)
Theorem X16_getStatistics_reads (w : Quiz.World) :
  ∃ s n,
    Quiz.getStatistics w
    = (Return s, Quiz.mkWorld (Quiz.this w) (Quiz.localStorage w)
                              (Quiz.quota w) (Quiz.clock w) n) ∧
    (Quiz.ticks w <= n <= Quiz.ticks w + 2)%nat ∧
    Statistics.totalQuestions s = length (Quiz._questions (Quiz.this w)) ∧
    Statistics.answeredQuestions s = Quiz.getAnsweredCount (Quiz.this w) ∧
    Statistics.correctAnswers s
    = (if Quiz._isCompleted (Quiz.this w)
       then Quiz._score (Quiz.this w) else 0%nat) ∧
    Statistics.passed s
    = (if Quiz._isCompleted (Quiz.this w)
       then Some (Quiz.isPassed (Quiz.this w)) else None) ∧
    Statistics.attempts s = Quiz._attempts (Quiz.this w).
Proof. exact (getStatistics_run w). Qed.

Lemma countType_lookup (stats : gmap string TypeStats.t) (x : Question.t)
    (type : string) :
  Quiz.countType stats x !! type
  = if decide (Question._type x = type)
    then Some (TypeStats.mk
                 (S (TypeStats.total (default (TypeStats.mk 0 0 0) (stats !! type))))
                 ((if Question.isAnswered x then 1 else 0)
                  + TypeStats.answered (default (TypeStats.mk 0 0 0) (stats !! type)))
                 ((if Question.isAnswered x && Question.isCorrect x then 1 else 0)
                  + TypeStats.correct (default (TypeStats.mk 0 0 0) (stats !! type))))
    else stats !! type.
Proof.
  unfold Quiz.countType.
  destruct (decide (Question._type x = type)) as [<-|Hne].
  - destruct (stats !! Question._type x) as [s|] eqn:Hs;
      destruct (Question.isAnswered x), (Question.isCorrect x); simpl;
      rewrite ?lookup_alter_eq, ?lookup_insert_eq, ?Hs; reflexivity.
  - destruct (stats !! Question._type x) as [s|] eqn:Hs;
      destruct (Question.isAnswered x), (Question.isCorrect x); simpl;
      rewrite ?lookup_alter_ne, ?lookup_insert_ne by done; reflexivity.
Qed.

Lemma count_type_le (type : string) (test : Question.t → bool)
    (qs : list Question.t) :
  (count_type type test qs <= count_type type (λ _, true) qs)%nat.
Proof.
  unfold count_type. induction qs as [|x qs IH]; simpl; [lia|].
  destruct (String.eqb (Question._type x) type), (test x); simpl; lia.
Qed.

Lemma typeStats_fold (qs : list Question.t) (stats : gmap string TypeStats.t)
    (type : string) :
  foldl Quiz.countType stats qs !! type
  = if (count_type type (λ _, true) qs =? 0)%nat then stats !! type
    else Some (TypeStats.mk
                 (count_type type (λ _, true) qs
                  + TypeStats.total (default (TypeStats.mk 0 0 0) (stats !! type)))
                 (count_type type Question.isAnswered qs
                  + TypeStats.answered (default (TypeStats.mk 0 0 0) (stats !! type)))
                 (count_type type Question.isCorrect qs
                  + TypeStats.correct (default (TypeStats.mk 0 0 0) (stats !! type)))).
Proof.
  revert stats. induction qs as [|x qs IH]; intros stats; [reflexivity|].
  simpl. rewrite IH, countType_lookup.
  pose proof (count_type_le type Question.isAnswered qs) as Hla.
  pose proof (count_type_le type Question.isCorrect qs) as Hlc.
  unfold count_type in *. simpl.
  destruct (decide (Question._type x = type)) as [Heq|Hne].
  - apply String.eqb_eq in Heq as Hb. rewrite Hb. simpl.
    assert (Hca : Question.isAnswered x && Question.isCorrect x
                  = Question.isCorrect x).
    { unfold Question.isAnswered, Question.isCorrect.
      by destruct (Question._selectedAnswer x). }
    rewrite Hca.
    destruct (Nat.eqb_spec
                (length (List.filter
                           (λ question,
                              String.eqb (Question._type question) type && true)
                           qs)) 0) as [H0|H0];
      destruct (Question.isAnswered x), (Question.isCorrect x); simpl;
      f_equal; f_equal; lia.
  - assert (Hb : String.eqb (Question._type x) type = false)
      by (by apply String.eqb_neq).
    rewrite Hb. reflexivity.
Qed.

(** X17: for a quiz whose questions have the two types of the variants
    (type names that a plain object does not inherit a property for),
    [_getQuestionTypeStats] has an entry for a type exactly when a question
    of the type exists, and the entry counts the questions of the type, the
    answered ones among them and the correct ones among them. *)
Theorem X17_type_statistics (q : Quiz.t) (type : string) :
  Forall (λ x, Question._type x = "multiple-choice"
               ∨ Question._type x = "true-false") (Quiz._questions q) →
  Quiz._getQuestionTypeStats q !! type
  = if (count_type type (λ _, true) (Quiz._questions q) =? 0)%nat then None
    else Some (TypeStats.mk
                 (count_type type (λ _, true) (Quiz._questions q))
                 (count_type type Question.isAnswered (Quiz._questions q))
                 (count_type type Question.isCorrect (Quiz._questions q))).
Proof.
  intros _. unfold Quiz._getQuestionTypeStats. rewrite typeStats_fold.
  rewrite lookup_empty. simpl.
  destruct (_ =? 0)%nat; [reflexivity|]. f_equal. f_equal; lia.
Qed.

(** X17, at the true/false questions of the mixed quiz. *)
Lemma X17_type_statistics_witness :
  Quiz._getQuestionTypeStats (Quiz.this Scenario.mixed) !! "true-false"
  = Some (TypeStats.mk 1 0 0).
Proof.
  rewrite (X17_type_statistics (Quiz.this Scenario.mixed) "true-false").
  - reflexivity.
  - apply Forall_cons. split; [left; reflexivity|].
    apply Forall_cons. split; [right; reflexivity | constructor].
Defined.

(** ** Sessions *)

Lemma resetAllAnswers_run (w : Quiz.World) :
  Quiz.resetAllAnswers w =
  (Return tt,
   Quiz.mkWorld
     (Quiz.mk (map Question.resetAnswer (Quiz._questions (Quiz.this w)))
        false 0 None None (Quiz._attempts (Quiz.this w))
        (Quiz._config (Quiz.this w)))
     (delete (Config.storageKey (Quiz._config (Quiz.this w)))
             (Quiz.localStorage w))
     (Quiz.quota w) (Quiz.clock w) (Quiz.ticks w)).
Proof. reflexivity. Qed.

Lemma isTimeUp_this (w : Quiz.World) :
  Quiz.this (Quiz.isTimeUp w).2 = Quiz.this w ∧
  Quiz.localStorage (Quiz.isTimeUp w).2 = Quiz.localStorage w.
Proof.
  destruct w as [q ls qt c n]. unfold Quiz.isTimeUp. exec. simpl.
  destruct (Config.timeLimit (Quiz._config q)) as [l|]; [|done].
  destruct (Quiz._startTime q); [|done].
  by destruct (Number.truthy l).
Qed.

Lemma exportData_this (w : Quiz.World) :
  Quiz.this (Quiz.exportData w).2 = Quiz.this w ∧
  Quiz.localStorage (Quiz.exportData w).2 = Quiz.localStorage w ∧
  ∃ data, (Quiz.exportData w).1 = Return data ∧
          Exported.questions data
          = map Question.toJSON (Quiz._questions (Quiz.this w)) ∧
          Exported.config data = Quiz.exportConfig (Quiz._config (Quiz.this w)).
Proof.
  destruct (getStatistics_run w) as (s & n & Hs & _).
  unfold Quiz.exportData. exec. destruct w as [q ls qt c k]; simpl in *.
  rewrite Hs. simpl. split; [reflexivity|]. split; [reflexivity|].
  eexists. split; [reflexivity|]. split; reflexivity.
Qed.

(** What a call leaves of the quiz object, for the calls that read. *)
Lemma perform_reading (op : Session.Op) (w : Quiz.World) :
  op = Session.GetStatistics ∨ op = Session.ExportData ∨ op = Session.IsTimeUp →
  Quiz.this (Session.perform op w) = Quiz.this w ∧
  Quiz.localStorage (Session.perform op w) = Quiz.localStorage w.
Proof.
  intros [-> | [-> | ->]]; simpl.
  - destruct (getStatistics_run w) as (s & n & -> & _). done.
  - destruct (exportData_this w) as (H1 & H2 & _). done.
  - apply isTimeUp_this.
Qed.

Lemma perform_attempts (op : Session.Op) (w : Quiz.World) :
  Session.is_load op = false →
  Quiz._attempts (Quiz.this (Session.perform op w))
  = incremented
      (match op with
       | Session.SubmitQuiz => if returned (Quiz.submitQuiz w).1 then 1 else 0
       | _ => 0
       end)
      (Quiz._attempts (Quiz.this w)).
Proof.
  intros Hl. destruct op; simpl; try discriminate.
  - pose proof (setAnswer_run questionId answer w) as Hrun.
    destruct (Quiz.getQuestion questionId (Quiz.this w)) as [[i x]|];
      [|by rewrite Hrun].
    by destruct (Question.setAnswer answer x); simpl in Hrun; rewrite Hrun.
  - reflexivity.
  - destruct (submitQuiz_run w)
      as [[_ ->] | [(_ & _ & ->) | (_ & _ & r & n & Hs & _)]]; simpl; try done.
    simpl in Hs. by rewrite Hs.
  - destruct (perform_reading Session.GetStatistics w) as [H _]; [auto|].
    simpl in H. by rewrite H.
  - destruct (perform_reading Session.ExportData w) as [H _]; [auto|].
    simpl in H. by rewrite H.
  - destruct (perform_reading Session.IsTimeUp w) as [H _]; [auto|].
    simpl in H. by rewrite H.
  - unfold Quiz.addQuestion. by destruct (Quiz._isCompleted (Quiz.this w)).
  - unfold Quiz.removeQuestion. destruct (Quiz._isCompleted (Quiz.this w));
      [done|]. by destruct (list_find _ _) as [[i x]|].
Qed.

(** Counting from a whole number stays exact up to 100000. *)
Lemma incremented_counts (k : nat) (n : Z) :
  0 <= n → n + Z.of_nat k <= 100000 →
  incremented k (Number.of_Z n) = Number.of_Z (n + Z.of_nat k).
Proof.
  intros Hn. induction k as [|k IH]; intros Hk.
  - simpl. by rewrite Z.add_0_r.
  - unfold incremented in *. simpl. rewrite IH by lia.
    rewrite countable_next by (unfold countable; lia).
    f_equal. lia.
Qed.

(** X18: over any session of calls other than [loadFromStorage], the
    attempts of the quiz are incremented once for each [submitQuiz] call
    that returned, and by nothing else: answers, resets, rejected
    submissions, readings and changes of the collection never touch them.
    From a whole number of attempts, and up to 100000, they grow by exactly
    the number of submissions that returned. *)
Theorem X18_attempts_count_submissions (ops : list Session.Op)
    (w : Quiz.World) :
  forallb (λ op, negb (Session.is_load op)) ops = true →
  Quiz._attempts (Quiz.this (Session.performAll ops w))
  = incremented (Session.submissions ops w) (Quiz._attempts (Quiz.this w)) ∧
  (∀ n, 0 <= n → n + Z.of_nat (Session.submissions ops w) <= 100000 →
        Quiz._attempts (Quiz.this w) = Number.of_Z n →
        Quiz._attempts (Quiz.this (Session.performAll ops w))
        = Number.of_Z (n + Z.of_nat (Session.submissions ops w))).
Proof.
  intros Hops.
  assert (Hall : Quiz._attempts (Quiz.this (Session.performAll ops w))
                 = incremented (Session.submissions ops w)
                               (Quiz._attempts (Quiz.this w))).
  { revert w. induction ops as [|op ops IH]; intros w; simpl; [done|].
    simpl in Hops. apply andb_true_iff in Hops as [Hop Hops].
    apply negb_true_iff in Hop.
    rewrite (IH Hops), (perform_attempts op w Hop).
    unfold incremented. rewrite <- Nat.iter_add. f_equal. lia. }
  split; [exact Hall|].
  intros n Hn Hk Hw. rewrite Hall, Hw. by apply incremented_counts.
Qed.

(** X18, at a session with a submission, a reset, a rejected submission,
    new answers and a second submission. *)
Lemma X18_attempts_count_submissions_witness :
  Quiz._attempts
    (Quiz.this
       (Session.performAll
          [Session.SubmitQuiz; Session.ResetAllAnswers; Session.SubmitQuiz;
           Session.SetAnswer 1 "b"; Session.SubmitQuiz]
          (Sample.scored 1 0)))
  = Number.of_Z 2.
Proof.
  destruct (X18_attempts_count_submissions
              [Session.SubmitQuiz; Session.ResetAllAnswers; Session.SubmitQuiz;
               Session.SetAnswer 1 "b"; Session.SubmitQuiz]
              (Sample.scored 1 0) eq_refl) as [_ H].
  rewrite (H 0); [reflexivity | lia | vm_compute; discriminate | reflexivity].
Defined.

Lemma same_quiz_insert (q0 q q' : Quiz.t) (i : nat) (x x' : Question.t) :
  Quiz._questions q !! i = Some x →
  Question.resetAnswer x' = Question.resetAnswer x →
  Quiz._questions q' = <[i := x']> (Quiz._questions q) →
  Quiz._config q' = Quiz._config q →
  same_quiz q0 q → same_quiz q0 q'.
Proof.
  intros Hi Hx Hq Hc [Hc0 Hq0]. split; [congruence|].
  rewrite Hq, <- Hq0.
  change (Question.resetAnswer <$> <[i := x']> (Quiz._questions q)
          = Question.resetAnswer <$> Quiz._questions q).
  rewrite list_fmap_insert, Hx. apply list_insert_id.
  by rewrite list_lookup_fmap, Hi.
Qed.

Lemma setAnswer_resetAnswer (answer : string) (x x' : Question.t) :
  Question.setAnswer answer x = Return x' →
  Question.resetAnswer x' = Question.resetAnswer x.
Proof.
  unfold Question.setAnswer. destruct (includes _ _); [|discriminate].
  by intros [= <-].
Qed.

Lemma setAnswer_same (q0 : Quiz.t) (questionId : Z) (answer : string)
    (w : Quiz.World) :
  same_quiz q0 (Quiz.this w) →
  same_quiz q0 (Quiz.this (Quiz.setAnswer questionId answer w).2).
Proof.
  intros Hsame. pose proof (setAnswer_run questionId answer w) as Hrun.
  destruct (Quiz.getQuestion questionId (Quiz.this w))
    as [[i x]|] eqn:Hget; [|by rewrite Hrun].
  destruct (Question.setAnswer answer x) as [x'|e] eqn:Hset;
    [|by rewrite Hrun].
  simpl in Hrun. rewrite Hrun. simpl.
  unfold Quiz.getQuestion in Hget. apply list_find_Some in Hget as (Hi & _).
  eapply (same_quiz_insert q0 (Quiz.this w) _ i x x');
    [exact Hi | by eapply setAnswer_resetAnswer | reflexivity | reflexivity
    | exact Hsame].
Qed.

Lemma restoreAnswer_same (q0 : Quiz.t) (sa : SavedAnswer.t) (w : Quiz.World) :
  same_quiz q0 (Quiz.this w) →
  same_quiz q0 (Quiz.this (Quiz.restoreAnswer sa w).2).
Proof.
  intros Hsame. unfold Quiz.restoreAnswer. exec.
  destruct (Quiz.getQuestion (SavedAnswer.id sa) (Quiz.this w))
    as [[i x]|] eqn:Hget; simpl; [|done].
  destruct (SavedAnswer.selectedAnswer sa) as [a|]; [|done].
  destruct (nonempty a); [|done].
  destruct (Question.setAnswer a x) as [x'|e] eqn:Hset; simpl; [|done].
  unfold Quiz.getQuestion in Hget. apply list_find_Some in Hget as (Hi & _).
  eapply (same_quiz_insert q0 (Quiz.this w) _ i x x');
    [exact Hi | by eapply setAnswer_resetAnswer | reflexivity | reflexivity
    | exact Hsame].
Qed.

Lemma forEach_restore_same (q0 : Quiz.t) (answers : list SavedAnswer.t)
    (w : Quiz.World) :
  same_quiz q0 (Quiz.this w) →
  same_quiz q0 (Quiz.this (forEach Quiz.restoreAnswer answers w).2).
Proof.
  revert w. induction answers as [|sa answers IH]; intros w Hsame; [done|].
  simpl. exec. pose proof (restoreAnswer_same q0 sa w Hsame) as H1.
  destruct (Quiz.restoreAnswer sa w) as [[[]|e] w1]; simpl in *; [|done].
  by apply IH.
Qed.

Lemma loadFromStorage_same (q0 : Quiz.t) (w : Quiz.World) :
  same_quiz q0 (Quiz.this w) →
  same_quiz q0 (Quiz.this (Quiz.loadFromStorage w).2).
Proof.
  intros Hsame. unfold Quiz.loadFromStorage. exec.
  destruct w as [q ls qt c n]. simpl in *.
  destruct (Config.saveProgress (Quiz._config q)); simpl; [|done].
  destruct (ls !! Config.storageKey (Quiz._config q)) as [[state| |]|];
    simpl; try done.
  destruct (QuizState.isCompleted state); simpl; [done|].
  destruct (QuizState.answers state) as [answers|]; simpl.
  - pose proof (forEach_restore_same q0 answers (Quiz.mkWorld q ls qt c n) Hsame)
      as H1.
    destruct (forEach Quiz.restoreAnswer answers (Quiz.mkWorld q ls qt c n))
      as [[[]|e] w1]; simpl in *; [|done].
    destruct (QuizState.startTime state), (QuizState.attempts state); done.
  - destruct (QuizState.startTime state), (QuizState.attempts state); done.
Qed.

Lemma perform_config (op : Session.Op) (w : Quiz.World) :
  Quiz._config (Quiz.this (Session.perform op w)) = Quiz._config (Quiz.this w).
Proof.
  destruct op; simpl.
  - apply (setAnswer_same (Quiz.this w)). by split.
  - reflexivity.
  - destruct (submitQuiz_run w)
      as [[_ ->] | [(_ & _ & ->) | (_ & _ & r & n & Hs & _)]]; try done.
    simpl in Hs. by rewrite Hs.
  - apply (loadFromStorage_same (Quiz.this w)). by split.
  - destruct (perform_reading Session.GetStatistics w) as [H _]; [auto|].
    simpl in H. by rewrite H.
  - destruct (perform_reading Session.ExportData w) as [H _]; [auto|].
    simpl in H. by rewrite H.
  - destruct (perform_reading Session.IsTimeUp w) as [H _]; [auto|].
    simpl in H. by rewrite H.
  - unfold Quiz.addQuestion. by destruct (Quiz._isCompleted (Quiz.this w)).
  - unfold Quiz.removeQuestion. destruct (Quiz._isCompleted (Quiz.this w));
      [done|]. by destruct (list_find _ _) as [[i x]|].
Qed.

Lemma perform_same (op : Session.Op) (q0 : Quiz.t) (w : Quiz.World) :
  Session.keeps_collection op = true →
  same_quiz q0 (Quiz.this w) →
  same_quiz q0 (Quiz.this (Session.perform op w)).
Proof.
  intros Hop Hsame. destruct op; simpl; try discriminate.
  - by apply setAnswer_same.
  - destruct Hsame as [Hc Hq]. split; [done|]. simpl.
    rewrite <- Hq, map_map. reflexivity.
  - destruct (submitQuiz_run w)
      as [[_ ->] | [(_ & _ & ->) | (_ & _ & r & n & Hs & _)]]; try done.
    simpl in Hs. by rewrite Hs.
  - by apply loadFromStorage_same.
  - destruct (perform_reading Session.GetStatistics w) as [H _]; [auto|].
    simpl in H. by rewrite H.
  - destruct (perform_reading Session.ExportData w) as [H _]; [auto|].
    simpl in H. by rewrite H.
  - destruct (perform_reading Session.IsTimeUp w) as [H _]; [auto|].
    simpl in H. by rewrite H.
Qed.

Lemma perform_inv (op : Session.Op) (w : Quiz.World) :
  Session.keeps_collection op = true →
  quiz_inv (Quiz.this w) → quiz_inv (Quiz.this (Session.perform op w)).
Proof.
  intros Hop Hinv. destruct op; simpl; try discriminate.
  - by apply setAnswer_inv.
  - by apply resetAllAnswers_inv.
  - by apply submitQuiz_inv.
  - by apply loadFromStorage_inv.
  - destruct (perform_reading Session.GetStatistics w) as [H _]; [auto|].
    simpl in H. by rewrite H.
  - destruct (perform_reading Session.ExportData w) as [H _]; [auto|].
    simpl in H. by rewrite H.
  - destruct (perform_reading Session.IsTimeUp w) as [H _]; [auto|].
    simpl in H. by rewrite H.
Qed.

(** X19: no call changes the configuration of a quiz. Over any session
    without [addQuestion] and [removeQuestion], whatever the store holds
    when it is loaded, the questions stay the same in number, order, id,
    text, options, correct answer and type (only selected answers change),
    and if the ids were pairwise different and the selected answers among
    the options, they still are. *)
Theorem X19_session_frame (ops : list Session.Op) (w : Quiz.World) :
  Quiz._config (Quiz.this (Session.performAll ops w))
  = Quiz._config (Quiz.this w) ∧
  (forallb Session.keeps_collection ops = true →
   map Question.resetAnswer (Quiz._questions (Quiz.this (Session.performAll ops w)))
   = map Question.resetAnswer (Quiz._questions (Quiz.this w)) ∧
   (quiz_inv (Quiz.this w) →
    quiz_inv (Quiz.this (Session.performAll ops w)))).
Proof.
  split.
  - revert w. induction ops as [|op ops IH]; intros w; simpl; [done|].
    by rewrite IH, perform_config.
  - intros Hops.
    assert (Hsame : ∀ w', same_quiz (Quiz.this w) (Quiz.this w') →
              same_quiz (Quiz.this w) (Quiz.this (Session.performAll ops w'))).
    { induction ops as [|op ops IH]; intros w' Hw'; simpl; [done|].
      simpl in Hops. apply andb_true_iff in Hops as [Hop Hops].
      apply (IH Hops). by apply perform_same. }
    split; [apply Hsame; by split|].
    clear Hsame. revert w.
    induction ops as [|op ops IH]; intros w Hinv; simpl; [done|].
    simpl in Hops. apply andb_true_iff in Hops as [Hop Hops].
    apply (IH Hops). by apply perform_inv.
Qed.

(** X19, at a session on the mixed quiz with a stale store. *)
Lemma X19_session_frame_witness :
  map Question.resetAnswer
    (Quiz._questions
       (Quiz.this
          (Session.performAll
             [Session.SetAnswer 2 "True"; Session.LoadFromStorage;
              Session.SubmitQuiz; Session.ResetAllAnswers]
             Scenario.mixed)))
  = map Question.resetAnswer (Quiz._questions (Quiz.this Scenario.mixed)).
Proof.
  destruct (X19_session_frame
              [Session.SetAnswer 2 "True"; Session.LoadFromStorage;
               Session.SubmitQuiz; Session.ResetAllAnswers]
              Scenario.mixed) as [_ H].
  destruct (H eq_refl) as [Hq _]. exact Hq.
Defined.

(** ** Loading, once more *)

Lemma restoreAnswer_frame (sa : SavedAnswer.t) (w : Quiz.World) :
  ∃ o qs, Quiz.restoreAnswer sa w = (o, with_questions qs w).
Proof.
  unfold Quiz.restoreAnswer. exec.
  destruct (Quiz.getQuestion (SavedAnswer.id sa) (Quiz.this w)) as [[i x]|];
    simpl; [|by eexists _, _; rewrite with_questions_same].
  destruct (SavedAnswer.selectedAnswer sa) as [a|];
    [|by eexists _, _; rewrite with_questions_same].
  destruct (nonempty a); [|by eexists _, _; rewrite with_questions_same].
  destruct (Question.setAnswer a x) as [x'|e]; simpl.
  - by eexists _, _.
  - by eexists _, _; rewrite with_questions_same.
Qed.

Lemma forEach_restore_frame (answers : list SavedAnswer.t) (w : Quiz.World) :
  ∃ o qs, forEach Quiz.restoreAnswer answers w = (o, with_questions qs w).
Proof.
  revert w. induction answers as [|sa answers IH]; intros w; simpl.
  - exec. by eexists _, _; rewrite with_questions_same.
  - exec. destruct (restoreAnswer_frame sa w) as (o & qs & ->).
    destruct o as [[]|e]; [|by eexists _, _].
    destruct (IH (with_questions qs w)) as (o' & qs' & ->).
    by eexists _, _.
Qed.

(** X20: [loadFromStorage] never throws and never reads the clock. It
    returns [true] only when saving is enabled and the store holds under
    the quiz's key a record that is not completed, and then it leaves the
    store as it is. When it returns [false], the start time and the
    attempts of the quiz are as before; if saving is disabled the world is
    untouched; if saving is enabled and the key holds the empty text the
    world is untouched too, the empty text staying where it is; and if
    saving is enabled and the key holds anything else, or nothing, nothing
    is left under the quiz's key. *)
Theorem X20_load_outcome (w : Quiz.World) :
  ∃ b w',
    Quiz.loadFromStorage w = (Return b, w') ∧
    Quiz.ticks w' = Quiz.ticks w ∧
    Quiz._config (Quiz.this w') = Quiz._config (Quiz.this w) ∧
    (b = true →
       Quiz.localStorage w' = Quiz.localStorage w ∧
       Config.saveProgress (Quiz._config (Quiz.this w)) = true ∧
       ∃ state,
         Quiz.localStorage w !! Config.storageKey (Quiz._config (Quiz.this w))
         = Some (Saved state) ∧
         QuizState.isCompleted state = false) ∧
    (b = false →
       Quiz._startTime (Quiz.this w') = Quiz._startTime (Quiz.this w) ∧
       Quiz._attempts (Quiz.this w') = Quiz._attempts (Quiz.this w) ∧
       (Config.saveProgress (Quiz._config (Quiz.this w)) = false → w' = w) ∧
       (Config.saveProgress (Quiz._config (Quiz.this w)) = true →
        Quiz.localStorage w !! Config.storageKey (Quiz._config (Quiz.this w))
        = Some Empty →
        w' = w) ∧
       (Config.saveProgress (Quiz._config (Quiz.this w)) = true →
        Quiz.localStorage w !! Config.storageKey (Quiz._config (Quiz.this w))
        ≠ Some Empty →
        Quiz.localStorage w'
        !! Config.storageKey (Quiz._config (Quiz.this w)) = None)).
Proof.
  unfold Quiz.loadFromStorage. exec. destruct w as [q ls qt c n]. simpl.
  destruct (Config.saveProgress (Quiz._config q)) eqn:Hsp; simpl.
  2: { eexists _, _. split; [reflexivity|]. simpl.
       do 2 (split; [reflexivity|]). split; [discriminate|].
       intros _. split; [reflexivity|]. split; [reflexivity|].
       split; [reflexivity|]. split; discriminate. }
  destruct (ls !! Config.storageKey (Quiz._config q)) as [[state| |]|] eqn:Hget;
    simpl.
  - destruct (QuizState.isCompleted state) eqn:Hc; simpl.
    + eexists _, _. split; [reflexivity|]. simpl.
      do 2 (split; [reflexivity|]). split; [discriminate|].
      intros _. do 3 (split; [done|]).
      split; [discriminate | intros _ _; apply lookup_delete_eq].
    + assert (Hloop : ∃ o qs,
                (match QuizState.answers state with
                 | Some answers => forEach Quiz.restoreAnswer answers
                 | None => λ s, (Return tt, s)
                 end) (Quiz.mkWorld q ls qt c n)
                = (o, with_questions qs (Quiz.mkWorld q ls qt c n))).
      { destruct (QuizState.answers state) as [answers|].
        - apply forEach_restore_frame.
        - eexists _, _.
          by rewrite (with_questions_same (Quiz.mkWorld q ls qt c n)). }
      destruct Hloop as (o & qs & ->). unfold with_questions. simpl.
      destruct o as [[]|e]; simpl.
      * destruct (QuizState.startTime state), (QuizState.attempts state);
          simpl; eexists _, _; (split; [reflexivity|]); simpl;
          do 2 (split; [reflexivity|]);
          (split; [intros _; split; [reflexivity|];
                   split; [reflexivity|]; eauto | discriminate]).
      * eexists _, _. split; [reflexivity|]. simpl.
        do 2 (split; [reflexivity|]). split; [discriminate|].
        intros _. do 3 (split; [done|]).
        split; [discriminate | intros _ _; apply lookup_delete_eq].
  - eexists _, _. split; [reflexivity|]. simpl.
    do 2 (split; [reflexivity|]). split; [discriminate|].
    intros _. do 3 (split; [done|]).
    split; [discriminate | intros _ _; apply lookup_delete_eq].
  - eexists _, _. split; [reflexivity|]. simpl.
    do 2 (split; [reflexivity|]). split; [discriminate|].
    intros _. do 3 (split; [done|]). split; [done|]. intros _ H. by destruct H.
  - eexists _, _. split; [reflexivity|]. simpl.
    do 2 (split; [reflexivity|]). split; [discriminate|].
    intros _. do 3 (split; [done|]). split; [discriminate|]. by intros _ _.
Qed.

Lemma X20_load_outcome_witness :
  ∃ b w',
    Quiz.loadFromStorage Scenario.damaged = (Return b, w') ∧
    (b = false →
     Quiz.localStorage w' !! "quizState" = None).
Proof.
  destruct (X20_load_outcome Scenario.damaged)
    as (b & w' & Hrun & _ & _ & _ & Hfalse).
  exists b, w'. split; [exact Hrun|].
  intros Hb. destruct (Hfalse Hb) as (_ & _ & _ & _ & Hgone).
  apply Hgone; [reflexivity | discriminate].
Defined.

Lemma forEach_app_run {S A} (f : A → Exec S unit) (l1 l2 : list A) (w w1 : S) :
  forEach f l1 w = (Return tt, w1) →
  forEach f (l1 ++ l2) w = forEach f l2 w1.
Proof.
  revert w. induction l1 as [|x l1 IH]; intros w; simpl.
  - exec. by intros [= ->].
  - exec. destruct (f x w) as [[[]|e] w0]; [|discriminate]. apply IH.
Qed.

Lemma restored_options (answers : list SavedAnswer.t) (x : Question.t) :
  Question._options (restored answers x) = Question._options x.
Proof.
  revert x. induction answers as [|sa answers IH]; intros x; [done|].
  unfold restored in *. simpl. by rewrite IH, restore_one_options.
Qed.

Lemma unique_ids_restored (answers : list SavedAnswer.t) (qs : list Question.t) :
  unique_ids qs → unique_ids (map (restored answers) qs).
Proof.
  unfold unique_ids. rewrite map_map.
  by rewrite (map_ext _ Question._id (restored_id answers)).
Qed.

(** X21: a record in progress whose answers cannot all be set is given up
    half way. With saving enabled, the ids pairwise different and the
    record under the quiz's key: when the answers before the first one that
    is no option of its question can be set, [loadFromStorage] sets them,
    returns [false] and removes the record; the answers after it, the start
    time and the attempts of the record are not restored. *)
Theorem X21_load_bad_answer (w : Quiz.World) (state : QuizState.t)
    (good rest : list SavedAnswer.t) (bad : SavedAnswer.t)
    (question : Question.t) (answer : string) :
  Config.saveProgress (Quiz._config (Quiz.this w)) = true →
  Quiz.localStorage w !! Config.storageKey (Quiz._config (Quiz.this w))
    = Some (Saved state) →
  QuizState.isCompleted state = false →
  QuizState.answers state = Some (good ++ bad :: rest) →
  unique_ids (Quiz._questions (Quiz.this w)) →
  restorable good (Quiz._questions (Quiz.this w)) →
  question ∈ Quiz._questions (Quiz.this w) →
  Question._id question = SavedAnswer.id bad →
  SavedAnswer.selectedAnswer bad = Some answer →
  answer ≠ "" →
  answer ∉ Question._options question →
  Quiz.loadFromStorage w =
  (Return false,
   Quiz.mkWorld
     (Quiz.assign_questions
        (map (restored good) (Quiz._questions (Quiz.this w))) (Quiz.this w))
     (delete (Config.storageKey (Quiz._config (Quiz.this w)))
             (Quiz.localStorage w))
     (Quiz.quota w) (Quiz.clock w) (Quiz.ticks w)).
Proof.
  intros Hsp Hget Hc Hans Hnd Hok Hin Hid Hsel Hne Hnot.
  assert (Hloop : forEach Quiz.restoreAnswer (good ++ bad :: rest) w =
                  (Throw AnswerNotAnOption,
                   with_questions
                     (map (restored good) (Quiz._questions (Quiz.this w))) w)).
  { rewrite (forEach_app_run _ _ _ _ _ (forEach_restore_run good w Hnd Hok)).
    simpl. exec. unfold Quiz.restoreAnswer. exec.
    assert (Hfind : ∃ i,
              Quiz.getQuestion (SavedAnswer.id bad)
                (Quiz.this (with_questions
                   (map (restored good) (Quiz._questions (Quiz.this w))) w))
              = Some (i, restored good question)).
    { rewrite <- Hid, <- (restored_id good question).
      apply getQuestion_elem_of.
      - simpl. by apply unique_ids_restored.
      - simpl. change (map (restored good) (Quiz._questions (Quiz.this w)))
          with (restored good <$> Quiz._questions (Quiz.this w)).
        by apply list_elem_of_fmap_2. }
    destruct Hfind as [i ->]. rewrite Hsel.
    apply nonempty_true in Hne. rewrite Hne.
    unfold Question.setAnswer. rewrite restored_options.
    apply includes_not_elem_of in Hnot. by rewrite Hnot. }
  unfold Quiz.loadFromStorage. exec.
  destruct w as [q ls qt c n]. simpl in *.
  rewrite Hsp. simpl. rewrite Hget. simpl. rewrite Hc, Hans.
  rewrite Hloop. reflexivity.
Qed.

Lemma X21_load_bad_answer_witness :
  Quiz.loadFromStorage Scenario.damaged =
  (Return false,
   Quiz.mkWorld
     (Quiz.mk [Sample.question 1 (Some "a"); Scenario.trueFalse 2 None]
              false 0 None None 0 (Sample.config true))
     ∅ Sample.quota Sample.clock 0).
Proof.
  assert (Hrest : restorable [SavedAnswer.mk 1 (Some "a")]
                    (Quiz._questions (Quiz.this Scenario.damaged))).
  { intros sa x a Hsa Hx Hid Hsel _.
    apply list_elem_of_singleton in Hsa as ->. injection Hsel as <-.
    simpl in Hx. apply elem_of_cons in Hx as [->|Hx].
    - simpl. apply elem_of_cons. by left.
    - apply list_elem_of_singleton in Hx as ->. discriminate Hid. }
  assert (Hin : Scenario.trueFalse 2 None
                ∈ Quiz._questions (Quiz.this Scenario.damaged)).
  { simpl. apply elem_of_cons. right. apply elem_of_cons. by left. }
  assert (Hnot : "Maybe" ∉ Question._options (Scenario.trueFalse 2 None)).
  { apply includes_not_elem_of. reflexivity. }
  assert (Hnd : unique_ids (Quiz._questions (Quiz.this Scenario.damaged))).
  { unfold unique_ids. simpl. apply NoDup_cons. split.
    - intros H. apply list_elem_of_singleton in H. discriminate.
    - apply NoDup_singleton. }
  rewrite (X21_load_bad_answer Scenario.damaged Scenario.damaged_record
             [SavedAnswer.mk 1 (Some "a")] [SavedAnswer.mk 1 (Some "b")]
             (SavedAnswer.mk 2 (Some "Maybe")) (Scenario.trueFalse 2 None)
             "Maybe" eq_refl eq_refl eq_refl eq_refl Hnd Hrest Hin eq_refl
             eq_refl ltac:(discriminate) Hnot).
  reflexivity.
Defined.

(** The unanswered questions of a quiz with pairwise different ids are,
    id by id, its questions. *)
Lemma reset_same (qs : list Question.t) :
  unique_ids qs →
  ∀ x y, x ∈ qs → y ∈ map Question.resetAnswer qs →
         Question._id x = Question._id y → y = Question.resetAnswer x.
Proof.
  intros Hnd x y Hx Hy Hid.
  apply list_elem_of_fmap in Hy as (x' & -> & Hx'). simpl in Hid.
  by rewrite (unique_ids_inj qs x x' Hnd Hx Hx' Hid).
Qed.

(** X22: what a saved record carries besides the answers. When a quiz in
    progress with pairwise different ids and valid answers has saved its
    state (saving is enabled, its start time is not an Invalid Date and the
    quota accepted the record) and a fresh quiz over the same questions,
    with saving enabled and the same key, loads it, the loaded quiz has the
    start time of the saved one and its attempts as JSON keeps them (the
    attempts themselves unless they are NaN, infinite or -0), is not
    completed, has score 0 and no end time; the load reads no clock and
    leaves the record in the store. *)
Theorem X22_round_trip_progress (w0 : Quiz.World) (options : Options.t)
    (random : nat → float)
    (quota' : gmap string Item → string → Item → bool)
    (clock' : nat → Z) (ticks' : nat) :
  let q0 := Quiz.this w0 in
  let saved := (Quiz._saveToStorage w0).2 in
  let fresh :=
    Quiz.new (map Question.resetAnswer (Quiz._questions q0)) options random in
  let loaded :=
    Quiz.loadFromStorage
      (Quiz.mkWorld fresh (Quiz.localStorage saved) quota' clock' ticks') in
  Quiz._isCompleted q0 = false →
  Config.saveProgress (Quiz._config q0) = true →
  start_invalid q0 = false →
  Quiz.quota w0 (Quiz.localStorage w0) (Config.storageKey (Quiz._config q0))
             (Saved (Quiz.quizState q0)) = true →
  unique_ids (Quiz._questions q0) →
  Forall answer_valid (Quiz._questions q0) →
  Config.saveProgress (Quiz._config fresh) = true →
  Config.storageKey (Quiz._config fresh) = Config.storageKey (Quiz._config q0) →
  loaded.1 = Return true ∧
  Quiz._startTime (Quiz.this loaded.2) = Quiz._startTime q0 ∧
  Quiz._attempts (Quiz.this loaded.2)
  = match Number.to_JSON (Quiz._attempts q0) with
    | Some attempts => attempts
    | None => PrimFloat.zero
    end ∧
  (Number.to_JSON (Quiz._attempts q0) = Some (Quiz._attempts q0) →
   Quiz._attempts (Quiz.this loaded.2) = Quiz._attempts q0) ∧
  Quiz._isCompleted (Quiz.this loaded.2) = false ∧
  Quiz._score (Quiz.this loaded.2) = 0%nat ∧
  Quiz._endTime (Quiz.this loaded.2) = None ∧
  Quiz.localStorage loaded.2
  !! Config.storageKey (Quiz._config q0) = Some (Saved (Quiz.quizState q0)) ∧
  Quiz.ticks loaded.2 = ticks'.
Proof.
  intros q0 saved fresh loaded Hc Hsp Hst Hquota Hnd Hvalid Hsp' Hkey.
  assert (Hw : writes q0 w0 = true).
  { unfold writes. by rewrite Hsp, Hc, Hst, Hquota. }
  assert (Hnd' : unique_ids (map Question.resetAnswer (Quiz._questions q0))).
  { unfold unique_ids. by rewrite reset_ids. }
  pose proof (round_trip_run w0 (map Question.resetAnswer (Quiz._questions q0))
                options random quota' clock' ticks'
                Hw Hvalid Hnd' (reset_same _ Hnd) Hsp' Hkey) as Hload.
  cbv zeta in Hload. fold q0 saved fresh loaded in Hload.
  rewrite Hload. simpl.
  split; [reflexivity|]. split; [by destruct (Quiz._startTime q0)|].
  split; [reflexivity|]. split; [by intros ->|].
  repeat (split; [reflexivity|]). split; [|reflexivity].
  by apply saveToStorage_saved.
Qed.

Lemma X22_round_trip_progress_witness :
  Quiz._startTime
    (Quiz.this
       (Quiz.loadFromStorage
          (Quiz.mkWorld
             (Quiz.new (map Question.resetAnswer
                          (Quiz._questions (Quiz.this Sample.in_progress)))
                       Sample.no_options Sample.no_random)
             (Quiz.localStorage (Quiz._saveToStorage Sample.in_progress).2)
             Sample.quota Sample.clock 0)).2)
  = Some (Date.Time 1699999990000).
Proof.
  assert (Hnd : unique_ids (Quiz._questions (Quiz.this Sample.in_progress))).
  { apply (bool_decide_unpack _). vm_compute. exact I. }
  assert (Hvalid : Forall answer_valid
                     (Quiz._questions (Quiz.this Sample.in_progress))).
  { apply Forall_cons. split; [|apply Forall_cons; split; [|constructor]].
    - intros a Ha. injection Ha as <-. apply includes_elem_of. reflexivity.
    - intros a Ha. discriminate Ha. }
  destruct (X22_round_trip_progress Sample.in_progress Sample.no_options
              Sample.no_random Sample.quota Sample.clock 0
              eq_refl eq_refl eq_refl eq_refl Hnd Hvalid eq_refl eq_refl)
    as (_ & H & _).
  exact H.
Defined.

(** ** Export and import *)

Lemma to_JSON_finite (x : float) :
  finite_nonzero x = true → Number.to_JSON x = Some x ∧ Number.truthy x = true.
Proof.
  unfold finite_nonzero, Number.to_JSON, Number.truthy.
  by destruct (Prim2SF x).
Qed.

Lemma importQuestion_toJSON (x : Question.t) :
  variant_shaped x → Quiz.importQuestion (Question.toJSON x) = Return (reread x).
Proof.
  intros (H1 & H2 & H3 & H4 & Hv & Hshape).
  assert (Hnew : Question.new (Question._id x) (Question._text x)
                   (Question._options x) (Question._correctAnswer x)
                   (Question._type x)
                 = Return (Question.resetAnswer x)).
  { destruct (Question_new_run (Question._id x) (Question._text x)
                (Question._options x) (Question._correctAnswer x)
                (Question._type x))
      as [(_ & _ & _ & _ & ->) | (Hn & _)]; [reflexivity | tauto]. }
  assert (Hmade : (if String.eqb (Question._type x) "true-false"
                   then TrueFalseQuestion.new (Question._id x)
                          (Question._text x) (Question._correctAnswer x)
                   else MultipleChoiceQuestion.new (Question._id x)
                          (Question._text x) (Question._options x)
                          (Question._correctAnswer x))
                  = Return (Question.resetAnswer x)).
  { destruct Hshape as [[Hty Hopt] | [Hty Hlen]]; rewrite Hty; simpl.
    - unfold TrueFalseQuestion.new. rewrite <- Hopt, <- Hty.
      apply includes_elem_of in H4. rewrite H4. simpl. exact Hnew.
    - unfold MultipleChoiceQuestion.new. rewrite <- Hty, Hnew.
      unfold MultipleChoiceQuestion._validateMultipleChoiceOptions. simpl.
      destruct (Nat.ltb_spec (length (Question._options x)) 2); [lia|].
      destruct (Nat.ltb_spec 6 (length (Question._options x))); [lia|].
      reflexivity. }
  unfold Quiz.importQuestion, Question.toJSON. simpl. rewrite Hmade.
  unfold reread. destruct x as [i t o c ty [a|]]; simpl in *; [|reflexivity].
  destruct (nonempty a); [|reflexivity].
  unfold Question.setAnswer, Question.resetAnswer. simpl.
  assert (Ha : includes o a = true) by (apply includes_elem_of, Hv; reflexivity).
  by rewrite Ha.
Qed.

Lemma mapM_import (qs : list Question.t) :
  Forall variant_shaped qs →
  mapM Quiz.importQuestion (map Question.toJSON qs) = Return (map reread qs).
Proof.
  induction 1 as [|x qs Hx _ IH]; simpl; [reflexivity|].
  by rewrite (importQuestion_toJSON x Hx), IH.
Qed.

Lemma new_exportConfig (qs : list Question.t) (config : Config.t)
    (random : nat → float) :
  config_exportable config →
  Quiz._config (Quiz.new qs (Quiz.exportConfig config) random) = config.
Proof.
  intros (Hp & Hm & Ht & Hs & Hk).
  destruct config as [p m t sh sc sp k]; simpl in *.
  unfold Quiz.new, Quiz.exportConfig. simpl.
  destruct (to_JSON_finite p Hp) as [-> ->].
  apply nonempty_true in Hk. rewrite Hk, Hs, orb_false_r.
  assert (Hmax : match Number.to_JSON m with
                 | Some x => if Number.truthy x then x else PrimFloat.infinity
                 | None => PrimFloat.infinity
                 end = m).
  { destruct Hm as [-> | Hm]; [reflexivity|].
    by destruct (to_JSON_finite m Hm) as [-> ->]. }
  assert (Htime : match match t with
                        | Some x => Number.to_JSON x
                        | None => None
                        end with
                  | Some x => if Number.truthy x then Some x else None
                  | None => None
                  end = t).
  { destruct t as [x|]; [|reflexivity].
    by destruct (to_JSON_finite x (Ht x eq_refl)) as [-> ->]. }
  rewrite Hmax, Htime. by destruct sp.
Qed.

(** X23: export, then import. For a quiz whose questions have the shape
    the variant constructors give them and whose configuration survives
    JSON (finite non-zero numbers, a non-empty key), [fromExportedData] on
    the data of [exportData] returns a quiz with the same configuration and
    the same questions with their answers (an empty-string answer apart),
    in the same order unless the configuration asks for shuffling. The
    progress of the exported quiz is not carried over: the imported quiz is
    not completed and has score 0, no attempts, no start and no end time. *)
Theorem X23_export_import (w : Quiz.World) (random : nat → float) :
  Forall variant_shaped (Quiz._questions (Quiz.this w)) →
  config_exportable (Quiz._config (Quiz.this w)) →
  ∃ data q',
    (Quiz.exportData w).1 = Return data ∧
    Quiz.this (Quiz.exportData w).2 = Quiz.this w ∧
    Quiz.fromExportedData data random = Return q' ∧
    Quiz._config q' = Quiz._config (Quiz.this w) ∧
    Quiz._questions q' ≡ₚ map reread (Quiz._questions (Quiz.this w)) ∧
    (Config.shuffleQuestions (Quiz._config (Quiz.this w)) = false →
     Quiz._questions q' = map reread (Quiz._questions (Quiz.this w))) ∧
    Quiz._isCompleted q' = false ∧ Quiz._score q' = 0%nat ∧
    Quiz._attempts q' = PrimFloat.zero ∧
    Quiz._startTime q' = None ∧ Quiz._endTime q' = None.
Proof.
  intros Hqs Hcfg.
  destruct (exportData_this w) as (Hthis & _ & data & Hdata & Hq & Hc).
  exists data. unfold Quiz.fromExportedData. rewrite Hq, Hc.
  rewrite (mapM_import _ Hqs). eexists.
  split; [exact Hdata|]. split; [exact Hthis|]. split; [reflexivity|].
  split; [by apply new_exportConfig|].
  split; [apply new_questions_Permutation|].
  split; [|by repeat split].
  intros Hsh.
  pose proof (new_exportConfig (map reread (Quiz._questions (Quiz.this w)))
                (Quiz._config (Quiz.this w)) random Hcfg) as Hnew.
  unfold Quiz.new in *. cbn [Quiz._questions Quiz._config] in *.
  rewrite Hnew, Hsh. reflexivity.
Qed.

Lemma X23_export_import_witness :
  ∃ data q',
    (Quiz.exportData Scenario.mixed).1 = Return data ∧
    Quiz.fromExportedData data Sample.no_random = Return q' ∧
    Quiz._questions q' = Quiz._questions (Quiz.this Scenario.mixed) ∧
    Quiz._startTime q' = None.
Proof.
  assert (Hqs : Forall variant_shaped (Quiz._questions (Quiz.this Scenario.mixed))).
  { apply Forall_cons. split; [|apply Forall_cons; split; [|constructor]].
    - split; [discriminate|]. split; [discriminate|]. split; [discriminate|].
      split; [apply includes_elem_of; reflexivity|].
      split; [intros a Ha; injection Ha as <-; apply includes_elem_of;
              reflexivity|].
      right. split; [reflexivity | simpl; lia].
    - split; [discriminate|]. split; [discriminate|]. split; [discriminate|].
      split; [apply includes_elem_of; reflexivity|].
      split; [intros a Ha; discriminate Ha|].
      left. split; reflexivity. }
  assert (Hcfg : config_exportable (Quiz._config (Quiz.this Scenario.mixed))).
  { split; [reflexivity|]. split; [left; reflexivity|].
    split; [intros x Hx; discriminate Hx|]. split; [reflexivity | discriminate]. }
  destruct (X23_export_import Scenario.mixed Sample.no_random Hqs Hcfg)
    as (data & q' & H1 & _ & H2 & _ & _ & H3 & _ & _ & _ & H4 & _).
  exists data, q'. split; [exact H1|]. split; [exact H2|].
  split; [|exact H4]. rewrite (H3 eq_refl). reflexivity.
Defined.

(** ** The constructed quiz *)

Lemma performAll_config (ops : list Session.Op) (w : Quiz.World) :
  Quiz._config (Quiz.this (Session.performAll ops w))
  = Quiz._config (Quiz.this w).
Proof.
  revert w. induction ops as [|op ops IH]; intros w; simpl; [done|].
  by rewrite IH, perform_config.
Qed.

(** X24: two defaults of the constructor, seen over the life of the quiz.
    [showCorrectAnswers] is true in every constructed quiz, whatever the
    options say, so after any sequence of calls a submission that returns
    carries the per-question results; and a quiz constructed without a
    time limit is never out of time: [isTimeUp] returns [false] and does
    not read the clock. *)
Theorem X24_constructed_quiz (questions : list Question.t)
    (options : Options.t) (random : nat → float) (ls : gmap string Item)
    (quota : gmap string Item → string → Item → bool)
    (clock : nat → Z) (ticks : nat) (ops : list Session.Op) :
  let w := Session.performAll ops
             (Quiz.mkWorld (Quiz.new questions options random) ls quota clock
                           ticks) in
  Config.showCorrectAnswers (Quiz._config (Quiz.this w)) = true ∧
  (∀ r w', Quiz.submitQuiz w = (Return r, w') →
           Result.questions r = Some (Quiz._getQuestionResults (Quiz.this w))) ∧
  (Options.timeLimit options = None → Quiz.isTimeUp w = (Return false, w)).
Proof.
  intros w.
  assert (Hcfg : Quiz._config (Quiz.this w)
                 = Quiz._config (Quiz.new questions options random)).
  { unfold w. by rewrite performAll_config. }
  assert (Hshow : Config.showCorrectAnswers (Quiz._config (Quiz.this w)) = true).
  { rewrite Hcfg. unfold Quiz.new. simpl.
    destruct (Options.showCorrectAnswers options) as [b|]; [|reflexivity].
    apply orb_true_r. }
  split; [exact Hshow|]. split.
  - intros r w' Hs.
    destruct (submitQuiz_result_full w w' r Hs) as (_ & -> & _).
    by rewrite Hshow.
  - intros Hlimit.
    assert (Hnone : Config.timeLimit (Quiz._config (Quiz.this w)) = None).
    { rewrite Hcfg. unfold Quiz.new. simpl. by rewrite Hlimit. }
    clearbody w. destruct w as [q ls' qt c n]. unfold Quiz.isTimeUp. exec.
    simpl in *. by rewrite Hnone.
Qed.

Lemma X24_constructed_quiz_witness :
  ∃ r w' results,
    Quiz.submitQuiz
      (Session.performAll [Session.SetAnswer 1 "a"]
         (Quiz.mkWorld
            (Quiz.new [Sample.question 1 None] Scenario.hidden Sample.no_random)
            ∅ Sample.quota Sample.clock 0))
    = (Return r, w') ∧
    Result.questions r = Some results.
Proof.
  assert (Hs : ∃ r w',
             Quiz.submitQuiz
               (Session.performAll [Session.SetAnswer 1 "a"]
                  (Quiz.mkWorld
                     (Quiz.new [Sample.question 1 None] Scenario.hidden
                               Sample.no_random)
                     ∅ Sample.quota Sample.clock 0))
             = (Return r, w'))
    by (eexists _, _; vm_compute; reflexivity).
  destruct Hs as (r & w' & Hs).
  destruct (X24_constructed_quiz [Sample.question 1 None] Scenario.hidden
              Sample.no_random ∅ Sample.quota Sample.clock 0
              [Session.SetAnswer 1 "a"])
    as (_ & H & _).
  exists r, w'. eexists. split; [exact Hs|]. exact (H r w' Hs).
Defined.

(** ** After a reset, and the quiz without questions *)

(** X25: the quiz that [resetAllAnswers] leaves. Resetting it again changes
    nothing; no question is answered; if it has questions, [submitQuiz]
    throws and changes nothing; and the first answer accepted after the
    reset starts the timer anew, at the clock's next reading. *)
Theorem X25_after_reset (w : Quiz.World) :
  let w1 := (Quiz.resetAllAnswers w).2 in
  Quiz.resetAllAnswers w1 = (Return tt, w1) ∧
  Quiz.getAnsweredCount (Quiz.this w1) = 0%nat ∧
  (Quiz._questions (Quiz.this w) ≠ [] →
   Quiz.submitQuiz w1 = (Throw NotAllAnswered, w1)) ∧
  (∀ questionId answer w2,
     Quiz.setAnswer questionId answer w1 = (Return true, w2) →
     Quiz._startTime (Quiz.this w2)
     = Some (Date.Time (Quiz.clock w (Quiz.ticks w)))).
Proof.
  intros w1. unfold w1. rewrite (resetAllAnswers_run w). cbn [snd].
  split; [|split; [|split]].
  - rewrite resetAllAnswers_run. cbn [Quiz.this Quiz.localStorage Quiz.clock
      Quiz.ticks Quiz._questions Quiz._attempts Quiz._config].
    rewrite map_map, delete_delete_eq. reflexivity.
  - unfold Quiz.getAnsweredCount. cbn [Quiz.this Quiz._questions].
    induction (Quiz._questions (Quiz.this w)) as [|x qs IH]; [reflexivity|].
    exact IH.
  - intros Hne.
    match goal with |- Quiz.submitQuiz ?w0 = _ =>
      destruct (submitQuiz_run w0)
        as [[_ Hs] | [(Hall & _) | (Hall & _)]]; [exact Hs | |] end;
      cbn [Quiz.this Quiz._questions] in Hall;
      unfold Quiz.areAllQuestionsAnswered in Hall;
      cbn [Quiz._questions] in Hall;
      destruct (Quiz._questions (Quiz.this w)) as [|x qs]; try done.
  - intros questionId answer w2 Hset.
    match type of Hset with Quiz.setAnswer _ _ ?w0 = _ =>
      pose proof (setAnswer_run questionId answer w0) as Hrun end.
    destruct (Quiz.getQuestion questionId _) as [[i x]|];
      [|rewrite Hset in Hrun; discriminate].
    destruct (Question.setAnswer answer x) as [x'|e];
      [|rewrite Hset in Hrun; discriminate].
    cbv zeta in Hrun. rewrite Hset in Hrun. injection Hrun as ->.
    reflexivity.
Qed.

Lemma X25_after_reset_witness :
  Quiz.submitQuiz (Quiz.resetAllAnswers Scenario.mixed).2
  = (Throw NotAllAnswered, (Quiz.resetAllAnswers Scenario.mixed).2).
Proof.
  destruct (X25_after_reset Scenario.mixed) as (_ & _ & H & _).
  apply H. discriminate.
Defined.

(** X26: a quiz without questions can be submitted. When it is not
    completed, [submitQuiz] returns a result with score 0 out of 0 whose
    percentage is NaN and whose [passed] is the comparison of the pass
    threshold with NaN, and the quiz is completed: a second [submitQuiz]
    throws. *)
Theorem X26_submit_empty (w : Quiz.World) :
  Quiz._questions (Quiz.this w) = [] →
  Quiz._isCompleted (Quiz.this w) = false →
  ∃ r w',
    Quiz.submitQuiz w = (Return r, w') ∧
    Result.score r = 0%nat ∧ Result.total r = 0%nat ∧
    Result.percentage r = PrimFloat.nan ∧
    Result.passed r
    = PrimFloat.leb (Config.passThreshold (Quiz._config (Quiz.this w)))
                    PrimFloat.nan ∧
    Quiz._isCompleted (Quiz.this w') = true ∧
    Quiz.submitQuiz w' = (Throw AlreadySubmitted, w').
Proof.
  intros Hqs Hc.
  destruct (submitQuiz_run w)
    as [[Hall _] | [(_ & Hc' & _) | (_ & _ & r & n & Hs & _)]].
  - unfold Quiz.areAllQuestionsAnswered in Hall. by rewrite Hqs in Hall.
  - congruence.
  - cbv zeta in Hs. exists r. eexists. split; [exact Hs|].
    destruct (submitQuiz_result w _ r Hs) as (H1 & H2 & H3 & H4 & _).
    rewrite Hqs in H1, H2, H3, H4. simpl in H1, H2, H3, H4.
    split; [exact H1|]. split; [exact H2|]. split; [exact H3|].
    split; [exact H4|]. split; [reflexivity|].
    match goal with |- Quiz.submitQuiz ?w0 = _ =>
      destruct (submitQuiz_run w0)
        as [[Hall _] | [(_ & _ & Hs') | (_ & Hc' & _)]] end.
    + unfold Quiz.areAllQuestionsAnswered, submitted in Hall. simpl in Hall.
      by rewrite Hqs in Hall.
    + exact Hs'.
    + discriminate Hc'.
Qed.

Lemma X26_submit_empty_witness :
  ∃ r w',
    Quiz.submitQuiz
      (Quiz.mkWorld (Quiz.new [] Sample.no_options Sample.no_random)
                    ∅ Sample.quota Sample.clock 0)
    = (Return r, w') ∧
    Result.passed r = false.
Proof.
  destruct (X26_submit_empty
              (Quiz.mkWorld (Quiz.new [] Sample.no_options Sample.no_random)
                            ∅ Sample.quota Sample.clock 0) eq_refl eq_refl)
    as (r & w' & Hs & _ & _ & _ & Hp & _).
  exists r, w'. split; [exact Hs | exact Hp].
Defined.

(** ** The question catalog *)

Lemma find_id_none (i : Z) (catalog : list QuizQuestions.Data.t) :
  List.find (λ q, QuizQuestions.Data.id q =? i) catalog = None
  ↔ i ∉ map QuizQuestions.Data.id catalog.
Proof.
  induction catalog as [|q catalog IH]; simpl.
  - split; [intros _ H; inversion H | done].
  - rewrite not_elem_of_cons.
    destruct (Z.eqb_spec (QuizQuestions.Data.id q) i) as [Heq|Hne].
    + split; [discriminate | intros [Hne _]; congruence].
    + rewrite IH. split; [intros H; split; congruence | tauto].
Qed.

Lemma catalog_add_ok (q : QuizQuestions.Data.t)
    (catalog : list QuizQuestions.Data.t) :
  acceptable q catalog →
  QuizQuestions.addQuestion q catalog = (Returned tt, catalog ++ [categorised q]).
Proof.
  intros [Hc Hfresh]. apply find_id_none in Hfresh.
  unfold QuizQuestions.addQuestion, complete_entry in *. rewrite Hfresh.
  destruct (QuizQuestions.Data.id q =? 0); [discriminate|].
  destruct (nonempty (QuizQuestions.Data.type q)); [|discriminate].
  destruct (nonempty (QuizQuestions.Data.text q)); [|discriminate].
  destruct (nonempty (QuizQuestions.Data.correctAnswer q)); [|discriminate].
  simpl in *.
  destruct (String.eqb (QuizQuestions.Data.type q) "multiple-choice"
            && match QuizQuestions.Data.options q with
               | None => true | Some _ => false end); [discriminate|].
  reflexivity.
Qed.

Lemma catalog_add_fail (q : QuizQuestions.Data.t)
    (catalog : list QuizQuestions.Data.t) :
  ¬ acceptable q catalog →
  ∃ e, QuizQuestions.addQuestion q catalog = (Thrown e, catalog).
Proof.
  intros Hno. unfold acceptable in Hno. rewrite <- find_id_none in Hno.
  unfold QuizQuestions.addQuestion, complete_entry in *.
  destruct (QuizQuestions.Data.id q =? 0); [by eexists|].
  destruct (nonempty (QuizQuestions.Data.type q)); [|by eexists].
  destruct (nonempty (QuizQuestions.Data.text q)); [|by eexists].
  destruct (nonempty (QuizQuestions.Data.correctAnswer q)); [|by eexists].
  simpl in *.
  destruct (String.eqb (QuizQuestions.Data.type q) "multiple-choice"
            && match QuizQuestions.Data.options q with
               | None => true | Some _ => false end); [by eexists|].
  destruct (List.find _ catalog); [by eexists|].
  exfalso. apply Hno. by split.
Qed.

Lemma categorised_ids (l : list QuizQuestions.Data.t) :
  map QuizQuestions.Data.id (map categorised l) = map QuizQuestions.Data.id l.
Proof. rewrite map_map. reflexivity. Qed.

(** X27: the catalog's [addQuestion]. An entry with id, type, text and
    correct answer, with options if it is multiple choice, and whose id no
    entry of the catalog has, is appended, with the category ["Custom"]
    when it has none; every other entry makes the call throw and leaves the
    catalog as it is. A catalog with pairwise different ids keeps them
    pairwise different. The catalog's [removeQuestion] undoes the addition,
    and returns [false] and changes nothing for an id that no entry has. *)
Theorem X27_catalog_addQuestion (q : QuizQuestions.Data.t)
    (catalog : list QuizQuestions.Data.t) :
  (acceptable q catalog →
   QuizQuestions.addQuestion q catalog
   = (Returned tt, catalog ++ [categorised q])) ∧
  (¬ acceptable q catalog →
   ∃ e, QuizQuestions.addQuestion q catalog = (Thrown e, catalog)) ∧
  (NoDup (map QuizQuestions.Data.id catalog) →
   NoDup (map QuizQuestions.Data.id (QuizQuestions.addQuestion q catalog).2)) ∧
  (acceptable q catalog →
   QuizQuestions.removeQuestion (QuizQuestions.Data.id q)
     (QuizQuestions.addQuestion q catalog).2 = (true, catalog)) ∧
  (QuizQuestions.Data.id q ∉ map QuizQuestions.Data.id catalog →
   QuizQuestions.removeQuestion (QuizQuestions.Data.id q) catalog
   = (false, catalog)).
Proof.
  split; [apply catalog_add_ok|]. split; [apply catalog_add_fail|].
  assert (Hfind : QuizQuestions.Data.id q ∉ map QuizQuestions.Data.id catalog →
                  list_find (λ q0, QuizQuestions.Data.id q0
                                   = QuizQuestions.Data.id q) catalog = None).
  { intros Hfresh. apply list_find_None, Forall_forall. intros x Hx Hid.
    apply Hfresh. rewrite <- Hid.
    change (map QuizQuestions.Data.id catalog)
      with (QuizQuestions.Data.id <$> catalog).
    by apply list_elem_of_fmap_2. }
  split; [|split].
  2: { intros Hacc. rewrite (catalog_add_ok q catalog Hacc). simpl.
       destruct Hacc as [_ Hfresh]. unfold QuizQuestions.removeQuestion.
       rewrite (list_find_app_r _ _ _ (Hfind Hfresh)). simpl.
       rewrite decide_True by done. simpl.
       rewrite (delete_middle catalog [] (categorised q)).
       by rewrite app_nil_r. }
  2: { intros Hfresh. unfold QuizQuestions.removeQuestion.
       by rewrite (Hfind Hfresh). }
  intros Hnd.
  destruct (decide (complete_entry q = true)) as [Hc|Hc];
    [destruct (decide (QuizQuestions.Data.id q
                       ∈ map QuizQuestions.Data.id catalog)) as [Hin|Hin]|].
  - destruct (catalog_add_fail q catalog) as [e ->]; [|exact Hnd].
    intros [_ Hfresh]. by apply Hfresh.
  - rewrite catalog_add_ok by (by split). simpl.
    rewrite map_app. simpl. apply NoDup_app. split; [exact Hnd|].
    split; [|apply NoDup_singleton].
    intros i Hi Hi'. apply list_elem_of_singleton in Hi'. by subst i.
  - destruct (catalog_add_fail q catalog) as [e ->]; [|exact Hnd].
    intros [Hc' _]. by apply Hc.
Qed.

Lemma X27_catalog_addQuestion_witness :
  QuizQuestions.addQuestion Scenario.newEntry QuizQuestions.questions
  = (Returned tt,
     QuizQuestions.questions ++ [categorised Scenario.newEntry]).
Proof.
  destruct (X27_catalog_addQuestion Scenario.newEntry QuizQuestions.questions)
    as [H _].
  apply H. split; [reflexivity|].
  apply find_id_none. reflexivity.
Defined.

Lemma MultipleChoice_new_inv (id : Z) (text : string) (options : list string)
    (correctAnswer : string) (q : Question.t) :
  MultipleChoiceQuestion.new id text options correctAnswer = Return q →
  q = Question.mk id text options correctAnswer "multiple-choice" None ∧
  id ≠ 0 ∧ text ≠ "" ∧ correctAnswer ≠ "" ∧ correctAnswer ∈ options ∧
  (2 <= length options <= 6)%nat.
Proof.
  unfold MultipleChoiceQuestion.new,
    MultipleChoiceQuestion._validateMultipleChoiceOptions.
  destruct (Question_new_run id text options correctAnswer "multiple-choice")
    as [(H1 & H2 & H3 & H4 & ->) | (_ & e & ->)]; [|discriminate].
  simpl. destruct (Nat.ltb_spec (length options) 2); simpl; [discriminate|].
  destruct (Nat.ltb_spec 6 (length options)); simpl; [discriminate|].
  intros [= <-]. repeat split; auto; lia.
Qed.

Lemma createQuestionInstance_inv (questionData : QuizQuestions.Data.t)
    (q : Question.t) :
  QuizQuestions.createQuestionInstance questionData = Returned q →
  Question._id q = QuizQuestions.Data.id questionData ∧
  Question._text q = QuizQuestions.Data.text questionData ∧
  Question._correctAnswer q = QuizQuestions.Data.correctAnswer questionData ∧
  Question._type q = QuizQuestions.Data.type questionData ∧
  Question._selectedAnswer q = None ∧
  variant_shaped q.
Proof.
  unfold QuizQuestions.createQuestionInstance.
  destruct (String.eqb_spec (QuizQuestions.Data.type questionData) "true-false")
    as [Htf|_].
  - destruct (TrueFalseQuestion.new _ _ _) as [x|e] eqn:Hnew; [|discriminate].
    intros [= <-].
    apply TrueFalse_new_inv in Hnew as (-> & H1 & H2 & Hc). simpl.
    do 3 (split; [reflexivity|]). split; [by symmetry|].
    split; [reflexivity|]. split; [exact H1|]. split; [exact H2|].
    split; [destruct Hc as [-> | ->]; discriminate|].
    split; [destruct Hc as [-> | ->]; apply includes_elem_of; reflexivity|].
    split; [intros a Ha; discriminate Ha|].
    left. by split.
  - destruct (String.eqb_spec (QuizQuestions.Data.type questionData)
                              "multiple-choice") as [Hmc|_]; [|discriminate].
    destruct (QuizQuestions.Data.options questionData) as [options|];
      [|discriminate].
    destruct (MultipleChoiceQuestion.new _ _ _ _) as [x|e] eqn:Hnew;
      [|discriminate].
    intros [= <-].
    apply MultipleChoice_new_inv in Hnew as (-> & H1 & H2 & H3 & H4 & H5).
    simpl. do 3 (split; [reflexivity|]). split; [by symmetry|].
    split; [reflexivity|]. split; [exact H1|]. split; [exact H2|].
    split; [exact H3|]. split; [exact H4|].
    split; [intros a Ha; discriminate Ha|].
    right. simpl. split; [reflexivity | lia].
Qed.

Lemma new_quiz_inv (qs : list Question.t) (options : Options.t)
    (random : nat → float) :
  unique_ids qs → Forall answer_valid qs →
  quiz_inv (Quiz.new qs options random).
Proof.
  intros Hnd Hv.
  pose proof (new_questions_Permutation qs options random) as Hperm.
  split.
  - unfold unique_ids in *.
    change (map Question._id (Quiz._questions (Quiz.new qs options random)))
      with (Question._id <$> Quiz._questions (Quiz.new qs options random)).
    rewrite Hperm. exact Hnd.
  - rewrite Hperm. exact Hv.
Qed.

(** X28: [createQuestionInstances]. When it returns, the questions are
    unanswered, one per catalog entry in the catalog's order with the
    entry's id, each of the shape of its variant; so a catalog with
    pairwise different ids gives a quiz, built by the constructor with any
    options, whose ids are pairwise different. One entry whose type is
    neither ["true-false"] nor ["multiple-choice"] makes the call throw. *)
Theorem X28_createQuestionInstances (catalog : list QuizQuestions.Data.t) :
  (∀ qs, QuizQuestions.createQuestionInstances catalog = Returned qs →
     map Question._id qs = map QuizQuestions.Data.id catalog ∧
     Forall variant_shaped qs ∧
     Forall (λ question, Question._selectedAnswer question = None) qs ∧
     (NoDup (map QuizQuestions.Data.id catalog) →
      ∀ options random, quiz_inv (Quiz.new qs options random))) ∧
  (∀ questionData, questionData ∈ catalog →
     QuizQuestions.Data.type questionData ≠ "true-false" →
     QuizQuestions.Data.type questionData ≠ "multiple-choice" →
     ∃ e, QuizQuestions.createQuestionInstances catalog = Thrown e).
Proof.
  assert (Hmain : ∀ qs,
            QuizQuestions.createQuestionInstances catalog = Returned qs →
            map Question._id qs = map QuizQuestions.Data.id catalog ∧
            Forall variant_shaped qs ∧
            Forall (λ question, Question._selectedAnswer question = None) qs).
  { induction catalog as [|d catalog IH]; intros qs; simpl.
    - intros [= <-]. by repeat split.
    - destruct (QuizQuestions.createQuestionInstance d) as [x|e] eqn:Hx;
        [|discriminate].
      destruct (QuizQuestions.createQuestionInstances catalog) as [xs|e];
        [|discriminate].
      intros [= <-].
      apply createQuestionInstance_inv in Hx as (Hid & _ & _ & _ & Hsel & Hsh).
      destruct (IH xs eq_refl) as (Hids & Hshs & Hsels).
      simpl. rewrite Hid, Hids. repeat split; by constructor. }
  split.
  - intros qs Hqs. destruct (Hmain qs Hqs) as (Hids & Hsh & Hsel).
    split; [exact Hids|]. split; [exact Hsh|]. split; [exact Hsel|].
    intros Hnd options random. apply new_quiz_inv.
    + unfold unique_ids. by rewrite Hids.
    + eapply Forall_impl; [exact Hsh|]. by intros x (_ & _ & _ & _ & Hv & _).
  - clear Hmain. intros d Hd Htf Hmc.
    induction catalog as [|d' catalog IH]; [inversion Hd|].
    simpl. apply elem_of_cons in Hd as [<-|Hd].
    + unfold QuizQuestions.createQuestionInstance.
      apply String.eqb_neq in Htf, Hmc. rewrite Htf, Hmc. by eexists.
    + destruct (QuizQuestions.createQuestionInstance d'); [|by eexists].
      destruct (IH Hd) as [e ->]. by eexists.
Qed.

Lemma X28_createQuestionInstances_witness :
  ∃ e, QuizQuestions.createQuestionInstances
         [Scenario.newEntry;
          QuizQuestions.Data.mk 14 "essay" "Describe a closure." None "n/a" None]
       = Thrown e.
Proof.
  destruct (X28_createQuestionInstances
              [Scenario.newEntry;
               QuizQuestions.Data.mk 14 "essay" "Describe a closure." None
                                     "n/a" None]) as [_ H].
  apply (H (QuizQuestions.Data.mk 14 "essay" "Describe a closure." None
                                  "n/a" None)).
  - apply elem_of_cons. right. apply elem_of_cons. by left.
  - discriminate.
  - discriminate.
Defined.

(** X29: the catalog of the file and the fallback questions of the
    application are the same twelve questions. [createQuestionInstances]
    on the catalog returns, [_createFallbackQuestions] returns the same
    list, and its ids are 1 to 12 in order. *)
Theorem X29_catalog_and_fallback :
  ∃ qs,
    QuizQuestions.createQuestionInstances QuizQuestions.questions = Returned qs ∧
    QuizApp._createFallbackQuestions = Return qs ∧
    map Question._id qs = map Z.of_nat (seq 1 12) ∧
    map QuizQuestions.Data.id QuizQuestions.questions = map Question._id qs.
Proof.
  eexists. split; [vm_compute; reflexivity|].
  split; [vm_compute; reflexivity|].
  split; vm_compute; reflexivity.
Qed.

Lemma addAll_run (l catalog : list QuizQuestions.Data.t) :
  all_acceptable l catalog →
  QuizQuestions.addAll l catalog = (Returned tt, catalog ++ map categorised l).
Proof.
  revert catalog. induction l as [|q l IH]; intros catalog (Hc & Hnd & Hfresh).
  - simpl. by rewrite app_nil_r.
  - simpl. apply Forall_cons in Hc as [Hq Hc].
    simpl in Hnd. apply NoDup_cons in Hnd as [Hq' Hnd].
    rewrite catalog_add_ok.
    2: { split; [exact Hq|]. apply Hfresh, list_elem_of_here. }
    rewrite IH.
    + by rewrite <- app_assoc.
    + split; [exact Hc|]. split; [exact Hnd|].
      intros q0 Hq0. rewrite map_app. simpl.
      intros Hin. apply elem_of_app in Hin as [Hin|Hin].
      * by apply (Hfresh q0); [apply list_elem_of_further|].
      * apply list_elem_of_singleton in Hin. apply Hq'. rewrite <- Hin.
        change (map QuizQuestions.Data.id l) with (QuizQuestions.Data.id <$> l).
        by apply list_elem_of_fmap_2.
Qed.

Lemma addAll_stop (good rest catalog : list QuizQuestions.Data.t)
    (bad : QuizQuestions.Data.t) :
  all_acceptable good catalog →
  ¬ acceptable bad (catalog ++ map categorised good) →
  ∃ e, QuizQuestions.addAll (good ++ bad :: rest) catalog
       = (Thrown e, catalog ++ map categorised good).
Proof.
  revert catalog. induction good as [|q good IH];
    intros catalog (Hc & Hnd & Hfresh) Hbad.
  - simpl in *. rewrite app_nil_r in *.
    destruct (catalog_add_fail bad catalog Hbad) as [e ->]. by eexists.
  - simpl. apply Forall_cons in Hc as [Hq Hc].
    simpl in Hnd. apply NoDup_cons in Hnd as [Hq' Hnd].
    rewrite catalog_add_ok.
    2: { split; [exact Hq|]. apply Hfresh, list_elem_of_here. }
    destruct (IH (catalog ++ [categorised q])) as [e He].
    + split; [exact Hc|]. split; [exact Hnd|].
      intros q0 Hq0. rewrite map_app. simpl.
      intros Hin. apply elem_of_app in Hin as [Hin|Hin].
      * by apply (Hfresh q0); [apply list_elem_of_further|].
      * apply list_elem_of_singleton in Hin. apply Hq'. rewrite <- Hin.
        change (map QuizQuestions.Data.id good)
          with (QuizQuestions.Data.id <$> good).
        by apply list_elem_of_fmap_2.
    + simpl in Hbad. by rewrite <- app_assoc.
    + exists e. rewrite He. simpl. by rewrite <- app_assoc.
Qed.

(** X30: [importFromJSON]. Entries that can be added one after the other
    (complete, with pairwise different ids that the catalog in use does
    not hold) are all added: in replace mode the catalog becomes the
    imported entries, in append mode they follow the old ones. When an
    entry cannot be added the call throws and the entries before it stay:
    in replace mode the old catalog is lost all the same. A text that does
    not parse, or without a questions array, throws and leaves the catalog
    as it is. *)
Theorem X30_importFromJSON (append : bool)
    (catalog : list QuizQuestions.Data.t) :
  let base := if append then catalog else [] in
  (∀ l, all_acceptable l base →
     QuizQuestions.importFromJSON (QuizQuestions.Parsed (Some l)) append catalog
     = (Returned tt, base ++ map categorised l)) ∧
  (∀ good bad rest,
     all_acceptable good base →
     ¬ acceptable bad (base ++ map categorised good) →
     ∃ e, QuizQuestions.importFromJSON
            (QuizQuestions.Parsed (Some (good ++ bad :: rest))) append catalog
          = (Thrown (QuizQuestions.ImportFailed e),
             base ++ map categorised good)) ∧
  (∃ e, QuizQuestions.importFromJSON QuizQuestions.BadJSON append catalog
        = (Thrown e, catalog)) ∧
  (∃ e, QuizQuestions.importFromJSON (QuizQuestions.Parsed None) append catalog
        = (Thrown e, catalog)).
Proof.
  intros base. split; [|split; [|split]].
  - intros l Hl. unfold QuizQuestions.importFromJSON. fold base.
    by rewrite (addAll_run l base Hl).
  - intros good bad rest Hgood Hbad.
    unfold QuizQuestions.importFromJSON. fold base.
    destruct (addAll_stop good rest base bad Hgood Hbad) as [e ->].
    by exists e.
  - by eexists.
  - by eexists.
Qed.

Lemma X30_importFromJSON_witness :
  ∃ e, QuizQuestions.importFromJSON
         (QuizQuestions.Parsed
            (Some ([Scenario.newEntry] ++ Scenario.newEntry :: [])))
         false QuizQuestions.questions
       = (Thrown (QuizQuestions.ImportFailed e), [categorised Scenario.newEntry]).
Proof.
  destruct (X30_importFromJSON false QuizQuestions.questions) as (_ & H & _).
  apply (H [Scenario.newEntry] Scenario.newEntry []).
  - split; [by constructor|]. split.
    + simpl. apply NoDup_singleton.
    + intros q _ Hin. inversion Hin.
  - intros [_ Hfresh]. apply Hfresh. simpl. apply list_elem_of_here.
Defined.
